(** * eta.core.serial: the serialization and collection framework

    A shallow embedding of [eta/core/serial.py] (and of [get_class] /
    [get_class_name] from [eta/core/utils.py]) together with the
    properties of its document codec, of [Serializable], of [Container]
    and of [Set].

    Python values are represented by the inductive type [pyval]; an
    object is its class name plus its instance dictionary.  Methods
    become functions that take [self] and return the updated [self].
    Exceptions are values of [exn] carried by [result].  The recursive
    methods ([serialize], [_recurse], [from_dict]) take a recursion
    budget and raise [RecursionError] when it is exhausted, as the
    interpreter does. *)

From Stdlib Require Import ZArith List String Ascii Bool Arith Lia.
From Stdlib Require Import Permutation Sorted.
Import ListNotations.

Local Open Scope string_scope.
Local Open Scope list_scope.

Set Warnings "-register-all".

(* ================================================================== *)
(** ** Exceptions and results *)

Inductive exn : Type :=
| NotImplementedError
| ContainerError
| SetError
| KeyError
| TypeError
| AttributeError
| ImportError
| ValueError
| IOError
| RecursionError
| Unmodelled.   (* behaviour that the value model does not represent:
                   what depends on object identity, and what an
                   instance finds on its class *)

Inductive result (A : Type) : Type :=
| Ok (a : A)
| Raise (e : exn).

Arguments Ok {A} a.
Arguments Raise {A} e.

Definition bind {A B : Type} (r : result A) (k : A -> result B) : result B :=
  match r with
  | Ok a => k a
  | Raise e => Raise e
  end.

Notation "x <- r ;; k" := (bind r (fun x => k))
  (at level 61, r at next level, right associativity).

Definition is_ok {A : Type} (r : result A) : bool :=
  match r with Ok _ => true | Raise _ => false end.

(* ================================================================== *)
(** ** Python values *)

(** Hashable dictionary keys.  [True] and [False] hash and compare equal
    to [1] and [0], so booleans are stored as integers. *)
Inductive pykey : Type :=
| KNone
| KInt (z : Z)
| KStr (s : string).

Definition key_eqb (a b : pykey) : bool :=
  match a, b with
  | KNone, KNone => true
  | KInt x, KInt y => Z.eqb x y
  | KStr x, KStr y => String.eqb x y
  | _, _ => false
  end.

(** Values: [None], booleans, integers, strings, lists, dictionaries
    (insertion ordered, as [dict] and [OrderedDict] are) and objects.
    Floats, tuples and built-in sets are not represented. *)
Inductive pyval : Type :=
| VNone
| VBool (b : bool)
| VInt (z : Z)
| VStr (s : string)
| VList (l : list pyval)
| VDict (d : list (pykey * pyval))
| VObj (cls : string) (vars : list (string * pyval)).

(** Truth value of [v] in a boolean context.  The truth value of an
    object depends on whether its class defines [__bool__] / [__len__];
    it is left outside the model. *)
Definition truthy (v : pyval) : result bool :=
  match v with
  | VNone => Ok false
  | VBool b => Ok b
  | VInt z => Ok (negb (Z.eqb z 0))
  | VStr s => Ok (negb (String.eqb s ""))
  | VList l => Ok (match l with [] => false | _ => true end)
  | VDict d => Ok (match d with [] => false | _ => true end)
  | VObj _ _ => Raise Unmodelled
  end.

(** [hash(v)] as far as dictionaries need it: the key under which [v] is
    stored.  Lists and dictionaries are unhashable; objects hash by
    identity. *)
Definition to_key (v : pyval) : result pykey :=
  match v with
  | VNone => Ok KNone
  | VBool b => Ok (KInt (Z.b2z b))
  | VInt z => Ok (KInt z)
  | VStr s => Ok (KStr s)
  | VList _ | VDict _ => Raise TypeError
  | VObj _ _ => Raise Unmodelled
  end.

(* ================================================================== *)
(** ** Insertion-ordered dictionaries *)

Section OrderedDict.
Context {V : Type}.

Definition odict := list (pykey * V).

(** [d[k]], [None] standing for [KeyError]. *)
Fixpoint od_get (k : pykey) (d : odict) : option V :=
  match d with
  | [] => None
  | (k', v) :: r => if key_eqb k' k then Some v else od_get k r
  end.

(** [k in d] *)
Definition od_mem (k : pykey) (d : odict) : bool :=
  match od_get k d with Some _ => true | None => false end.

(** [d[k] = v]: an existing key keeps its position, a new key goes to
    the end. *)
Fixpoint od_set (k : pykey) (v : V) (d : odict) : odict :=
  match d with
  | [] => [(k, v)]
  | (k', v') :: r =>
      if key_eqb k' k then (k', v) :: r else (k', v') :: od_set k v r
  end.

(** [del d[k]] on a dictionary that has the key; [d.pop(k)] returns
    [od_get k d] and leaves [od_del k d]. *)
Definition od_del (k : pykey) (d : odict) : odict :=
  filter (fun kv => negb (key_eqb (fst kv) k)) d.

(** [d.update(other)] and [OrderedDict(pairs)]. *)
Definition od_update (d : odict) (other : list (pykey * V)) : odict :=
  fold_left (fun acc kv => od_set (fst kv) (snd kv) acc) other d.

Definition od_of_list (pairs : list (pykey * V)) : odict :=
  od_update [] pairs.

Definition od_keys (d : odict) : list pykey := map fst d.
Definition od_values (d : odict) : list V := map snd d.

End OrderedDict.

Arguments odict V : clear implicits.

(* ================================================================== *)
(** ** String helpers *)

(** [s.split(sep)] for a one-character separator. *)
Fixpoint split_on (sep : ascii) (s : string) : list string :=
  match s with
  | EmptyString => [EmptyString]
  | String c r =>
      if Ascii.eqb c sep then EmptyString :: split_on sep r
      else match split_on sep r with
           | h :: t => String c h :: t
           | [] => [String c EmptyString]
           end
  end.

(** [s.rsplit(sep, 1)] when it yields two parts; [None] when [sep] does
    not occur in [s]. *)
Fixpoint rsplit1 (sep : ascii) (s : string) : option (string * string) :=
  match s with
  | EmptyString => None
  | String c r =>
      match rsplit1 sep r with
      | Some (a, b) => Some (String c a, b)
      | None => if Ascii.eqb c sep then Some (EmptyString, r) else None
      end
  end.

(** [s.startswith("_")] *)
Definition is_private (s : string) : bool := String.prefix "_" s.

(* ================================================================== *)
(** ** The document codec: [load_json] *)

(** What the file system holds at a path. *)
Inductive file_state : Type :=
| NoFile                      (* [os.path.isfile] is false *)
| Unreadable                  (* a file that [open] cannot read *)
| FileText (text : string).

Section Codec.
(** [json.loads] on a [str]: [None] stands for the [ValueError]
    ([JSONDecodeError]) it raises on text that is not JSON. *)
Variable json_loads : string -> option pyval.
Variable fs : string -> file_state.

(** On a [str] argument [json.loads] never raises [TypeError], so the
    [bytes] fallback of [_load_json] is not taken. *)
Definition _load_json (s : string) : result pyval :=
  match json_loads s with
  | Some v => Ok v
  | None => Raise ValueError
  end.

Definition isfile (path : string) : bool :=
  match fs path with NoFile => false | _ => true end.

Definition read_json (path : string) : result pyval :=
  match fs path with
  | NoFile | Unreadable => Raise IOError
  | FileText text =>
      match json_loads text with
      | Some v => Ok v
      | None => Raise ValueError
      end
  end.

(** The loop over [path_or_str.split(",")] filling [d]. *)
Fixpoint load_chunks (chunks : list string) (d : odict pyval)
  : result (odict pyval) :=
  match chunks with
  | [] => Ok d
  | chunk :: rest =>
      match split_on "=" chunk with
      | [key; value] =>
          v <- _load_json value ;;
          load_chunks rest (od_set (KStr key) v d)
      | _ => Raise ValueError
      end
  end.

Definition load_key_values (s : string) : result pyval :=
  d <- load_chunks (split_on "," s) [] ;; Ok (VDict d).

Definition load_json (path_or_str : string) : result pyval :=
  match _load_json path_or_str with
  | Ok v => Ok v
  | Raise ValueError =>
      if isfile path_or_str then read_json path_or_str
      else match load_key_values path_or_str with
           | Raise ValueError => Raise ValueError
           | r => r
           end
  | Raise e => Raise e
  end.

(** The three interpretations, each as an attempt of its own. *)
Definition as_file (s : string) : result pyval :=
  if isfile s then read_json s else Raise ValueError.
Definition as_literal (s : string) : result pyval := _load_json s.
Definition as_key_values (s : string) : result pyval := load_key_values s.

(** First attempt that succeeds; [ValueError] when none does. *)
Fixpoint first_ok (attempts : list (result pyval)) : result pyval :=
  match attempts with
  | [] => Raise ValueError
  | Ok v :: _ => Ok v
  | Raise _ :: rest => first_ok rest
  end.

(** [load_json] as the specification words it: file path, then literal
    document, then key=value shorthand. *)
Definition load_json_spec (s : string) : result pyval :=
  first_ok [as_file s; as_literal s; as_key_values s].

End Codec.

(* ================================================================== *)
(** ** Classes *)

(** A class: its module and name, the fully-qualified names of its
    ancestors, the class-level configuration members of [Container] and
    [Set], and the methods it overrides.  [None] in an override field
    means the method is inherited from the framework.  A [from_dict] of
    the class's own takes the dictionary and gives its result together
    with the dictionary as it leaves it.  A class defines no attribute
    besides: a further method, class attribute or property of a class
    is outside the model. *)
Inductive pyclass : Type := Build_pyclass {
  c_module : string;
  c_name : string;
  c_mro : list string;
  c_ELE_CLS : option pyclass;
  c_ELE_KEY_ATTR : option string;
  c_ELE_CLS_FIELD : option string;
  c_ELE_ATTR : option string;
  c_from_dict : option (pyval -> result pyval * pyval);
  c_serialize : option (pyval -> bool -> result pyval);
  c_attributes : option (pyval -> list string)
}.

Definition SERIALIZABLE : string := "eta.core.serial.Serializable".
Definition CONTAINER : string := "eta.core.serial.Container".
Definition SET : string := "eta.core.serial.Set".

(** [etau.get_class_name(cls)] *)
Definition get_class_name (cls : pyclass) : string :=
  c_module cls ++ "." ++ c_name cls.

(** [issubclass(cls, base)], the base given by its qualified name. *)
Definition issubclass (cls : pyclass) (base : string) : bool :=
  String.eqb (get_class_name cls) base
  || existsb (String.eqb base) (c_mro cls).

(** Which framework class provides the methods a class inherits. *)
Inductive kind : Type := Plain | ContainerKind | SetKind.

Definition kind_of (cls : pyclass) : kind :=
  if issubclass cls CONTAINER then ContainerKind
  else if issubclass cls SET then SetKind
  else Plain.

(** The three classes of the framework themselves. *)
Definition Serializable_cls : pyclass :=
  Build_pyclass "eta.core.serial" "Serializable" []
                None None None None None None None.
Definition Container_cls : pyclass :=
  Build_pyclass "eta.core.serial" "Container" [SERIALIZABLE]
                None None (Some "_ELEMENT_CLS") (Some "elements")
                None None None.
Definition Set_cls : pyclass :=
  Build_pyclass "eta.core.serial" "Set" [SERIALIZABLE]
                None None (Some "_ELEMENT_CLS") (Some "elements")
                None None None.

(** Iterables handed to a constructor: a list, a tuple, or a one-shot
    iterator (a generator) with the items it has yet to yield. *)
Inductive iterable : Type :=
| ItList (l : list pyval)
| ItTuple (l : list pyval)
| ItGen (pending : list pyval).

(** The items a [for] loop over the iterable sees, and the iterable once
    the loop has run to its end. *)
Definition iter_items (it : iterable) : list pyval :=
  match it with ItList l | ItTuple l | ItGen l => l end.

Definition iter_after (it : iterable) : iterable :=
  match it with
  | ItGen _ => ItGen []
  | _ => it
  end.

Definition is_list (it : iterable) : bool :=
  match it with ItList _ => true | _ => false end.

(** Keyword arguments of a constructor call. *)
Definition kwargs := list (string * iterable).

Fixpoint assoc {A : Type} (k : string) (l : list (string * A)) : option A :=
  match l with
  | [] => None
  | (k', v) :: r => if String.eqb k' k then Some v else assoc k r
  end.

Fixpoint assoc_set {A : Type} (k : string) (v : A) (l : list (string * A))
  : list (string * A) :=
  match l with
  | [] => [(k, v)]
  | (k', v') :: r =>
      if String.eqb k' k then (k', v) :: r else (k', v') :: assoc_set k v r
  end.

(** The names that [Serializable], [Container] and [Set] define in
    their class bodies: methods, class attributes and properties. *)
Definition framework_names : list string :=
  ["get_class_name"; "attributes"; "custom_attributes"; "serialize";
   "_prepare_serial_dict"; "to_str"; "write_json"; "from_dict"; "from_str";
   "from_json"; "_ELE_CLS"; "_ELE_KEY_ATTR"; "_ELE_CLS_FIELD"; "_ELE_ATTR";
   "get_element_class"; "get_element_class_name"; "get_key"; "size";
   "clear"; "copy"; "add"; "add_set"; "add_container"; "add_iterable";
   "filter_elements"; "delete_keys"; "keep_keys"; "extract_keys";
   "delete_inds"; "keep_inds"; "extract_inds"; "count_matches";
   "get_matches"; "sort_by"; "_filter_elements"; "_validate"].

(** A name that an instance may find on its class rather than in its
    own dictionary: one of the names above, or a name with two leading
    underscores ([__class__], [__dict__], [__init__], [__elements__]
    and the like).  The model keeps these names apart for the
    instances of every class, also of a class that defines only some
    of them. *)
Definition class_level (name : string) : bool :=
  String.prefix "__" name || existsb (String.eqb name) framework_names.

(** The instance dictionary hides no name of the class. *)
Definition own_names (vars : list (string * pyval)) : bool :=
  forallb (fun av => negb (class_level (fst av))) vars.

(** The read-only properties of [Container] and [Set]. *)
Definition read_only (cls : pyclass) (name : string) : bool :=
  match kind_of cls with
  | Plain => false
  | _ => String.eqb name "__elements__" || String.eqb name "size"
  end.

(** [getattr(self, name)] on an instance attribute.  What is found
    under a name that the class defines (a bound method, a class
    attribute, the value of a property such as [size]) is outside the
    model, and so are an instance whose dictionary hides such a name,
    on which the methods of the class can no longer be called, and the
    attributes of values that are no objects. *)
Definition getattr (self : pyval) (name : option string) : result pyval :=
  match name with
  | None => Raise TypeError
  | Some a =>
      match self with
      | VObj _ vars =>
          if class_level a || negb (own_names vars) then Raise Unmodelled
          else
            match assoc a vars with
            | Some v => Ok v
            | None => Raise AttributeError
            end
      | _ => Raise Unmodelled
      end
  end.

(** [setattr(self, name, v)] on an instance [self] of [cls]: a
    property without a setter cannot be assigned to.  Assigning to any
    other name that the class defines would hide it; what the instance
    does from then on is outside the model. *)
Definition setattr (cls : pyclass) (self : pyval) (name : option string)
           (v : pyval) : result pyval :=
  match name with
  | None => Raise TypeError
  | Some a =>
      match self with
      | VObj cn vars =>
          if read_only cls a then Raise AttributeError
          else if class_level a || negb (own_names vars)
               then Raise Unmodelled
               else Ok (VObj cn (assoc_set a v vars))
      | _ => Raise AttributeError
      end
  end.

(** An object whose dictionary hides no name of its class, and
    [attr in vars(e)] on an object. *)
Definition own_object (e : pyval) : bool :=
  match e with
  | VObj _ vars => own_names vars
  | _ => false
  end.


(** The class stores its elements under a name of its own, one that
    hides none of the names it defines; [clear], and so the
    constructor, needs it. *)
Definition own_ELE_ATTR (cls : pyclass) : bool :=
  match c_ELE_ATTR cls with
  | Some a => negb (class_level a)
  | None => false
  end.

Fixpoint map_result {A B : Type} (f : A -> result B) (l : list A)
  : result (list B) :=
  match l with
  | [] => Ok []
  | x :: r => y <- f x ;; ys <- map_result f r ;; Ok (y :: ys)
  end.

(** A computation that reads and updates a state [S] and may raise.  The
    state survives an exception. *)
Definition St (S A : Type) : Type := S -> result A * S.

Definition ret {S A : Type} (a : A) : St S A := fun s => (Ok a, s).
Definition throw {S A : Type} (e : exn) : St S A := fun s => (Raise e, s).
Definition lift {S A : Type} (r : result A) : St S A := fun s => (r, s).

Definition sbind {S A B : Type} (m : St S A) (k : A -> St S B) : St S B :=
  fun s =>
    match m s with
    | (Ok a, s') => k a s'
    | (Raise e, s') => (Raise e, s')
    end.

Notation "x <~ m ;; k" := (sbind m (fun x => k))
  (at level 61, m at next level, right associativity).

(** The only global state is the random source behind [uuid4]: the
    number of identifiers drawn so far. *)
Definition world := nat.

(* ================================================================== *)
(** ** Comparison and sorting of values *)

Definition is_none (v : pyval) : bool :=
  match v with VNone => true | _ => false end.

(** The integer a number stands for ([bool] is a subclass of [int]). *)
Definition as_number (v : pyval) : option Z :=
  match v with
  | VInt z => Some z
  | VBool b => Some (Z.b2z b)
  | _ => None
  end.

(** [a == b].  Values of unrelated types are unequal; equality of two
    containers or of two objects is outside the model. *)
Definition py_eq (a b : pyval) : result bool :=
  match as_number a, as_number b with
  | Some x, Some y => Ok (Z.eqb x y)
  | _, _ =>
      match a, b with
      | VNone, VNone => Ok true
      | VStr x, VStr y => Ok (String.eqb x y)
      | VList _, VList _ | VDict _, VDict _ => Raise Unmodelled
      | VObj _ _, _ | _, VObj _ _ => Raise Unmodelled
      | _, _ => Ok false
      end
  end.

(** [a < b].  Numbers compare by value, strings by code point; ordering
    [None], or values of unrelated types, is a [TypeError]. *)
Definition py_lt (a b : pyval) : result bool :=
  match as_number a, as_number b with
  | Some x, Some y => Ok (Z.ltb x y)
  | _, _ =>
      match a, b with
      | VStr x, VStr y => Ok (String.ltb x y)
      | VList _, VList _ => Raise Unmodelled
      | VObj _ _, _ | _, VObj _ _ => Raise Unmodelled
      | _, _ => Raise TypeError
      end
  end.

(** [k1 < k2] on the pairs [(flag, val)] that [field_none_last] builds:
    the first components that differ under [==] decide. *)
Definition tuple_lt (k1 k2 : bool * pyval) : result bool :=
  if Bool.eqb (fst k1) (fst k2) then
    e <- py_eq (snd k1) (snd k2) ;;
    if e then Ok false else py_lt (snd k1) (snd k2)
  else Ok (negb (fst k1) && fst k2).

Section Sorting.
Context {K A : Type}.
Variable lt : K -> K -> result bool.

(** Insert [x] in front of the first element that is not smaller. *)
Fixpoint insert_keyed (x : K * A) (l : list (K * A)) : result (list (K * A)) :=
  match l with
  | [] => Ok [x]
  | y :: r =>
      c <- lt (fst y) (fst x) ;;
      if c then r' <- insert_keyed x r ;; Ok (y :: r')
      else Ok (x :: y :: r)
  end.

(** A stable sort that only uses [<] on the keys, as [list.sort] does. *)
Fixpoint stable_sort (l : list (K * A)) : result (list (K * A)) :=
  match l with
  | [] => Ok []
  | x :: r => s <- stable_sort r ;; insert_keyed x s
  end.

(** [sorted(l, key=key, reverse=reverse)]: the keys are computed once,
    and a descending sort reverses the list, sorts it, and reverses the
    outcome, which keeps elements with equal keys in their order. *)
Definition py_sorted (key : A -> result K) (reverse : bool) (l : list A)
  : result (list A) :=
  keyed <- map_result (fun x => k <- key x ;; Ok (k, x)) l ;;
  s <- (if reverse
        then r <- stable_sort (rev keyed) ;; Ok (rev r)
        else stable_sort keyed) ;;
  Ok (map snd s).

(** [x] may stand before [y] in ascending order: the key of [y] is not
    smaller than the key of [x]. *)
Definition keys_ordered (x y : K * A) : Prop := lt (fst y) (fst x) = Ok false.

End Sorting.

(** The two families of values that a sort can compare: numbers, and
    strings. *)
Definition in_family (numeric : bool) (v : pyval) : Prop :=
  if numeric then exists z, as_number v = Some z
  else exists s, v = VStr s.

(** Values that can be sorted together: apart from [None], all numbers
    or all strings. *)
Definition sortable (vals : list pyval) : Prop :=
  exists numeric,
    Forall (fun v => v = VNone \/ in_family numeric v) vals.

(** [u < v] as a boolean, false where the comparison raises. *)
Definition val_ltb (u v : pyval) : bool :=
  match py_lt u v with Ok b => b | Raise _ => false end.

(** The key [field_none_last] gives an element whose attribute is [v],
    and the order of two such keys. *)
Definition sort_key (reverse : bool) (v : pyval) : bool * pyval :=
  (xorb (is_none v) reverse, v).

Definition key_ltb (reverse : bool) (u v : pyval) : bool :=
  match is_none u, is_none v with
  | true, true => false
  | true, false => reverse
  | false, true => negb reverse
  | false, false => val_ltb u v
  end.

(** *** What [sort_by] is to achieve *)

Section SortSpec.
Context {X : Type}.
(** The value of the attribute the elements are sorted by. *)
Variable val : X -> result pyval.

Definition val_is_none (x : X) : bool :=
  match val x with Ok VNone => true | _ => false end.

(** The attribute of [x] equals [v]. *)
Definition has_val (v : pyval) (x : X) : bool :=
  match val x with
  | Ok u => match py_eq v u with Ok b => b | Raise _ => false end
  | Raise _ => false
  end.

(** The attribute of [y] is not smaller than that of [x]. *)
Definition not_after (x y : X) : Prop :=
  exists u v, val x = Ok u /\ val y = Ok v /\ py_lt v u = Ok false.

(** [r] is [l] sorted by the attribute, stably and with [None] last:
    [r] is a permutation of [l]; it consists of the elements whose
    attribute is not [None], in ascending (or, with [reverse],
    descending) order of the attribute, followed by the elements whose
    attribute is [None] in the order they have in [l]; and elements
    with equal attributes have the same order in [r] as in [l]. *)
Definition sorted_none_last (reverse : bool) (l r : list X) : Prop :=
  Permutation l r
  /\ (exists front,
         r = front ++ filter val_is_none l
         /\ Forall (fun x => val_is_none x = false) front
         /\ StronglySorted
              (fun x y => if reverse then not_after y x else not_after x y)
              front)
  /\ (forall v, filter (has_val v) r = filter (has_val v) l).

(** The elements of [l] have the attribute, with the values [vals]. *)
Definition attribute_values (l : list X) (vals : list pyval) : Prop :=
  Forall2 (fun x v => val x = Ok v) l vals.

(** A keyed element of the list that [sorted] sorts: the key is the
    key of the element's attribute, a value that is [None] or of the
    family. *)
Definition keyed_element (numeric reverse : bool)
           (p : (bool * pyval) * X) : Prop :=
  val (snd p) = Ok (snd (fst p))
  /\ fst p = sort_key reverse (snd (fst p))
  /\ (snd (fst p) = VNone \/ in_family numeric (snd (fst p))).

(** The list after the keys have been computed. *)
Definition keyed (reverse : bool) (l : list X) (vals : list pyval)
  : list ((bool * pyval) * X) :=
  map (fun xv => (sort_key reverse (snd xv), fst xv)) (combine l vals).

End SortSpec.

(** [any] and [all] on the outcomes of the filters. *)
Definition py_any (bs : list bool) : bool := existsb (fun b => b) bs.
Definition py_all (bs : list bool) : bool := forallb (fun b => b) bs.

(** The two combinators of the specification, the function each one
    passes as [match], and what it means for an element to match. *)
Inductive combinator : Type := MatchAny | MatchAll.

Definition combinator_fn (c : combinator) : list bool -> bool :=
  match c with MatchAny => py_any | MatchAll => py_all end.

Definition satisfies (c : combinator) (filters : list (pyval -> bool))
           (e : pyval) : bool :=
  match c with
  | MatchAny => existsb (fun f => f e) filters
  | MatchAll => forallb (fun f => f e) filters
  end.

(** [match(f(o) for f in filters)] *)
Definition matches (filters : list (pyval -> bool))
           (match_ : list bool -> bool) (o : pyval) : bool :=
  match_ (map (fun f => f o) filters).

Definition as_list (v : pyval) : result (list pyval) :=
  match v with VList l => Ok l | _ => Raise TypeError end.

Definition as_dict (v : pyval) : result (odict pyval) :=
  match v with VDict d => Ok d | _ => Raise TypeError end.

(** [k in d] *)
Definition py_contains (k : string) (d : pyval) : result bool :=
  match d with
  | VDict items => Ok (od_mem (KStr k) items)
  | VList l =>
      Ok (existsb (fun v => match v with
                            | VStr s => String.eqb s k
                            | _ => false
                            end) l)
  | VStr s => Ok (match index 0 k s with Some _ => true | None => false end)
  | VObj _ _ => Raise Unmodelled
  | _ => Raise TypeError
  end.

(** [d[k]] *)
Definition py_getitem (d : pyval) (k : pykey) : result pyval :=
  match d with
  | VDict items =>
      match od_get k items with
      | Some v => Ok v
      | None => Raise KeyError
      end
  | VObj _ _ => Raise Unmodelled
  | _ => Raise TypeError
  end.

(** [d.pop(k)]: the value removed and [d] afterwards. *)
Definition py_pop (k : string) (d : pyval) : result (pyval * pyval) :=
  match d with
  | VDict items =>
      match od_get (KStr k) items with
      | Some v => Ok (v, VDict (od_del (KStr k) items))
      | None => Raise KeyError
      end
  | VList _ => Raise TypeError
  | VObj _ _ => Raise Unmodelled
  | _ => Raise AttributeError
  end.

Definition key_of_name (name : option string) : pykey :=
  match name with Some a => KStr a | None => KNone end.

Definition val_of_key (k : pykey) : pyval :=
  match k with KNone => VNone | KInt z => VInt z | KStr s => VStr s end.

Fixpoint chars (s : string) : list pyval :=
  match s with
  | EmptyString => []
  | String c r => VStr (String c EmptyString) :: chars r
  end.

(** The items a [for] loop over [v] sees: the elements of a list, the
    keys of a dictionary, the characters of a string. *)
Definition py_iter (v : pyval) : result (list pyval) :=
  match v with
  | VList l => Ok l
  | VDict d => Ok (map val_of_key (od_keys d))
  | VStr s => Ok (chars s)
  | VObj _ _ => Raise Unmodelled
  | _ => Raise TypeError
  end.

(* ================================================================== *)
(** ** The framework *)

Section Framework.

(** The importable modules: a module name gives the classes the module
    defines, by name. *)
Variable modules : string -> option (string -> option pyclass).

(** [str(uuid4())] at the n-th call. *)
Variable uuid4 : nat -> string.

(** [etau.get_class(class_name)]: [rsplit] on the last dot, import of
    the module, lookup of the class in it.  [__import__] raises
    [ValueError] on an empty module name and [ImportError] on the name
    of a module that cannot be imported. *)
Definition get_class (class_name : pyval) : result pyclass :=
  match class_name with
  | VStr s =>
      match rsplit1 "." s with
      | None => Raise ImportError
      | Some (module_name, cname) =>
          if String.eqb module_name "" then Raise ValueError
          else
            match modules module_name with
            | None => Raise ImportError
            | Some namespace =>
                match namespace cname with
                | Some cls => Ok cls
                | None => Raise AttributeError
                end
            end
      end
  | _ => Raise AttributeError
  end.

(** The class of an object, found under the name the object carries. *)
Definition class_of (v : pyval) : option pyclass :=
  match v with
  | VObj cn _ =>
      match get_class (VStr cn) with
      | Ok cls => Some cls
      | Raise _ => None
      end
  | _ => None
  end.

(** [isinstance(v, base)] *)
Definition isinstance (v : pyval) (base : string) : bool :=
  match class_of v with
  | Some cls => issubclass cls base
  | None => false
  end.

(** *** Container *)

Definition Container_validate (cls : pyclass) : result unit :=
  match c_ELE_CLS cls with
  | None => Raise ContainerError
  | Some ele =>
      match c_ELE_ATTR cls with
      | None => Raise ContainerError
      | Some _ =>
          if issubclass ele SERIALIZABLE then Ok tt
          else Raise ContainerError
      end
  end.

(** The [__elements__] property. *)
Definition Container_elements (cls : pyclass) (self : pyval)
  : result (list pyval) :=
  v <- getattr self (c_ELE_ATTR cls) ;; as_list v.

Definition Container_size (cls : pyclass) (self : pyval) : result nat :=
  l <- Container_elements cls self ;; Ok (List.length l).

Definition Container_clear (cls : pyclass) (self : pyval) : result pyval :=
  setattr cls self (c_ELE_ATTR cls) (VList []).

Definition Container_add (cls : pyclass) (self instance : pyval)
  : result pyval :=
  l <- Container_elements cls self ;;
  setattr cls self (c_ELE_ATTR cls) (VList (l ++ [instance])).

Fixpoint Container_add_each (cls : pyclass) (self : pyval)
         (items : list pyval) : result pyval :=
  match items with
  | [] => Ok self
  | element :: rest =>
      self' <- Container_add cls self element ;;
      Container_add_each cls self' rest
  end.

Definition Container_add_iterable (cls : pyclass) (self : pyval)
           (elements : iterable) : result pyval :=
  if is_list elements then
    l <- Container_elements cls self ;;
    setattr cls self (c_ELE_ATTR cls) (VList (l ++ iter_items elements))
  else Container_add_each cls self (iter_items elements).

(** The type check of the constructors: the first element that is not an
    instance of [_ELE_CLS] raises [err]. *)
Fixpoint check_elements (ele_cls : pyclass) (err : exn)
         (items : list pyval) : result unit :=
  match items with
  | [] => Ok tt
  | e :: rest =>
      if isinstance e (get_class_name ele_cls)
      then check_elements ele_cls err rest
      else Raise err
  end.

(** [kwargs and attr not in kwargs] *)
Definition unexpected_kwargs (kw : kwargs) (attr : string) : bool :=
  match kw with
  | [] => false
  | _ => match assoc attr kw with Some _ => false | None => true end
  end.

(** [kwargs.get(attr, [])] *)
Definition kwargs_get (kw : kwargs) (attr : string) : iterable :=
  match assoc attr kw with Some it => it | None => ItList [] end.

(** The constructor call on a [Container] class, with its keyword
    arguments.  The loop of the type check runs the iterable to its end,
    so [add_iterable] receives the iterable as that loop leaves it. *)
Definition Container_init (cls : pyclass) (kw : kwargs) : result pyval :=
  let self := VObj (get_class_name cls) [] in
  _ <- Container_validate cls ;;
  match c_ELE_ATTR cls, c_ELE_CLS cls with
  | Some attr, Some ele_cls =>
      if unexpected_kwargs kw attr then Raise ContainerError
      else
        let elements := kwargs_get kw attr in
        _ <- check_elements ele_cls ContainerError (iter_items elements) ;;
        self <- Container_clear cls self ;;
        Container_add_iterable cls self (iter_after elements)
  | _, _ => Raise ContainerError
  end.

Definition Container__filter_elements (cls : pyclass) (self : pyval)
           (filters : list (pyval -> bool)) (match_ : list bool -> bool)
  : result (list pyval) :=
  l <- Container_elements cls self ;;
  Ok (filter (matches filters match_) l).

Definition Container_filter_elements (cls : pyclass) (self : pyval)
           (filters : list (pyval -> bool)) (match_ : list bool -> bool)
  : result pyval :=
  elements <- Container__filter_elements cls self filters match_ ;;
  setattr cls self (c_ELE_ATTR cls) (VList elements).

(** A new instance of [self.__class__] built from the matches, passed
    under the keyword [self._ELE_ATTR]; a keyword that is not a string
    is a [TypeError]. *)
Definition Container_get_matches (cls : pyclass) (self : pyval)
           (filters : list (pyval -> bool)) (match_ : list bool -> bool)
  : result pyval :=
  elements <- Container__filter_elements cls self filters match_ ;;
  match c_ELE_ATTR cls with
  | Some attr => Container_init cls [(attr, ItList elements)]
  | None => Raise TypeError
  end.

(** The sort key of [sort_by]. *)
Definition field_none_last (attr : string) (reverse : bool) (ele : pyval)
  : result (bool * pyval) :=
  val <- getattr ele (Some attr) ;;
  Ok (xorb (is_none val) reverse, val).

Definition Container_sort_by (cls : pyclass) (self : pyval)
           (attr : string) (reverse : bool) : result pyval :=
  l <- Container_elements cls self ;;
  elements <- py_sorted tuple_lt (field_none_last attr reverse) reverse l ;;
  setattr cls self (c_ELE_ATTR cls) (VList elements).

(** *** Set *)

Definition Set_validate (cls : pyclass) : result unit :=
  match c_ELE_CLS cls with
  | None => Raise SetError
  | Some ele =>
      match c_ELE_ATTR cls with
      | None => Raise SetError
      | Some _ =>
          if issubclass ele SERIALIZABLE then
            match c_ELE_KEY_ATTR cls with
            | None => Raise SetError
            | Some _ => Ok tt
            end
          else Raise SetError
      end
  end.

(** The [__elements__] property: the dictionary from keys to elements. *)
Definition Set_elements (cls : pyclass) (self : pyval)
  : result (odict pyval) :=
  v <- getattr self (c_ELE_ATTR cls) ;; as_dict v.

Definition Set_size (cls : pyclass) (self : pyval) : result nat :=
  d <- Set_elements cls self ;; Ok (List.length d).

Definition Set_get_key (cls : pyclass) (element : pyval) : result pyval :=
  getattr element (c_ELE_KEY_ATTR cls).

Definition Set_clear (cls : pyclass) (self : pyval) : result pyval :=
  setattr cls self (c_ELE_ATTR cls) (VDict []).

(** [copy.deepcopy(self)]: values have no identity, a copy is the value
    itself. *)
Definition Set_copy (self : pyval) : pyval := self.

Definition str_uuid4 : St world pyval :=
  fun w => (Ok (VStr (uuid4 w)), S w).

(** The keys that [n] draws make, from draw [w] on. *)
Definition drawn_keys (w n : nat) : list pykey :=
  map (fun i => KStr (uuid4 i)) (seq w n).

(** [key = self.get_key(element) or str(uuid4())], then
    [self.__elements__[key] = element]. *)
Definition Set_add (cls : pyclass) (self element : pyval)
  : St world pyval :=
  k <~ lift (Set_get_key cls element) ;;
  t <~ lift (truthy k) ;;
  key <~ (if t then ret k else str_uuid4) ;;
  lift (d <- Set_elements cls self ;;
        hk <- to_key key ;;
        setattr cls self (c_ELE_ATTR cls) (VDict (od_set hk element d))).

Fixpoint Set_add_each (cls : pyclass) (self : pyval) (items : list pyval)
  : St world pyval :=
  match items with
  | [] => ret self
  | element :: rest =>
      self' <~ Set_add cls self element ;;
      Set_add_each cls self' rest
  end.

Definition Set_add_iterable (cls : pyclass) (self : pyval)
           (elements : iterable) : St world pyval :=
  Set_add_each cls self (iter_items elements).

(** The constructor call on a [Set] class. *)
Definition Set_init (cls : pyclass) (kw : kwargs) : St world pyval :=
  let self := VObj (get_class_name cls) [] in
  _ <~ lift (Set_validate cls) ;;
  match c_ELE_ATTR cls, c_ELE_CLS cls with
  | Some attr, Some ele_cls =>
      if unexpected_kwargs kw attr then throw SetError
      else
        let elements := kwargs_get kw attr in
        _ <~ lift (check_elements ele_cls SetError (iter_items elements)) ;;
        self <~ lift (Set_clear cls self) ;;
        Set_add_iterable cls self (iter_after elements)
  | _, _ => throw SetError
  end.

Definition Set__filter_elements (cls : pyclass) (self : pyval)
           (filters : list (pyval -> bool)) (match_ : list bool -> bool)
  : result (odict pyval) :=
  d <- Set_elements cls self ;;
  Ok (od_of_list (filter (fun kv => matches filters match_ (snd kv)) d)).

Definition Set_filter_elements (cls : pyclass) (self : pyval)
           (filters : list (pyval -> bool)) (match_ : list bool -> bool)
  : result pyval :=
  elements <- Set__filter_elements cls self filters match_ ;;
  setattr cls self (c_ELE_ATTR cls) (VDict elements).

Definition Set_get_matches (cls : pyclass) (self : pyval)
           (filters : list (pyval -> bool)) (match_ : list bool -> bool)
  : result pyval :=
  let new_set := Set_copy self in
  Set_filter_elements cls new_set filters match_.

Definition Set_sort_by (cls : pyclass) (self : pyval)
           (attr : string) (reverse : bool) : result pyval :=
  d <- Set_elements cls self ;;
  pairs <- py_sorted tuple_lt
             (fun key_ele_pair =>
                field_none_last attr reverse (snd key_ele_pair))
             reverse d ;;
  setattr cls self (c_ELE_ATTR cls) (VDict (od_of_list pairs)).

(** *** Serialization *)

(** [Serializable.attributes]: the names in [vars(self)] that do not
    start with an underscore. *)
Definition Serializable_attributes (self : pyval) : list string :=
  match self with
  | VObj _ vars => filter (fun a => negb (is_private a)) (map fst vars)
  | _ => []
  end.

(** [self.attributes()], resolved on the class of [self]; [Container]
    and [Set] return [[self._ELE_ATTR]]. *)
Definition attributes (cls : pyclass) (self : pyval)
  : list (option string) :=
  match c_attributes cls with
  | Some f => map Some (f self)
  | None =>
      match kind_of cls with
      | Plain => map Some (Serializable_attributes self)
      | _ => [c_ELE_ATTR cls]
      end
  end.

Definition _prepare_serial_dict (cls : pyclass) (reflective : bool)
  : odict pyval :=
  if reflective then od_set (KStr "_CLS") (VStr (get_class_name cls)) []
  else [].

Section Serialize.
(** [_recurse] at the remaining recursion budget. *)
Variable recurse : pyval -> bool -> result pyval.

Fixpoint serialize_attrs (self : pyval) (reflective : bool)
         (attrs : list (option string)) (d : odict pyval)
  : result (odict pyval) :=
  match attrs with
  | [] => Ok d
  | a :: rest =>
      v <- getattr self a ;;
      j <- recurse v reflective ;;
      serialize_attrs self reflective rest (od_set (key_of_name a) j d)
  end.

Definition Serializable_serialize (cls : pyclass) (self : pyval)
           (reflective : bool) : result pyval :=
  let d := _prepare_serial_dict cls reflective in
  d <- serialize_attrs self reflective (attributes cls self) d ;;
  Ok (VDict d).

(** The reflective header of [Container.serialize] and [Set.serialize]:
    the class name and the element class name. *)
Definition collection_header (cls : pyclass) (reflective : bool)
  : result (odict pyval) :=
  if reflective then
    match c_ELE_CLS cls with
    | Some ele_cls =>
        Ok (od_set (key_of_name (c_ELE_CLS_FIELD cls))
                   (VStr (get_class_name ele_cls))
                   (od_set (KStr "_CLS") (VStr (get_class_name cls)) []))
    | None => Raise AttributeError
    end
  else Ok [].

Definition Container_serialize (cls : pyclass) (self : pyval)
           (reflective : bool) : result pyval :=
  d <- collection_header cls reflective ;;
  super <- Serializable_serialize cls self false ;;
  other <- as_dict super ;;
  Ok (VDict (od_update d other)).

Definition Set_serialize (cls : pyclass) (self : pyval)
           (reflective : bool) : result pyval :=
  d <- collection_header cls reflective ;;
  elements <- Set_elements cls self ;;
  let elements_list := VList (od_values elements) in
  j <- recurse elements_list reflective ;;
  Ok (VDict (od_set (key_of_name (c_ELE_ATTR cls)) j d)).

(** [self.serialize(reflective)], resolved on the class of [self]; an
    instance whose dictionary hides a name of its class, [serialize]
    itself for one, is outside the model. *)
Definition serialize_method (cls : pyclass) (self : pyval)
           (reflective : bool) : result pyval :=
  if negb (own_object self) then Raise Unmodelled else
  match c_serialize cls with
  | Some f => f self reflective
  | None =>
      match kind_of cls with
      | Plain => Serializable_serialize cls self reflective
      | ContainerKind => Container_serialize cls self reflective
      | SetKind => Set_serialize cls self reflective
      end
  end.

End Serialize.

Fixpoint _recurse (fuel : nat) (v : pyval) (reflective : bool)
  : result pyval :=
  match fuel with
  | O => Raise RecursionError
  | S n =>
      match class_of v with
      | Some cls =>
          if issubclass cls SERIALIZABLE
          then serialize_method (_recurse n) cls v reflective
          else Ok v
      | None =>
          match v with
          | VList l =>
              l' <- map_result (fun vi => _recurse n vi reflective) l ;;
              Ok (VList l')
          | VDict d =>
              d' <- map_result
                      (fun kv => j <- _recurse n (snd kv) reflective ;;
                                 Ok (fst kv, j)) d ;;
              Ok (VDict (od_of_list d'))
          | _ => Ok v
          end
      end
  end.

(** [self.serialize(reflective=reflective)] on an object. *)
Definition serialize (fuel : nat) (self : pyval) (reflective : bool)
  : result pyval :=
  match class_of self with
  | Some cls => serialize_method (_recurse fuel) cls self reflective
  | None => Raise AttributeError
  end.

(** *** Decoding *)

(** What a call [cls.from_dict(d)] leaves behind: the value returned or
    the exception raised, the dictionary [d] as the call leaves it (the
    caller's dictionary is passed by reference), and the state of the
    random source. *)
Definition outcome : Type := (result pyval * pyval * world)%type.

(** Class members that only [Container] and [Set] classes have. *)
Definition class_ELE_CLS_FIELD (cls : pyclass) : result (option string) :=
  match kind_of cls with
  | Plain => Raise AttributeError
  | _ => Ok (c_ELE_CLS_FIELD cls)
  end.

Definition class_ELE_ATTR (cls : pyclass) : result (option string) :=
  match kind_of cls with
  | Plain => Raise AttributeError
  | _ => Ok (c_ELE_ATTR cls)
  end.

(** The qualified name of the class of an object. *)
Definition obj_class (v : pyval) : option string :=
  match v with
  | VObj cn _ => Some cn
  | _ => None
  end.

(** The constructor call on [cls] with keyword arguments [kw].  A class
    that inherits [object.__init__] accepts no arguments. *)
Definition construct (cls : pyclass) (kw : kwargs) : St world pyval :=
  match kind_of cls with
  | ContainerKind => lift (Container_init cls kw)
  | SetKind => Set_init cls kw
  | Plain =>
      match kw with
      | [] => ret (VObj (get_class_name cls) [])
      | _ => throw TypeError
      end
  end.

Section Decode.
(** [from_dict] of any class at the remaining recursion budget. *)
Variable from_dict_rec : pyclass -> pyval -> world -> outcome.

Definition Serializable_from_dict (cls : pyclass) (d : pyval) (w : world)
  : outcome :=
  match py_contains "_CLS" d with
  | Raise e => (Raise e, d, w)
  | Ok false => (Raise NotImplementedError, d, w)
  | Ok true =>
      match py_pop "_CLS" d with
      | Raise e => (Raise e, d, w)
      | Ok (tag, d') =>
          match get_class tag with
          | Raise e => (Raise e, d', w)
          | Ok cls' => from_dict_rec cls' d' w
          end
      end
  end.

(** The list comprehension [[ele_cls.from_dict(dd) for dd in ...]]: the
    decoded elements, and the items as the calls leave them. *)
Fixpoint decode_elements (ele_cls : pyclass) (items : list pyval)
         (w : world) : result (list pyval) * list pyval * world :=
  match items with
  | [] => (Ok [], [], w)
  | dd :: rest =>
      match from_dict_rec ele_cls dd w with
      | (Raise e, dd', w') => (Raise e, dd' :: rest, w')
      | (Ok o, dd', w') =>
          match decode_elements ele_cls rest w' with
          | (Raise e, rest', w'') => (Raise e, dd' :: rest', w'')
          | (Ok os, rest', w'') => (Ok (o :: os), dd' :: rest', w'')
          end
      end
  end.

(** The class to build and the class of its elements: read from the
    document when it carries a ["_CLS"] tag, else those of [cls], after
    [cls()] has validated the settings of [cls]. *)
Definition resolve_classes (err : exn) (cls : pyclass) (field : string)
           (d : pyval) (w : world) : result (pyclass * pyclass) * world :=
  match py_contains "_CLS" d with
  | Raise e => (Raise e, w)
  | Ok true =>
      (has <- py_contains field d ;;
       if negb has then Raise err
       else
         tag <- py_getitem d (KStr "_CLS") ;;
         cls' <- get_class tag ;;
         field' <- class_ELE_CLS_FIELD cls' ;;
         ele_tag <- py_getitem d (key_of_name field') ;;
         ele_cls <- get_class ele_tag ;;
         Ok (cls', ele_cls), w)
  | Ok false =>
      match construct cls [] w with
      | (Raise e, w') => (Raise e, w')
      | (Ok _, w') =>
          match c_ELE_CLS cls with
          | Some ele_cls => (Ok (cls, ele_cls), w')
          | None => (Raise err, w')
          end
      end
  end.

(** The body shared by [Container.from_dict] and [Set.from_dict], which
    differ in the exception they raise. *)
Definition collection_from_dict (err : exn) (cls : pyclass) (d : pyval)
           (w : world) : outcome :=
  match c_ELE_CLS_FIELD cls with
  | None => (Raise err, d, w)
  | Some field =>
      match resolve_classes err cls field d w with
      | (Raise e, w1) => (Raise e, d, w1)
      | (Ok (cls', ele_cls), w1) =>
          match class_ELE_ATTR cls' with
          | Raise e => (Raise e, d, w1)
          | Ok attr =>
              match v <- py_getitem d (key_of_name attr) ;;
                    items <- py_iter v ;; Ok (v, items) with
              | Raise e => (Raise e, d, w1)
              | Ok (v, items) =>
                  match decode_elements ele_cls items w1 with
                  | (r, items', w2) =>
                      let d' :=
                        match d, v with
                        | VDict kvs, VList _ =>
                            VDict (od_set (key_of_name attr)
                                          (VList items') kvs)
                        | _, _ => d
                        end in
                      match r, attr with
                      | Raise e, _ => (Raise e, d', w2)
                      | Ok elements, Some a =>
                          match construct cls' [(a, ItList elements)] w2 with
                          | (r', w3) => (r', d', w3)
                          end
                      | Ok _, None => (Raise TypeError, d', w2)
                      end
                  end
              end
          end
      end
  end.

Definition Container_from_dict := collection_from_dict ContainerError.
Definition Set_from_dict := collection_from_dict SetError.

End Decode.

(** [cls.from_dict(d)], resolved on [cls]: the class's own override, or
    the method of the framework class it descends from. *)
Fixpoint from_dict (fuel : nat) (cls : pyclass) (d : pyval) (w : world)
  : outcome :=
  match fuel with
  | O => (Raise RecursionError, d, w)
  | S n =>
      match c_from_dict cls with
      | Some f => let (r, d') := f d in (r, d', w)
      | None =>
          if negb (issubclass cls SERIALIZABLE)
          then (Raise AttributeError, d, w)
          else
            match kind_of cls with
            | Plain => Serializable_from_dict (from_dict n) cls d w
            | ContainerKind => Container_from_dict (from_dict n) cls d w
            | SetKind => Set_from_dict (from_dict n) cls d w
            end
      end
  end.

(** *** Well-formed classes *)

(** A concrete [Container] subclass: it inherits the methods of
    [Container], declares a serializable element class and the names of
    its two fields, which differ from each other and from ["_CLS"], and
    it and its element class can be imported under their names.  It
    stores its elements under a name of its own, one that hides none of
    the names the class defines: only then can it be instantiated. *)
Definition concrete_container (cls ele : pyclass) (attr field : string)
  : Prop :=
  c_from_dict cls = None /\ c_serialize cls = None
  /\ c_attributes cls = None
  /\ kind_of cls = ContainerKind /\ issubclass cls SERIALIZABLE = true
  /\ c_ELE_CLS cls = Some ele /\ c_ELE_ATTR cls = Some attr
  /\ c_ELE_CLS_FIELD cls = Some field
  /\ issubclass ele SERIALIZABLE = true
  /\ attr <> "_CLS" /\ field <> "_CLS" /\ field <> attr
  /\ get_class (VStr (get_class_name cls)) = Ok cls
  /\ get_class (VStr (get_class_name ele)) = Ok ele
  /\ class_level attr = false.

(** The document of a container whose elements have the documents
    [js]. *)
Definition container_doc (cls ele : pyclass) (attr field : string)
           (reflective : bool) (js : list pyval) : odict pyval :=
  (if reflective
   then [(KStr "_CLS", VStr (get_class_name cls));
         (KStr field, VStr (get_class_name ele))]
   else []) ++ [(KStr attr, VList js)].

(** The element [e] is serialized, within budget [f1], to a document
    that [ele.from_dict] decodes, within budget [f2], to [e]. *)
Definition round_trips (f1 f2 : nat) (ele : pyclass) (e : pyval) : Prop :=
  exists j,
    _recurse f1 e false = Ok j
    /\ forall w0, exists j' w1, from_dict f2 ele j w0 = (Ok e, j', w1).

End Framework.

(* ================================================================== *)
(** ** A small application, for the examples *)

Module Zoo.

(** [Dog.from_dict(d)] is [cls(d["name"], d["age"])]; it leaves [d] as
    it found it. *)
Definition Dog_from_dict (d : pyval) : result pyval * pyval :=
  (name <- py_getitem d (KStr "name") ;;
   age <- py_getitem d (KStr "age") ;;
   Ok (VObj "zoo.Dog" [("name", name); ("age", age)]), d).

Definition Dog : pyclass :=
  Build_pyclass "zoo" "Dog" [SERIALIZABLE]
                None None None None (Some Dog_from_dict) None None.

(** A serializable class that does not implement [from_dict]. *)
Definition Stray : pyclass :=
  Build_pyclass "zoo" "Stray" [SERIALIZABLE]
                None None None None None None None.

Definition DogContainer : pyclass :=
  Build_pyclass "zoo" "DogContainer" [CONTAINER; SERIALIZABLE]
                (Some Dog) None (Some "_ELEMENT_CLS") (Some "elements")
                None None None.

Definition AnimalSet : pyclass :=
  Build_pyclass "zoo" "AnimalSet" [SET; SERIALIZABLE]
                (Some Dog) (Some "name") (Some "_ELEMENT_CLS")
                (Some "elements") None None None.

Definition zoo_module (name : string) : option pyclass :=
  if String.eqb name "Dog" then Some Dog
  else if String.eqb name "Stray" then Some Stray
  else if String.eqb name "DogContainer" then Some DogContainer
  else if String.eqb name "AnimalSet" then Some AnimalSet
  else None.

Definition serial_module (name : string) : option pyclass :=
  if String.eqb name "Serializable" then Some Serializable_cls
  else if String.eqb name "Container" then Some Container_cls
  else if String.eqb name "Set" then Some Set_cls
  else None.

Definition modules (name : string) : option (string -> option pyclass) :=
  if String.eqb name "zoo" then Some zoo_module
  else if String.eqb name "eta.core.serial" then Some serial_module
  else None.

(** A stand-in for the random source: the n-th identifier is ["u"]
    followed by n strokes. *)
Fixpoint strokes (n : nat) : string :=
  match n with
  | O => EmptyString
  | S k => String "i" (strokes k)
  end.

Definition uuid4 (n : nat) : string := String "u" (strokes n).

Definition dog (name : pyval) (age : pyval) : pyval :=
  VObj "zoo.Dog" [("name", name); ("age", age)].

Definition rex : pyval := dog (VStr "rex") (VInt 3).
Definition old_rex : pyval := dog (VStr "rex") (VInt 9).
Definition fido : pyval := dog (VStr "fido") (VInt 1).
Definition ghost : pyval := dog (VStr "ghost") VNone.
Definition nameless (age : Z) : pyval := dog VNone (VInt age).

(** Two filters: the dog is called rex; the dog is one year old. *)
Definition is_rex (e : pyval) : bool :=
  match getattr e (Some "name") with
  | Ok (VStr n) => String.eqb n "rex"
  | _ => false
  end.

Definition is_pup (e : pyval) : bool :=
  match getattr e (Some "age") with
  | Ok (VInt a) => Z.eqb a 1
  | _ => false
  end.

Definition kennel (dogs : list pyval) : pyval :=
  VObj "zoo.DogContainer" [("elements", VList dogs)].

Definition pack (dogs : odict pyval) : pyval :=
  VObj "zoo.AnimalSet" [("elements", VDict dogs)].

(** Documents: a stray, a dog, and a set of dogs serialized in
    reflective mode. *)
Definition stray_doc : odict pyval :=
  [(KStr "_CLS", VStr "zoo.Stray"); (KStr "name", VStr "tramp")].

Definition dog_doc (name : string) (age : Z) : pyval :=
  VDict [(KStr "name", VStr name); (KStr "age", VInt age)].

Definition tagged_dog_doc : odict pyval :=
  [(KStr "_CLS", VStr "zoo.Dog"); (KStr "name", VStr "rex");
   (KStr "age", VInt 3)].

Definition set_doc : pyval :=
  VDict [(KStr "_CLS", VStr "zoo.AnimalSet");
         (KStr "_ELEMENT_CLS", VStr "zoo.Dog");
         (KStr "elements", VList [dog_doc "rex" 3; dog_doc "fido" 1])].

(** A fragment of [json.loads]: the text of a natural number in decimal
    notation, without leading zeros, is that number; any other text is
    rejected here. *)
Definition digit_of (c : ascii) : option Z :=
  let n := nat_of_ascii c in
  if (48 <=? n)%nat && (n <=? 57)%nat then Some (Z.of_nat (n - 48))
  else None.

Fixpoint loads_digits (s : string) (acc : Z) : option Z :=
  match s with
  | EmptyString => Some acc
  | String c r =>
      match digit_of c with
      | Some dgt => loads_digits r (10 * acc + dgt)
      | None => None
      end
  end.

Definition json_loads (s : string) : option pyval :=
  match s with
  | EmptyString => None
  | String "0" (String _ _) => None
  | _ => option_map VInt (loads_digits s 0)
  end.

(** A directory that holds one file, named ["7"], with the text ["42"]. *)
Definition fs (path : string) : file_state :=
  if String.eqb path "7" then FileText "42" else NoFile.

End Zoo.

(* ================================================================== *)
(** ** The rest of [Container] and [Set] *)

(** The outcome of an operation that indexes a list: besides the
    exceptions of [exn] it may raise [IndexError]. *)
Inductive result_ix (A : Type) : Type :=
| Done (a : A)
| Failed (e : exn)
| IndexError.

Arguments Done {A} a.
Arguments Failed {A} e.
Arguments IndexError {A}.

Definition of_result {A : Type} (r : result A) : result_ix A :=
  match r with
  | Ok a => Done a
  | Raise e => Failed e
  end.

Definition with_result {A B : Type} (r : result A) (k : A -> result_ix B)
  : result_ix B :=
  match r with
  | Ok a => k a
  | Raise e => Failed e
  end.

(** [del l[idx]]: a negative index counts from the end; [None] stands
    for the [IndexError] of an index out of range. *)
Definition py_del (l : list pyval) (idx : Z) : option (list pyval) :=
  let n := Z.of_nat (List.length l) in
  let i := if Z.ltb idx 0 then (idx + n)%Z else idx in
  if Z.leb 0 i && Z.ltb i n
  then Some (firstn (Z.to_nat i) l ++ skipn (S (Z.to_nat i)) l)
  else None.

(** The loop [for idx in order: del l[idx]]. *)
Fixpoint del_each (l : list pyval) (order : list Z) : option (list pyval) :=
  match order with
  | [] => Some l
  | idx :: rest =>
      match py_del l idx with
      | Some l' => del_each l' rest
      | None => None
      end
  end.

(** [sorted(inds, reverse=reverse)] on integers. *)
Definition sorted_ints (reverse : bool) (inds : list Z) : result (list Z) :=
  py_sorted (fun a b => Ok (Z.ltb a b)) (fun i => Ok i) reverse inds.

Definition Container_delete_inds (cls : pyclass) (self : pyval)
           (inds : list Z) : result_ix pyval :=
  with_result (sorted_ints true inds) (fun order =>
  with_result (Container_elements cls self) (fun l =>
    match del_each l order with
    | Some l' => of_result (setattr cls self (c_ELE_ATTR cls) (VList l'))
    | None => IndexError
    end)).

(** [[e for i, e in enumerate(l) if p i]], the count starting at
    [start]. *)
Fixpoint keep_positions {A : Type} (p : nat -> bool) (start : nat)
         (l : list A) : list A :=
  match l with
  | [] => []
  | e :: r =>
      if p start then e :: keep_positions p (S start) r
      else keep_positions p (S start) r
  end.

(** [i in inds], for the position [i] of an element and [inds] the set
    of the indices given. *)
Definition in_inds (inds : list Z) (i : nat) : bool :=
  existsb (Z.eqb (Z.of_nat i)) inds.

Definition Container_keep_inds (cls : pyclass) (self : pyval)
           (inds : list Z) : result pyval :=
  l <- Container_elements cls self ;;
  setattr cls self (c_ELE_ATTR cls) (VList (keep_positions (in_inds inds) 0 l)).

(** [copy.deepcopy(self)] *)
Definition Container_copy (self : pyval) : pyval := self.

Definition Container_extract_inds (cls : pyclass) (self : pyval)
           (inds : list Z) : result pyval :=
  let container := Container_copy self in
  Container_keep_inds cls container inds.

(** [self.__elements__.extend(container.__elements__)], the elements of
    [container] read under the attribute name of its own class. *)
Definition Container_add_container (cls : pyclass) (self : pyval)
           (ccls : pyclass) (container : pyval) : result pyval :=
  l <- Container_elements cls self ;;
  other <- Container_elements ccls container ;;
  setattr cls self (c_ELE_ATTR cls) (VList (l ++ other)).

(** [self.__elements__[key]], [key in self.__elements__] and
    [del self.__elements__[key]]. *)
Definition Set_getitem (cls : pyclass) (self key : pyval) : result pyval :=
  d <- Set_elements cls self ;;
  hk <- to_key key ;;
  match od_get hk d with
  | Some e => Ok e
  | None => Raise KeyError
  end.

Definition Set_contains (cls : pyclass) (self key : pyval) : result bool :=
  d <- Set_elements cls self ;;
  hk <- to_key key ;;
  Ok (od_mem hk d).

Definition Set_delitem (cls : pyclass) (self key : pyval) : result pyval :=
  d <- Set_elements cls self ;;
  hk <- to_key key ;;
  if od_mem hk d then setattr cls self (c_ELE_ATTR cls) (VDict (od_del hk d))
  else Raise KeyError.

(** [self.__elements__.update(set_.__elements__)] *)
Definition Set_add_set (cls : pyclass) (self : pyval)
           (scls : pyclass) (set_ : pyval) : result pyval :=
  d <- Set_elements cls self ;;
  other <- Set_elements scls set_ ;;
  setattr cls self (c_ELE_ATTR cls) (VDict (od_update d other)).

Fixpoint Set_delete_keys (cls : pyclass) (self : pyval) (keys : list pyval)
  : result pyval :=
  match keys with
  | [] => Ok self
  | key :: rest =>
      self' <- Set_delitem cls self key ;;
      Set_delete_keys cls self' rest
  end.

(** [keys = set(keys)] hashes every key; the comprehension then keeps
    the pairs whose key is in that set. *)
Definition Set_keep_keys (cls : pyclass) (self : pyval) (keys : list pyval)
  : result pyval :=
  keys <- map_result to_key keys ;;
  d <- Set_elements cls self ;;
  let elements :=
    od_of_list (filter (fun kv => existsb (key_eqb (fst kv)) keys) d) in
  setattr cls self (c_ELE_ATTR cls) (VDict elements).

Definition Set_extract_keys (cls : pyclass) (self : pyval)
           (keys : list pyval) : result pyval :=
  let set_ := Set_copy self in
  Set_keep_keys cls set_ keys.

Definition Set_count_matches (cls : pyclass) (self : pyval)
           (filters : list (pyval -> bool)) (match_ : list bool -> bool)
  : result nat :=
  m <- Set_get_matches cls self filters match_ ;; Set_size cls m.

(** The number of occurrences of a character in a string. *)
Fixpoint count_char (c : ascii) (s : string) : nat :=
  match s with
  | EmptyString => O
  | String x r => ((if Ascii.eqb x c then 1 else 0) + count_char c r)%nat
  end.

(** Values made of scalars, lists and dictionaries with distinct keys,
    without objects; and how deep they nest. *)
Fixpoint distinct_keys (ks : list pykey) : bool :=
  match ks with
  | [] => true
  | k :: r => negb (existsb (key_eqb k) r) && distinct_keys r
  end.

Fixpoint plain (v : pyval) : bool :=
  match v with
  | VList l => forallb plain l
  | VDict d => distinct_keys (map fst d) && forallb (fun kv => plain (snd kv)) d
  | VObj _ _ => false
  | _ => true
  end.

Fixpoint depth (v : pyval) : nat :=
  match v with
  | VList l => S (fold_right (fun x m => Nat.max (depth x) m) O l)
  | VDict d => S (fold_right (fun kv m => Nat.max (depth (snd kv)) m) O d)
  | _ => 1%nat
  end.

(** The elements of a set are stored under their own keys: the key of
    each pair is the key attribute of its element, true in a boolean
    context. *)
Definition own_keys (cls : pyclass) (d : odict pyval) : Prop :=
  Forall (fun kv => exists k, Set_get_key cls (snd kv) = Ok k
                              /\ truthy k = Ok true
                              /\ to_key k = Ok (fst kv)) d.

Section MoreFramework.
Variable modules : string -> option (string -> option pyclass).
Variable uuid4 : nat -> string.

Definition Container_count_matches (cls : pyclass) (self : pyval)
           (filters : list (pyval -> bool)) (match_ : list bool -> bool)
  : result nat :=
  m <- Container_get_matches modules cls self filters match_ ;;
  Container_size cls m.

(** A concrete [Set] subclass, as [concrete_container] is for
    [Container]. *)
Definition concrete_set (cls ele : pyclass) (attr field : string) : Prop :=
  c_from_dict cls = None /\ c_serialize cls = None
  /\ kind_of cls = SetKind /\ issubclass cls SERIALIZABLE = true
  /\ Set_validate cls = Ok tt
  /\ c_ELE_CLS cls = Some ele /\ c_ELE_ATTR cls = Some attr
  /\ c_ELE_CLS_FIELD cls = Some field
  /\ attr <> "_CLS" /\ field <> "_CLS" /\ field <> attr
  /\ get_class modules (VStr (get_class_name cls)) = Ok cls
  /\ get_class modules (VStr (get_class_name ele)) = Ok ele
  /\ class_level attr = false.

(** The element [e] is serialized in the given mode, within budget
    [f1], to a document that [ele.from_dict] decodes, within budget
    [f2], to [e]. *)
Definition round_trips_in (reflective : bool) (f1 f2 : nat)
           (ele : pyclass) (e : pyval) : Prop :=
  exists j,
    _recurse modules f1 e reflective = Ok j
    /\ forall w0, exists j' w1,
        from_dict modules uuid4 f2 ele j w0 = (Ok e, j', w1).

(** The document of a set whose elements have the documents [js]. *)
Definition set_doc_of (cls ele : pyclass) (attr field : string)
           (reflective : bool) (js : list pyval) : odict pyval :=
  (if reflective
   then [(KStr "_CLS", VStr (get_class_name cls));
         (KStr field, VStr (get_class_name ele))]
   else []) ++ [(KStr attr, VList js)].

(** What the inherited [serialize] writes for the instance attributes
    [vars]: the attributes whose name does not start with an
    underscore, under their names. *)
Definition public_items (vars : list (string * pyval)) : odict pyval :=
  map (fun av => (KStr (fst av), snd av))
      (filter (fun av => negb (is_private (fst av))) vars).

(** A class that inherits everything from [Serializable] and can be
    imported under its name. *)
Definition plain_class (cls : pyclass) : Prop :=
  c_serialize cls = None /\ c_attributes cls = None
  /\ kind_of cls = Plain /\ issubclass cls SERIALIZABLE = true
  /\ get_class modules (VStr (get_class_name cls)) = Ok cls.

(** The classes that cannot be instantiated: no element class. *)
Definition collection_error (cls : pyclass) : option exn :=
  match kind_of cls with
  | ContainerKind => Some ContainerError
  | SetKind => Some SetError
  | Plain => None
  end.

End MoreFramework.

(** More of the application: a cat, which is no dog. *)
Module Farm.

Definition Cat : pyclass :=
  Build_pyclass "farm" "Cat" [SERIALIZABLE]
                None None None None None None None.

Definition tom : pyval := VObj "farm.Cat" [("name", VStr "tom")].

(** A container class and a set class that name their element
    attribute after the properties [size] and [__elements__]. *)
Definition Heap : pyclass :=
  Build_pyclass "farm" "Heap" [CONTAINER; SERIALIZABLE]
                (Some Zoo.Dog) None (Some "_ELEMENT_CLS") (Some "size")
                None None None.

Definition Herd : pyclass :=
  Build_pyclass "farm" "Herd" [SET; SERIALIZABLE]
                (Some Zoo.Dog) (Some "name") (Some "_ELEMENT_CLS")
                (Some "__elements__") None None None.

Definition modules (name : string) : option (string -> option pyclass) :=
  if String.eqb name "farm"
  then Some (fun c => if String.eqb c "Cat" then Some Cat else None)
  else Zoo.modules name.

Definition always (e : pyval) : bool := true.

End Farm.

(* ================================================================== *)
(** * Properties *)

(** ** Dictionaries *)

Lemma key_eqb_spec (a b : pykey) : reflect (a = b) (key_eqb a b).
Proof.
  destruct a as [|x|x], b as [|y|y]; simpl; try (constructor; congruence).
  - destruct (Z.eqb_spec x y); constructor; congruence.
  - destruct (String.eqb_spec x y); constructor; congruence.
Qed.

Lemma key_eqb_refl (a : pykey) : key_eqb a a = true.
Proof. destruct (key_eqb_spec a a); congruence. Qed.

Lemma key_eqb_neq (a b : pykey) : a <> b -> key_eqb a b = false.
Proof. destruct (key_eqb_spec a b); congruence. Qed.

Lemma od_get_not_in {V : Type} (k : pykey) (d : odict V) :
  ~ In k (od_keys d) -> od_get k d = None.
Proof.
  induction d as [|[k' v] r IH]; simpl; intros Hn; [reflexivity|].
  rewrite key_eqb_neq by (intros ->; apply Hn; now left).
  apply IH. intros Hin. apply Hn. now right.
Qed.

Lemma od_get_in {V : Type} (k : pykey) (d : odict V) :
  In k (od_keys d) -> exists v, od_get k d = Some v.
Proof.
  induction d as [|[k' v] r IH]; simpl; intros Hin; [contradiction|].
  destruct (key_eqb_spec k' k) as [->|Hne]; [now exists v|].
  destruct Hin as [->|Hin]; [congruence|]. now apply IH.
Qed.

(** A key that is not in the dictionary goes to the end. *)
Lemma od_set_fresh {V : Type} (k : pykey) (v : V) (d : odict V) :
  od_get k d = None -> od_set k v d = d ++ [(k, v)].
Proof.
  induction d as [|[k' v'] r IH]; simpl; intros Hg; [reflexivity|].
  destruct (key_eqb k' k); [discriminate|].
  now rewrite IH.
Qed.

(** Building a dictionary from pairs with distinct keys keeps the pairs
    as they are. *)
Lemma od_update_fresh {V : Type} (l d : odict V) :
  NoDup (od_keys (d ++ l)) -> od_update d l = d ++ l.
Proof.
  revert d. induction l as [|[k v] r IH]; intros d Hnd; simpl.
  - now rewrite app_nil_r.
  - unfold od_update in *. simpl.
    assert (Hfresh : od_get k d = None).
    { apply od_get_not_in. unfold od_keys in *.
      rewrite map_app in Hnd. simpl in Hnd.
      apply NoDup_remove_2 in Hnd. intros Hin. apply Hnd.
      apply in_or_app. now left. }
    rewrite (od_set_fresh _ _ _ Hfresh).
    rewrite IH; rewrite <- app_assoc; simpl; [reflexivity|exact Hnd].
Qed.

Lemma od_of_list_nodup {V : Type} (l : odict V) :
  NoDup (od_keys l) -> od_of_list l = l.
Proof. intros Hnd. unfold od_of_list. now rewrite od_update_fresh. Qed.

Lemma od_keys_filter_nodup {V : Type} (p : pykey * V -> bool) (d : odict V) :
  NoDup (od_keys d) -> NoDup (od_keys (filter p d)).
Proof.
  unfold od_keys. induction d as [|kv r IH]; simpl; intros Hnd; [constructor|].
  inversion Hnd as [|? ? Hn Hr]; subst.
  destruct (p kv); simpl; [constructor|]; auto.
  intros Hin. apply Hn. apply in_map_iff in Hin as [x [Hx Hin]].
  apply filter_In in Hin as [Hin _]. apply in_map_iff. now exists x.
Qed.

Lemma od_mem_del {V : Type} (k : pykey) (d : odict V) :
  od_mem k (od_del k d) = false.
Proof.
  unfold od_mem, od_del.
  induction d as [|[k' v] r IH]; simpl; [reflexivity|].
  destruct (key_eqb k' k) eqn:E; simpl; [exact IH|].
  now rewrite E.
Qed.

Lemma od_mem_set_other {V : Type} (k k' : pykey) (v : V) (d : odict V) :
  k' <> k -> od_mem k (od_set k' v d) = od_mem k d.
Proof.
  intros Hne. unfold od_mem.
  induction d as [|[k0 v0] r IH]; simpl.
  - now rewrite key_eqb_neq.
  - destruct (key_eqb_spec k0 k') as [->|Hk0]; simpl.
    + now rewrite (key_eqb_neq k' k Hne).
    + destruct (key_eqb k0 k); [reflexivity|exact IH].
Qed.

(* ================================================================== *)
(** ** [load_json] *)

Section CodecProperties.
Variable json_loads : string -> option pyval.
Variable fs : string -> file_state.

Lemma load_chunks_error (chunks : list string) (d : odict pyval) :
  (exists d', load_chunks json_loads chunks d = Ok d')
  \/ load_chunks json_loads chunks d = Raise ValueError.
Proof.
  revert d. induction chunks as [|chunk rest IH]; intros d; simpl.
  - left. now exists d.
  - destruct (split_on "=" chunk) as [|key [|value [|x t]]]; auto.
    unfold _load_json. destruct (json_loads value); simpl; auto.
Qed.

Lemma load_key_values_error (s : string) :
  (exists v, load_key_values json_loads s = Ok v)
  \/ load_key_values json_loads s = Raise ValueError.
Proof.
  unfold load_key_values.
  destruct (load_chunks_error (split_on "," s) []) as [[d' H]|H];
    rewrite H; simpl; eauto.
Qed.

(** C3, amended.  [load_json] tries the literal document first; only
    when that fails does it look for a file of that name, and the file,
    when there is one, decides the outcome; the key=value shorthand is
    tried only when the literal fails and no such file exists, and its
    failure is the [ValueError] of [load_json]. *)
Theorem load_json_attempts (s : string) :
  (forall v, as_literal json_loads s = Ok v ->
             load_json json_loads fs s = Ok v)
  /\ (is_ok (as_literal json_loads s) = false ->
      isfile fs s = true ->
      load_json json_loads fs s = read_json json_loads fs s)
  /\ (is_ok (as_literal json_loads s) = false ->
      isfile fs s = false ->
      load_json json_loads fs s = as_key_values json_loads s
      /\ (is_ok (as_key_values json_loads s) = false ->
          load_json json_loads fs s = Raise ValueError)).
Proof.
  unfold load_json, as_literal, as_key_values, _load_json.
  destruct (json_loads s) as [v|]; simpl.
  - repeat split; try discriminate. now intros v' [= ->].
  - split; [discriminate|]. split.
    + intros _ ->. reflexivity.
    + intros _ ->.
      destruct (load_key_values_error s) as [[v H]|H]; rewrite H; simpl;
        split; try reflexivity; try discriminate.
Qed.

End CodecProperties.

(** On the name of an existing file that is also a JSON literal, the
    literal wins. *)
Lemma load_json_attempts_witness :
  load_json Zoo.json_loads Zoo.fs "7" = Ok (VInt 7)
  /\ load_json Zoo.json_loads Zoo.fs "a=1,b=2"
     = Ok (VDict [(KStr "a", VInt 1); (KStr "b", VInt 2)])
  /\ load_json Zoo.json_loads Zoo.fs "a=1,b" = Raise ValueError.
Proof.
  split; [|split].
  - apply (proj1 (load_json_attempts Zoo.json_loads Zoo.fs "7")).
    reflexivity.
  - destruct (load_json_attempts Zoo.json_loads Zoo.fs "a=1,b=2")
      as [_ [_ H]].
    destruct (H eq_refl eq_refl) as [H1 _]. rewrite H1. reflexivity.
  - destruct (load_json_attempts Zoo.json_loads Zoo.fs "a=1,b")
      as [_ [_ H]].
    destruct (H eq_refl eq_refl) as [_ H2]. apply H2. reflexivity.
Defined.

(** C3 as stated fails: the file named ["7"] holds the document [42],
    yet [load_json "7"] is the literal [7]. *)
Lemma load_json_file_first_fails :
  load_json Zoo.json_loads Zoo.fs "7" = Ok (VInt 7)
  /\ load_json_spec Zoo.json_loads Zoo.fs "7" = Ok (VInt 42)
  /\ load_json Zoo.json_loads Zoo.fs "7"
     <> load_json_spec Zoo.json_loads Zoo.fs "7".
Proof. repeat split; try reflexivity. discriminate. Qed.

(* ================================================================== *)
(** ** Instance attributes *)

Lemma assoc_set_same {A : Type} (k : string) (v : A) (l : list (string * A)) :
  assoc k (assoc_set k v l) = Some v.
Proof.
  induction l as [|[k' v'] r IH]; simpl.
  - now rewrite String.eqb_refl.
  - destruct (String.eqb k' k) eqn:E; simpl; rewrite E; auto.
Qed.

Lemma class_level_read_only (cls : pyclass) (a : string) :
  class_level a = false -> read_only cls a = false.
Proof.
  unfold read_only. intros H. destruct (kind_of cls); [reflexivity| |];
    (destruct (String.eqb_spec a "__elements__") as [->|_];
     [discriminate|];
     destruct (String.eqb_spec a "size") as [->|_];
     [discriminate|reflexivity]).
Qed.

Lemma own_names_set (vars : list (string * pyval)) (a : string) (v : pyval) :
  own_names vars = true -> class_level a = false ->
  own_names (assoc_set a v vars) = true.
Proof.
  unfold own_names. intros Hv Ha.
  induction vars as [|[k x] r IH]; simpl in *.
  - now rewrite Ha.
  - apply andb_prop in Hv as [Hk Hr].
    destruct (String.eqb k a); simpl; rewrite Hk; simpl; auto.
Qed.

(** Reading and writing an attribute of the instance's own. *)
Lemma getattr_obj (cn : string) (vars : list (string * pyval)) (a : string) :
  class_level a = false -> own_names vars = true ->
  getattr (VObj cn vars) (Some a)
  = match assoc a vars with
    | Some v => Ok v
    | None => Raise AttributeError
    end.
Proof. intros Ha Hv. unfold getattr. now rewrite Ha, Hv. Qed.

Lemma setattr_obj (cls : pyclass) (cn : string)
      (vars : list (string * pyval)) (a : string) (v : pyval) :
  class_level a = false -> own_names vars = true ->
  setattr cls (VObj cn vars) (Some a) v = Ok (VObj cn (assoc_set a v vars)).
Proof.
  intros Ha Hv. unfold setattr.
  now rewrite (class_level_read_only cls a Ha), Ha, Hv.
Qed.

Lemma own_ELE_ATTR_name (cls : pyclass) (attr : string) :
  own_ELE_ATTR cls = true -> c_ELE_ATTR cls = Some attr ->
  class_level attr = false.
Proof.
  unfold own_ELE_ATTR. intros H Ha. rewrite Ha in H.
  now apply negb_true_iff in H.
Qed.

(** A fresh instance, after [clear], holds the empty collection. *)
Lemma setattr_fresh (cls : pyclass) (cn a : string) (v : pyval) :
  class_level a = false ->
  setattr cls (VObj cn []) (Some a) v = Ok (VObj cn [(a, v)]).
Proof. intros Ha. now rewrite setattr_obj. Qed.

Lemma getattr_single (cn a : string) (v : pyval) :
  class_level a = false ->
  getattr (VObj cn [(a, v)]) (Some a) = Ok v.
Proof.
  intros Ha. rewrite getattr_obj; [|exact Ha|].
  - simpl. now rewrite String.eqb_refl.
  - unfold own_names. simpl. now rewrite Ha.
Qed.

Lemma own_object_single (cn a : string) (v : pyval) :
  class_level a = false -> own_object (VObj cn [(a, v)]) = true.
Proof. intros Ha. unfold own_object, own_names. simpl. now rewrite Ha. Qed.

Lemma own_names_in (vars : list (string * pyval)) (a : string) (v : pyval) :
  own_names vars = true -> In (a, v) vars -> class_level a = false.
Proof.
  unfold own_names. intros H Hin.
  apply negb_true_iff.
  exact (proj1 (forallb_forall _ _) H (a, v) Hin).
Qed.

Lemma setattr_single (cls : pyclass) (cn a : string) (v0 v : pyval) :
  class_level a = false ->
  setattr cls (VObj cn [(a, v0)]) (Some a) v = Ok (VObj cn [(a, v)]).
Proof.
  intros Ha. rewrite setattr_obj; [|exact Ha|].
  - simpl. now rewrite String.eqb_refl.
  - unfold own_names. simpl. now rewrite Ha.
Qed.

Lemma getattr_ok_inv (self : pyval) (name : option string) (v : pyval) :
  getattr self name = Ok v ->
  exists cn vars a,
    self = VObj cn vars /\ name = Some a
    /\ class_level a = false /\ own_names vars = true
    /\ assoc a vars = Some v.
Proof.
  destruct name as [a|]; [|discriminate].
  destruct self; try discriminate. unfold getattr.
  destruct (class_level a) eqn:Ha; [discriminate|].
  destruct (own_names vars) eqn:Hv; [|discriminate]. simpl.
  destruct (assoc a vars) as [x|] eqn:Hx; [|discriminate].
  intros [= ->]. now exists cls, vars, a.
Qed.

Lemma getattr_setattr (cls : pyclass) (self : pyval) (name : option string)
      (v0 v : pyval) :
  getattr self name = Ok v0 ->
  exists self', setattr cls self name v = Ok self'
                /\ getattr self' name = Ok v.
Proof.
  intros H.
  destruct (getattr_ok_inv _ _ _ H) as (cn & vars & a & -> & -> & Ha & Hv & _).
  exists (VObj cn (assoc_set a v vars)).
  split; [now apply setattr_obj|].
  rewrite getattr_obj; [|exact Ha|now apply own_names_set].
  now rewrite assoc_set_same.
Qed.

Lemma Set_elements_inv (cls : pyclass) (self : pyval) (d : odict pyval) :
  Set_elements cls self = Ok d ->
  getattr self (c_ELE_ATTR cls) = Ok (VDict d).
Proof.
  unfold Set_elements. destruct (getattr self (c_ELE_ATTR cls)) as [v|e];
    simpl; [|discriminate].
  destruct v; simpl; try discriminate. now intros [= ->].
Qed.

Lemma Container_elements_inv (cls : pyclass) (self : pyval) (l : list pyval) :
  Container_elements cls self = Ok l ->
  getattr self (c_ELE_ATTR cls) = Ok (VList l).
Proof.
  unfold Container_elements.
  destruct (getattr self (c_ELE_ATTR cls)) as [v|e]; simpl; [|discriminate].
  destruct v; simpl; try discriminate. now intros [= ->].
Qed.

(** Rebinding the element attribute of a set. *)
Lemma Set_rebind (cls : pyclass) (self : pyval) (d d' : odict pyval) :
  Set_elements cls self = Ok d ->
  exists self', setattr cls self (c_ELE_ATTR cls) (VDict d') = Ok self'
                /\ Set_elements cls self' = Ok d'.
Proof.
  intros H. apply Set_elements_inv in H.
  destruct (getattr_setattr cls _ _ _ (VDict d') H) as [self' [Hs Hg]].
  exists self'. split; [exact Hs|]. unfold Set_elements. now rewrite Hg.
Qed.

(** Rebinding the element attribute of a container. *)
Lemma Container_rebind (cls : pyclass) (self : pyval) (l l' : list pyval) :
  Container_elements cls self = Ok l ->
  exists self', setattr cls self (c_ELE_ATTR cls) (VList l') = Ok self'
                /\ Container_elements cls self' = Ok l'.
Proof.
  intros H. apply Container_elements_inv in H.
  destruct (getattr_setattr cls _ _ _ (VList l') H) as [self' [Hs Hg]].
  exists self'. split; [exact Hs|]. unfold Container_elements. now rewrite Hg.
Qed.

Lemma Set_validate_inv (cls : pyclass) :
  Set_validate cls = Ok tt ->
  exists ele attr key,
    c_ELE_CLS cls = Some ele /\ c_ELE_ATTR cls = Some attr
    /\ c_ELE_KEY_ATTR cls = Some key /\ issubclass ele SERIALIZABLE = true.
Proof.
  unfold Set_validate.
  destruct (c_ELE_CLS cls) as [ele|]; [|discriminate].
  destruct (c_ELE_ATTR cls) as [attr|]; [|discriminate].
  destruct (issubclass ele SERIALIZABLE) eqn:E; [|discriminate].
  destruct (c_ELE_KEY_ATTR cls) as [key|]; [|discriminate].
  intros _. now exists ele, attr, key.
Qed.

Lemma Container_validate_inv (cls : pyclass) :
  Container_validate cls = Ok tt ->
  exists ele attr,
    c_ELE_CLS cls = Some ele /\ c_ELE_ATTR cls = Some attr
    /\ issubclass ele SERIALIZABLE = true.
Proof.
  unfold Container_validate.
  destruct (c_ELE_CLS cls) as [ele|]; [|discriminate].
  destruct (c_ELE_ATTR cls) as [attr|]; [|discriminate].
  destruct (issubclass ele SERIALIZABLE) eqn:E; [|discriminate].
  intros _. now exists ele, attr.
Qed.

(* ================================================================== *)
(** ** [Set.add] *)

Section SetAdd.
Variable modules : string -> option (string -> option pyclass).
Variable uuid4 : nat -> string.

(** A new set is empty. *)
Lemma Set_init_empty (cls : pyclass) (w : world) :
  Set_validate cls = Ok tt ->
  own_ELE_ATTR cls = true ->
  exists s0, Set_init modules uuid4 cls [] w = (Ok s0, w)
             /\ Set_elements cls s0 = Ok [].
Proof.
  intros Hv Hown.
  destruct (Set_validate_inv cls Hv) as (ele & attr & key & He & Ha & Hk & Hs).
  pose proof (own_ELE_ATTR_name cls attr Hown Ha) as Hn.
  unfold Set_init, sbind, lift, Set_clear. rewrite Hv, Ha, He.
  cbn [unexpected_kwargs kwargs_get assoc iter_items check_elements].
  rewrite (setattr_fresh cls _ attr _ Hn).
  cbn [iter_after Set_add_iterable iter_items Set_add_each]. unfold ret.
  eexists. split; [reflexivity|].
  unfold Set_elements. rewrite Ha. now rewrite (getattr_single _ attr _ Hn).
Qed.

(** Adding an element whose key is true in a boolean context stores it
    under that key and draws no identifier. *)
Lemma Set_add_keyed (cls : pyclass) (self e k : pyval) (hk : pykey)
      (d : odict pyval) (w : world) :
  Set_elements cls self = Ok d ->
  Set_get_key cls e = Ok k -> truthy k = Ok true -> to_key k = Ok hk ->
  exists self', Set_add uuid4 cls self e w = (Ok self', w)
                /\ Set_elements cls self' = Ok (od_set hk e d).
Proof.
  intros Hd Hk Ht Hh.
  destruct (Set_rebind cls self d (od_set hk e d) Hd) as [self' [Hs Hg]].
  exists self'. split; [|exact Hg].
  unfold Set_add, sbind, lift, ret. rewrite Hk, Ht, Hd. simpl.
  rewrite Hh. simpl. now rewrite Hs.
Qed.

(** Adding an element whose key is false in a boolean context stores it
    under the next identifier of the random source. *)
Lemma Set_add_surrogate (cls : pyclass) (self e k : pyval)
      (d : odict pyval) (w : world) :
  Set_elements cls self = Ok d ->
  Set_get_key cls e = Ok k -> truthy k = Ok false ->
  exists self', Set_add uuid4 cls self e w = (Ok self', S w)
                /\ Set_elements cls self'
                   = Ok (od_set (KStr (uuid4 w)) e d).
Proof.
  intros Hd Hk Ht.
  destruct (Set_rebind cls self d (od_set (KStr (uuid4 w)) e d) Hd)
    as [self' [Hs Hg]].
  exists self'. split; [|exact Hg].
  unfold Set_add, sbind, lift, str_uuid4. rewrite Hk, Ht, Hd. simpl.
  now rewrite Hs.
Qed.

(** C4.  From an empty set, adding [x] and then [y], whose key
    attributes hold the same value [k], true in a boolean context and
    hashable, raises nothing and leaves one element, [y], under that
    key: the later write wins and [size] is 1.  The class of the set
    is one that can be instantiated: it stores its elements under a
    name of its own. *)
Theorem Set_add_overwrites (cls : pyclass) (x y k : pyval) (hk : pykey)
        (w : world) :
  Set_validate cls = Ok tt ->
  own_ELE_ATTR cls = true ->
  Set_get_key cls x = Ok k ->
  Set_get_key cls y = Ok k ->
  truthy k = Ok true ->
  to_key k = Ok hk ->
  exists s0 s1 s2,
    Set_init modules uuid4 cls [] w = (Ok s0, w)
    /\ Set_add uuid4 cls s0 x w = (Ok s1, w)
    /\ Set_add uuid4 cls s1 y w = (Ok s2, w)
    /\ Set_elements cls s2 = Ok [(hk, y)]
    /\ Set_size cls s2 = Ok 1%nat.
Proof.
  intros Hv Hown Hx Hy Ht Hh.
  destruct (Set_init_empty cls w Hv Hown) as [s0 [H0 E0]].
  destruct (Set_add_keyed cls s0 x k hk [] w E0 Hx Ht Hh) as [s1 [H1 E1]].
  destruct (Set_add_keyed cls s1 y k hk _ w E1 Hy Ht Hh) as [s2 [H2 E2]].
  simpl in E2. rewrite key_eqb_refl in E2.
  exists s0, s1, s2. repeat split; try assumption.
  unfold Set_size. now rewrite E2.
Qed.

Lemma Set_add_each_surrogate (cls : pyclass) (es : list pyval) :
  forall (self : pyval) (d : odict pyval) (w : world),
    Set_elements cls self = Ok d ->
    Forall (fun e => exists k, Set_get_key cls e = Ok k
                               /\ truthy k = Ok false) es ->
    NoDup (od_keys d ++ drawn_keys uuid4 w (List.length es)) ->
    exists s,
      Set_add_each uuid4 cls self es w = (Ok s, w + List.length es)
      /\ Set_elements cls s
         = Ok (d ++ combine (drawn_keys uuid4 w (List.length es)) es).
Proof.
  induction es as [|e r IH]; intros self d w Hd Hes Hnd; simpl.
  - exists self. unfold ret. rewrite Nat.add_0_r, app_nil_r. now split.
  - inversion Hes as [|? ? [k [Hk Ht]] Hr]; subst.
    destruct (Set_add_surrogate cls self e k d w Hd Hk Ht) as [s1 [H1 E1]].
    assert (Hfresh : od_get (KStr (uuid4 w)) d = None).
    { apply od_get_not_in. intros Hin.
      unfold drawn_keys in Hnd. simpl in Hnd.
      apply NoDup_remove_2 in Hnd. apply Hnd. apply in_or_app. now left. }
    rewrite (od_set_fresh _ _ _ Hfresh) in E1.
    destruct (IH s1 _ (S w) E1 Hr) as [s [Hs Es]].
    { unfold od_keys. rewrite map_app, <- app_assoc. exact Hnd. }
    exists s. unfold sbind. rewrite H1. split.
    + rewrite Hs. f_equal. lia.
    + rewrite Es, <- app_assoc. reflexivity.
Qed.

Lemma combine_keys {V : Type} (ks : list pykey) (vs : list V) :
  List.length ks = List.length vs ->
  od_keys (combine ks vs) = ks /\ od_values (combine ks vs) = vs.
Proof.
  revert vs. induction ks as [|k ks IH]; intros [|v vs] Hl;
    try discriminate; simpl; [now split|].
  destruct (IH vs) as [H1 H2]; [now injection Hl|].
  unfold od_keys, od_values in *. now rewrite H1, H2.
Qed.

(** C5.  From an empty set, adding [n] elements whose key attribute is
    false in a boolean context ([None], the empty string, ...) stores
    each under an identifier drawn from the random source; when the [n]
    draws are distinct, the [n] keys are distinct, every element is in
    the set, in the order of insertion, and [size] is [n].  The class
    of the set is one that can be instantiated: it stores its elements
    under a name of its own. *)
Theorem Set_add_surrogate_keys (cls : pyclass) (es : list pyval)
        (w : world) :
  Set_validate cls = Ok tt ->
  own_ELE_ATTR cls = true ->
  Forall (fun e => exists k, Set_get_key cls e = Ok k
                             /\ truthy k = Ok false) es ->
  NoDup (map uuid4 (seq w (List.length es))) ->
  exists s0 s d,
    Set_init modules uuid4 cls [] w = (Ok s0, w)
    /\ Set_add_each uuid4 cls s0 es w = (Ok s, w + List.length es)
    /\ Set_elements cls s = Ok d
    /\ od_keys d = drawn_keys uuid4 w (List.length es)
    /\ NoDup (od_keys d)
    /\ od_values d = es
    /\ Set_size cls s = Ok (List.length es).
Proof.
  intros Hv Hown Hes Hnd.
  destruct (Set_init_empty cls w Hv Hown) as [s0 [H0 E0]].
  assert (Hkeys : NoDup (drawn_keys uuid4 w (List.length es))).
  { unfold drawn_keys. rewrite <- (map_map uuid4 KStr).
    apply Finite.Injective_map_NoDup; [|exact Hnd].
    intros a b Hab. now injection Hab. }
  destruct (Set_add_each_surrogate cls es s0 [] w E0 Hes Hkeys)
    as [s [Hs Es]].
  simpl in Es.
  assert (Hlen : List.length (drawn_keys uuid4 w (List.length es))
                 = List.length es).
  { unfold drawn_keys. now rewrite length_map, length_seq. }
  destruct (combine_keys _ es Hlen) as [Hk Hvs].
  exists s0, s, (combine (drawn_keys uuid4 w (List.length es)) es).
  repeat split; try assumption.
  - now rewrite Hk.
  - unfold Set_size. rewrite Es. simpl. f_equal.
    rewrite length_combine, Hlen. apply Nat.min_id.
Qed.

End SetAdd.

Lemma Set_add_overwrites_witness :
  exists s0 s1 s2,
    Set_init Zoo.modules Zoo.uuid4 Zoo.AnimalSet [] 0%nat = (Ok s0, 0%nat)
    /\ Set_add Zoo.uuid4 Zoo.AnimalSet s0 Zoo.rex 0%nat = (Ok s1, 0%nat)
    /\ Set_add Zoo.uuid4 Zoo.AnimalSet s1 Zoo.old_rex 0%nat = (Ok s2, 0%nat)
    /\ Set_elements Zoo.AnimalSet s2 = Ok [(KStr "rex", Zoo.old_rex)]
    /\ Set_size Zoo.AnimalSet s2 = Ok 1%nat.
Proof.
  apply (Set_add_overwrites Zoo.modules Zoo.uuid4 Zoo.AnimalSet
           Zoo.rex Zoo.old_rex (VStr "rex") (KStr "rex") 0%nat);
    reflexivity.
Defined.

(** The test on the key is its truth value: a key of [0] is replaced by
    an identifier like a key of [None]; and an element that has no such
    attribute at all makes [get_key] raise. *)
Example Set_add_zero_key :
  Set_add Zoo.uuid4 Zoo.AnimalSet (Zoo.pack [])
    (Zoo.dog (VInt 0) (VInt 5)) 0%nat
  = (Ok (Zoo.pack [(KStr "u", Zoo.dog (VInt 0) (VInt 5))]), 1%nat).
Proof. reflexivity. Qed.

Example Set_add_missing_key_attribute :
  Set_add Zoo.uuid4 Zoo.AnimalSet (Zoo.pack [])
    (VObj "zoo.Dog" [("age", VInt 5)]) 0%nat
  = (Raise AttributeError, 0%nat).
Proof. reflexivity. Qed.

Lemma Set_add_surrogate_keys_witness :
  exists s0 s d,
    Set_init Zoo.modules Zoo.uuid4 Zoo.AnimalSet [] 0%nat = (Ok s0, 0%nat)
    /\ Set_add_each Zoo.uuid4 Zoo.AnimalSet s0
         [Zoo.nameless 1; Zoo.nameless 2; Zoo.nameless 3] 0%nat
       = (Ok s, 3%nat)
    /\ Set_elements Zoo.AnimalSet s = Ok d
    /\ od_keys d = [KStr "u"; KStr "ui"; KStr "uii"]
    /\ NoDup (od_keys d)
    /\ od_values d = [Zoo.nameless 1; Zoo.nameless 2; Zoo.nameless 3]
    /\ Set_size Zoo.AnimalSet s = Ok 3%nat.
Proof.
  apply (Set_add_surrogate_keys Zoo.modules Zoo.uuid4 Zoo.AnimalSet
           [Zoo.nameless 1; Zoo.nameless 2; Zoo.nameless 3] 0%nat).
  - reflexivity.
  - reflexivity.
  - repeat constructor; exists VNone; split; reflexivity.
  - simpl. repeat constructor; simpl; intuition discriminate.
Defined.

(* ================================================================== *)
(** ** Construction *)

Section Construction.
Variable modules : string -> option (string -> option pyclass).
Variable uuid4 : nat -> string.

Lemma check_elements_ok (ele : pyclass) (err : exn) (es : list pyval) :
  Forall (fun e => isinstance modules e (get_class_name ele) = true) es ->
  check_elements modules ele err es = Ok tt.
Proof.
  induction 1 as [|e r He Hr IH]; simpl; [reflexivity|].
  now rewrite He.
Qed.

Lemma unexpected_kwargs_own {it : iterable} (attr : string) :
  unexpected_kwargs [(attr, it)] attr = false.
Proof. unfold unexpected_kwargs. simpl. now rewrite String.eqb_refl. Qed.

Lemma kwargs_get_own (it : iterable) (attr : string) :
  kwargs_get [(attr, it)] attr = it.
Proof. unfold kwargs_get. simpl. now rewrite String.eqb_refl. Qed.

(** The element attribute of an instance that has its elements is a
    name of the instance's own. *)
Lemma Container_elements_name (cls : pyclass) (c : pyval) (es : list pyval)
      (attr : string) :
  Container_elements cls c = Ok es -> c_ELE_ATTR cls = Some attr ->
  class_level attr = false.
Proof.
  intros H Ha. apply Container_elements_inv in H. rewrite Ha in H.
  destruct (getattr_ok_inv _ _ _ H) as (cn & vars & a & _ & [= <-] & Hn & _).
  exact Hn.
Qed.

Lemma Set_elements_name (cls : pyclass) (s : pyval) (d : odict pyval)
      (attr : string) :
  Set_elements cls s = Ok d -> c_ELE_ATTR cls = Some attr ->
  class_level attr = false.
Proof.
  intros H Ha. apply Set_elements_inv in H. rewrite Ha in H.
  destruct (getattr_ok_inv _ _ _ H) as (cn & vars & a & _ & [= <-] & Hn & _).
  exact Hn.
Qed.

Lemma Container_elements_single (cls : pyclass) (cn attr : string)
      (es : list pyval) :
  c_ELE_ATTR cls = Some attr -> class_level attr = false ->
  Container_elements cls (VObj cn [(attr, VList es)]) = Ok es.
Proof.
  intros Ha Hn. unfold Container_elements.
  now rewrite Ha, (getattr_single _ attr _ Hn).
Qed.

Lemma Set_elements_single (cls : pyclass) (cn attr : string)
      (d : odict pyval) :
  c_ELE_ATTR cls = Some attr -> class_level attr = false ->
  Set_elements cls (VObj cn [(attr, VDict d)]) = Ok d.
Proof.
  intros Ha Hn. unfold Set_elements.
  now rewrite Ha, (getattr_single _ attr _ Hn).
Qed.

(** A container built from a list holds the list. *)
Lemma Container_init_list (cls ele : pyclass) (attr : string)
      (es : list pyval) :
  Container_validate cls = Ok tt ->
  c_ELE_CLS cls = Some ele -> c_ELE_ATTR cls = Some attr ->
  class_level attr = false ->
  Forall (fun e => isinstance modules e (get_class_name ele) = true) es ->
  Container_init modules cls [(attr, ItList es)]
  = Ok (VObj (get_class_name cls) [(attr, VList es)]).
Proof.
  intros Hv He Ha Hn Hes. unfold Container_init.
  rewrite Hv, Ha, He. cbn [bind].
  rewrite unexpected_kwargs_own, kwargs_get_own. cbn [iter_items].
  rewrite (check_elements_ok ele ContainerError es Hes). cbn [bind].
  unfold Container_clear, Container_add_iterable. rewrite Ha.
  rewrite (setattr_fresh cls _ attr _ Hn).
  cbn [bind iter_after is_list iter_items].
  rewrite (Container_elements_single cls _ attr [] Ha Hn). cbn [bind app].
  apply (setattr_single cls _ attr _ _ Hn).
Qed.

Lemma Container_init_no_args (cls : pyclass) (attr : string) :
  Container_validate cls = Ok tt -> c_ELE_ATTR cls = Some attr ->
  class_level attr = false ->
  Container_init modules cls []
  = Ok (VObj (get_class_name cls) [(attr, VList [])]).
Proof.
  intros Hv Ha Hn.
  destruct (Container_validate_inv cls Hv) as (ele & a & He & Ha' & _).
  unfold Container_init. rewrite Hv, Ha, He.
  cbn [bind unexpected_kwargs kwargs_get assoc iter_items check_elements].
  unfold Container_clear, Container_add_iterable. rewrite Ha.
  rewrite (setattr_fresh cls _ attr _ Hn).
  cbn [bind iter_after is_list iter_items].
  rewrite (Container_elements_single cls _ attr [] Ha Hn). cbn [bind app].
  apply (setattr_single cls _ attr _ _ Hn).
Qed.

(** C9.  When the elements are handed to the constructor of a
    [Container] or of a [Set] as a one-shot iterator, the loop of the
    type check runs the iterator to its end and [add_iterable] finds
    nothing left: no exception is raised and the collection is empty,
    whatever valid elements the iterator held.  The classes are ones
    that can be instantiated: each stores its elements under a name of
    its own. *)
Theorem one_shot_iterator_is_lost (ccls scls cele sele : pyclass)
        (cattr sattr : string) (es : list pyval) (w : world) :
  Container_validate ccls = Ok tt ->
  c_ELE_CLS ccls = Some cele -> c_ELE_ATTR ccls = Some cattr ->
  class_level cattr = false ->
  Forall (fun e => isinstance modules e (get_class_name cele) = true) es ->
  Set_validate scls = Ok tt ->
  c_ELE_CLS scls = Some sele -> c_ELE_ATTR scls = Some sattr ->
  class_level sattr = false ->
  Forall (fun e => isinstance modules e (get_class_name sele) = true) es ->
  (exists c,
      Container_init modules ccls [(cattr, ItGen es)] = Ok c
      /\ Container_elements ccls c = Ok []
      /\ Container_size ccls c = Ok 0%nat)
  /\ (exists s,
         Set_init modules uuid4 scls [(sattr, ItGen es)] w = (Ok s, w)
         /\ Set_elements scls s = Ok []
         /\ Set_size scls s = Ok 0%nat).
Proof.
  intros Hcv Hce Hca Hcn Hces Hsv Hse Hsa Hsn Hses. split.
  - exists (VObj (get_class_name ccls) [(cattr, VList [])]).
    pose proof (Container_elements_single ccls (get_class_name ccls)
                  cattr [] Hca Hcn) as Hel.
    unfold Container_size. rewrite Hel. repeat split.
    unfold Container_init. rewrite Hcv, Hca, Hce. cbn [bind].
    rewrite unexpected_kwargs_own, kwargs_get_own. cbn [iter_items].
    rewrite (check_elements_ok cele ContainerError es Hces). cbn [bind].
    unfold Container_clear, Container_add_iterable. rewrite Hca.
    rewrite (setattr_fresh ccls _ cattr _ Hcn).
    reflexivity.
  - exists (VObj (get_class_name scls) [(sattr, VDict [])]).
    pose proof (Set_elements_single scls (get_class_name scls)
                  sattr [] Hsa Hsn) as Hel.
    unfold Set_size. rewrite Hel. repeat split.
    unfold Set_init, sbind, lift. rewrite Hsv, Hsa, Hse.
    rewrite unexpected_kwargs_own, kwargs_get_own. cbn [iter_items].
    rewrite (check_elements_ok sele SetError es Hses).
    unfold Set_clear, Set_add_iterable. rewrite Hsa.
    rewrite (setattr_fresh scls _ sattr _ Hsn).
    reflexivity.
Qed.

End Construction.

Lemma one_shot_iterator_is_lost_witness :
  (exists c,
      Container_init Zoo.modules Zoo.DogContainer
        [("elements", ItGen [Zoo.rex; Zoo.fido])] = Ok c
      /\ Container_elements Zoo.DogContainer c = Ok []
      /\ Container_size Zoo.DogContainer c = Ok 0%nat)
  /\ (exists s,
         Set_init Zoo.modules Zoo.uuid4 Zoo.AnimalSet
           [("elements", ItGen [Zoo.rex; Zoo.fido])] 0%nat = (Ok s, 0%nat)
         /\ Set_elements Zoo.AnimalSet s = Ok []
         /\ Set_size Zoo.AnimalSet s = Ok 0%nat).
Proof.
  apply (one_shot_iterator_is_lost Zoo.modules Zoo.uuid4
           Zoo.DogContainer Zoo.AnimalSet Zoo.Dog Zoo.Dog
           "elements" "elements" [Zoo.rex; Zoo.fido] 0%nat);
    try reflexivity; repeat constructor.
Defined.

(** [clear] cannot assign to a property without a setter: a class
    that names its element attribute [size] or [__elements__] passes
    [_validate], but its constructor raises [AttributeError]. *)
Example constructor_on_read_only_property :
  Container_validate Farm.Heap = Ok tt
  /\ Container_init Zoo.modules Farm.Heap [] = Raise AttributeError
  /\ Container_init Zoo.modules Farm.Heap [("size", ItList [Zoo.rex])]
     = Raise AttributeError
  /\ Set_validate Farm.Herd = Ok tt
  /\ Set_init Zoo.modules Zoo.uuid4 Farm.Herd [] 0%nat
     = (Raise AttributeError, 0%nat).
Proof. repeat split; reflexivity. Qed.

(** The same elements handed over as a list are all stored. *)
Example list_elements_are_kept :
  Container_init Zoo.modules Zoo.DogContainer
    [("elements", ItList [Zoo.rex; Zoo.fido])]
  = Ok (VObj "zoo.DogContainer" [("elements", VList [Zoo.rex; Zoo.fido])]).
Proof. reflexivity. Qed.

(* ================================================================== *)
(** ** Filtering *)

Lemma matches_satisfies (c : combinator) (filters : list (pyval -> bool))
      (e : pyval) :
  matches filters (combinator_fn c) e = satisfies c filters e.
Proof.
  unfold matches. destruct c; simpl; unfold py_any, py_all;
    induction filters as [|f r IH]; simpl; congruence.
Qed.

Lemma filter_matches (c : combinator) (filters : list (pyval -> bool))
      (l : list pyval) :
  filter (matches filters (combinator_fn c)) l
  = filter (satisfies c filters) l.
Proof. apply filter_ext. intros e. apply matches_satisfies. Qed.

Section Filtering.
Variable modules : string -> option (string -> option pyclass).

(** C8.  [filter_elements] keeps, in place and in order, the elements
    that satisfy at least one filter under [any] and every filter under
    [all]; [get_matches] returns a new collection with those elements.
    The container is assumed to hold instances of its element class, and
    the dictionary of the set to have distinct keys. *)
Theorem filter_elements_any_all (ccls scls cele : pyclass) (cattr : string)
        (c s : pyval) (es : list pyval) (d : odict pyval)
        (filters : list (pyval -> bool)) (comb : combinator) :
  Container_validate ccls = Ok tt ->
  c_ELE_CLS ccls = Some cele -> c_ELE_ATTR ccls = Some cattr ->
  Container_elements ccls c = Ok es ->
  Forall (fun e => isinstance modules e (get_class_name cele) = true) es ->
  Set_elements scls s = Ok d ->
  NoDup (od_keys d) ->
  (exists c',
      Container_filter_elements ccls c filters (combinator_fn comb) = Ok c'
      /\ Container_elements ccls c'
         = Ok (filter (satisfies comb filters) es))
  /\ (exists m,
         Container_get_matches modules ccls c filters (combinator_fn comb)
         = Ok m
         /\ Container_elements ccls m
            = Ok (filter (satisfies comb filters) es)
         /\ Container_elements ccls c = Ok es)
  /\ (exists s',
         Set_filter_elements scls s filters (combinator_fn comb) = Ok s'
         /\ Set_elements scls s'
            = Ok (filter (fun kv => satisfies comb filters (snd kv)) d))
  /\ (exists m,
         Set_get_matches scls s filters (combinator_fn comb) = Ok m
         /\ Set_elements scls m
            = Ok (filter (fun kv => satisfies comb filters (snd kv)) d)
         /\ Set_elements scls s = Ok d).
Proof.
  intros Hv He Ha Hc Hes Hs Hnd.
  assert (Hset : exists s',
             Set_filter_elements scls s filters (combinator_fn comb) = Ok s'
             /\ Set_elements scls s'
                = Ok (filter (fun kv => satisfies comb filters (snd kv)) d)).
  { destruct (Set_rebind scls s d
                (filter (fun kv => satisfies comb filters (snd kv)) d) Hs)
      as [s' [Hset Hget]].
    exists s'. split; [|exact Hget].
    unfold Set_filter_elements, Set__filter_elements. rewrite Hs. simpl.
    rewrite (filter_ext _ (fun kv => satisfies comb filters (snd kv)))
      by (intros kv; apply matches_satisfies).
    rewrite od_of_list_nodup by (now apply od_keys_filter_nodup).
    exact Hset. }
  split; [|split; [|split]].
  - destruct (Container_rebind ccls c es
                (filter (satisfies comb filters) es) Hc) as [c' [Hset' Hget]].
    exists c'. split; [|exact Hget].
    unfold Container_filter_elements, Container__filter_elements.
    rewrite Hc. simpl. now rewrite filter_matches.
  - exists (VObj (get_class_name ccls)
                 [(cattr, VList (filter (satisfies comb filters) es))]).
    split; [|split; [|exact Hc]].
    + unfold Container_get_matches, Container__filter_elements.
      rewrite Hc. cbn [bind]. rewrite Ha, filter_matches.
      apply (Container_init_list modules ccls cele cattr _ Hv He Ha
               (Container_elements_name ccls c es cattr Hc Ha)).
      apply Forall_forall. intros e Hin. apply filter_In in Hin as [Hin _].
      revert e Hin. now apply Forall_forall.
    + apply Container_elements_single; [exact Ha|].
      exact (Container_elements_name ccls c es cattr Hc Ha).
  - exact Hset.
  - destruct Hset as [s' [H1 H2]]. exists s'. now repeat split.
Qed.

End Filtering.

(** With the filters [is_rex; is_pup], fido matches the second only: it
    is kept under [any]. *)
Lemma filter_elements_any_all_witness :
  (exists c',
      Container_filter_elements Zoo.DogContainer
        (Zoo.kennel [Zoo.rex; Zoo.fido; Zoo.ghost])
        [Zoo.is_rex; Zoo.is_pup] py_any = Ok c'
      /\ Container_elements Zoo.DogContainer c' = Ok [Zoo.rex; Zoo.fido])
  /\ (exists m,
         Container_get_matches Zoo.modules Zoo.DogContainer
           (Zoo.kennel [Zoo.rex; Zoo.fido; Zoo.ghost])
           [Zoo.is_rex; Zoo.is_pup] py_any = Ok m
         /\ Container_elements Zoo.DogContainer m = Ok [Zoo.rex; Zoo.fido]
         /\ Container_elements Zoo.DogContainer
              (Zoo.kennel [Zoo.rex; Zoo.fido; Zoo.ghost])
            = Ok [Zoo.rex; Zoo.fido; Zoo.ghost])
  /\ (exists s',
         Set_filter_elements Zoo.AnimalSet
           (Zoo.pack [(KStr "ghost", Zoo.ghost); (KStr "fido", Zoo.fido)])
           [Zoo.is_rex; Zoo.is_pup] py_any = Ok s'
         /\ Set_elements Zoo.AnimalSet s' = Ok [(KStr "fido", Zoo.fido)])
  /\ (exists m,
         Set_get_matches Zoo.AnimalSet
           (Zoo.pack [(KStr "ghost", Zoo.ghost); (KStr "fido", Zoo.fido)])
           [Zoo.is_rex; Zoo.is_pup] py_any = Ok m
         /\ Set_elements Zoo.AnimalSet m = Ok [(KStr "fido", Zoo.fido)]
         /\ Set_elements Zoo.AnimalSet
              (Zoo.pack [(KStr "ghost", Zoo.ghost); (KStr "fido", Zoo.fido)])
            = Ok [(KStr "ghost", Zoo.ghost); (KStr "fido", Zoo.fido)]).
Proof.
  apply (filter_elements_any_all Zoo.modules Zoo.DogContainer Zoo.AnimalSet
           Zoo.Dog "elements"
           (Zoo.kennel [Zoo.rex; Zoo.fido; Zoo.ghost])
           (Zoo.pack [(KStr "ghost", Zoo.ghost); (KStr "fido", Zoo.fido)])
           [Zoo.rex; Zoo.fido; Zoo.ghost]
           [(KStr "ghost", Zoo.ghost); (KStr "fido", Zoo.fido)]
           [Zoo.is_rex; Zoo.is_pup] MatchAny);
    try reflexivity.
  - repeat constructor.
  - repeat constructor; simpl; intuition discriminate.
Defined.

(** Under [all], fido, which matches one filter of the two, is removed. *)
Example filter_all_removes_partial_match :
  Container_filter_elements Zoo.DogContainer
    (Zoo.kennel [Zoo.rex; Zoo.fido; Zoo.ghost])
    [Zoo.is_rex; Zoo.is_pup] py_all
  = Ok (Zoo.kennel [])
  /\ Container_filter_elements Zoo.DogContainer
       (Zoo.kennel [Zoo.rex; Zoo.fido; Zoo.ghost])
       [Zoo.is_rex; Zoo.is_pup] py_any
     = Ok (Zoo.kennel [Zoo.rex; Zoo.fido]).
Proof. split; reflexivity. Qed.

(* ================================================================== *)
(** ** Decoding *)

Section Decoding.
Variable modules : string -> option (string -> option pyclass).
Variable uuid4 : nat -> string.

(** C7.  On a dictionary without a ["_CLS"] tag [Serializable.from_dict]
    raises [NotImplementedError].  On a dictionary with a tag that names
    a class it removes the tag and calls [from_dict] of that class on
    what is left; when that class inherits [Serializable.from_dict] the
    second call finds no tag and raises [NotImplementedError], whatever
    recursion budget is left. *)
Theorem Serializable_from_dict_delegates (n : nat) (cls : pyclass)
        (items : odict pyval) (w : world) :
  (od_mem (KStr "_CLS") items = false ->
   Serializable_from_dict modules (from_dict modules uuid4 n) cls
     (VDict items) w
   = (Raise NotImplementedError, VDict items, w))
  /\ (forall tag cls',
         od_get (KStr "_CLS") items = Some tag ->
         get_class modules tag = Ok cls' ->
         Serializable_from_dict modules (from_dict modules uuid4 n) cls
           (VDict items) w
         = from_dict modules uuid4 n cls'
             (VDict (od_del (KStr "_CLS") items)) w
         /\ (c_from_dict cls' = None ->
             issubclass cls' SERIALIZABLE = true ->
             kind_of cls' = Plain ->
             forall m, n = S m ->
               Serializable_from_dict modules (from_dict modules uuid4 n)
                 cls (VDict items) w
               = (Raise NotImplementedError,
                  VDict (od_del (KStr "_CLS") items), w))).
Proof.
  split.
  - intros Hno. unfold Serializable_from_dict. simpl. now rewrite Hno.
  - intros tag cls' Htag Hcls.
    assert (Hstep :
              Serializable_from_dict modules (from_dict modules uuid4 n) cls
                (VDict items) w
              = from_dict modules uuid4 n cls'
                  (VDict (od_del (KStr "_CLS") items)) w).
    { unfold Serializable_from_dict. simpl. unfold od_mem.
      rewrite Htag. simpl. now rewrite Hcls. }
    split; [exact Hstep|].
    intros Hnone Hser Hkind m ->. rewrite Hstep. simpl.
    rewrite Hnone, Hser, Hkind. simpl.
    unfold Serializable_from_dict. simpl. now rewrite od_mem_del.
Qed.

(** What [Container.from_dict] and [Set.from_dict] leave of the
    caller's dictionary: the dictionary itself, or the dictionary with
    the list under one of its keys replaced. *)
Lemma collection_from_dict_state (rec : pyclass -> pyval -> world -> outcome)
      (err : exn) (cls : pyclass) (kvs : odict pyval) (w : world) :
  let d' := snd (fst (collection_from_dict modules uuid4 rec err cls
                        (VDict kvs) w)) in
  d' = VDict kvs
  \/ exists k l, od_mem k kvs = true /\ d' = VDict (od_set k (VList l) kvs).
Proof.
  unfold collection_from_dict.
  destruct (c_ELE_CLS_FIELD cls) as [field|]; simpl; [|now left].
  destruct (resolve_classes modules uuid4 err cls field (VDict kvs) w)
    as [[[cls' ele_cls]|e] w1]; simpl; [|now left].
  destruct (class_ELE_ATTR cls') as [attr|e]; simpl; [|now left].
  destruct (od_get (key_of_name attr) kvs) as [v|] eqn:Hget; simpl;
    [|now left].
  destruct (py_iter v) as [its|e] eqn:Hit; simpl; [|now left].
  destruct (decode_elements rec ele_cls its w1) as [[r its'] w2].
  assert (Hd : (match v with
                | VList _ => VDict (od_set (key_of_name attr) (VList its') kvs)
                | _ => VDict kvs
                end) = VDict kvs
               \/ exists k l, od_mem k kvs = true
                  /\ (match v with
                      | VList _ =>
                          VDict (od_set (key_of_name attr) (VList its') kvs)
                      | _ => VDict kvs
                      end) = VDict (od_set k (VList l) kvs)).
  { destruct v; auto. right. exists (key_of_name attr), its'.
    split; [|reflexivity]. unfold od_mem. now rewrite Hget. }
  destruct r as [elements|e]; simpl.
  - destruct attr as [a|]; simpl.
    + destruct (construct modules uuid4 cls' [(a, ItList elements)] w2).
      simpl. exact Hd.
    + exact Hd.
  - exact Hd.
Qed.

(** Decoding a dictionary that has no ["_CLS"] key does not give it one,
    as long as the decoder of the class, when it has its own, does
    not. *)
Lemma from_dict_keeps_untagged (n : nat) (cls : pyclass)
      (kvs : odict pyval) (w : world) :
  od_mem (KStr "_CLS") kvs = false ->
  (forall f, c_from_dict cls = Some f ->
             py_contains "_CLS" (snd (f (VDict kvs))) = Ok false) ->
  py_contains "_CLS" (snd (fst (from_dict modules uuid4 n cls (VDict kvs) w)))
  = Ok false.
Proof.
  intros Hno Huser. destruct n as [|n]; simpl; [now rewrite Hno|].
  destruct (c_from_dict cls) as [f|].
  - specialize (Huser f eq_refl). destruct (f (VDict kvs)). exact Huser.
  - destruct (issubclass cls SERIALIZABLE); simpl; [|now rewrite Hno].
    assert (Hcoll : forall err,
               py_contains "_CLS"
                 (snd (fst (collection_from_dict modules uuid4
                              (from_dict modules uuid4 n) err cls
                              (VDict kvs) w))) = Ok false).
    { intros err.
      destruct (collection_from_dict_state (from_dict modules uuid4 n) err
                  cls kvs w) as [H|[k [l [Hk H]]]]; rewrite H; simpl.
      - now rewrite Hno.
      - rewrite od_mem_set_other; [now rewrite Hno|].
        intros ->. congruence. }
    destruct (kind_of cls).
    + unfold Serializable_from_dict. simpl. rewrite Hno. simpl.
      now rewrite Hno.
    + apply Hcoll.
    + apply Hcoll.
Qed.

(** C10.  [Serializable.from_dict] pops ["_CLS"] from the dictionary it
    is given: whether the call returns or raises, the caller's
    dictionary has no ["_CLS"] key afterwards.  The class the tag names
    may have a decoder of its own, which is assumed not to put the key
    back. *)
Theorem Serializable_from_dict_pops_tag (n : nat) (cls : pyclass)
        (items : odict pyval) (w : world) :
  od_mem (KStr "_CLS") items = true ->
  (forall tag cls' f,
      od_get (KStr "_CLS") items = Some tag ->
      get_class modules tag = Ok cls' ->
      c_from_dict cls' = Some f ->
      py_contains "_CLS" (snd (f (VDict (od_del (KStr "_CLS") items))))
      = Ok false) ->
  py_contains "_CLS"
    (snd (fst (Serializable_from_dict modules (from_dict modules uuid4 n)
                 cls (VDict items) w)))
  = Ok false.
Proof.
  intros Hin Huser. unfold Serializable_from_dict. simpl. rewrite Hin.
  unfold od_mem in Hin.
  destruct (od_get (KStr "_CLS") items) as [tag|] eqn:Htag; [|discriminate].
  destruct (get_class modules tag) as [cls'|e] eqn:Hcls.
  - apply from_dict_keeps_untagged; [apply od_mem_del|].
    intros f Hf. now apply (Huser tag cls' f).
  - simpl. now rewrite od_mem_del.
Qed.

End Decoding.

Lemma Serializable_from_dict_delegates_witness :
  Serializable_from_dict Zoo.modules (from_dict Zoo.modules Zoo.uuid4 1)
    Serializable_cls (VDict Zoo.stray_doc) 0%nat
  = (Raise NotImplementedError, VDict [(KStr "name", VStr "tramp")], 0%nat)
  /\ Serializable_from_dict Zoo.modules (from_dict Zoo.modules Zoo.uuid4 1)
       Serializable_cls (VDict [(KStr "name", VStr "tramp")]) 0%nat
     = (Raise NotImplementedError, VDict [(KStr "name", VStr "tramp")],
        0%nat).
Proof.
  split.
  - destruct (Serializable_from_dict_delegates Zoo.modules Zoo.uuid4 1
                Serializable_cls Zoo.stray_doc 0%nat) as [_ H].
    destruct (H (VStr "zoo.Stray") Zoo.Stray eq_refl eq_refl) as [_ H2].
    exact (H2 eq_refl eq_refl eq_refl 0%nat eq_refl).
  - destruct (Serializable_from_dict_delegates Zoo.modules Zoo.uuid4 1
                Serializable_cls [(KStr "name", VStr "tramp")] 0%nat)
      as [H _].
    exact (H eq_refl).
Defined.

Lemma Serializable_from_dict_pops_tag_witness :
  py_contains "_CLS"
    (snd (fst (Serializable_from_dict Zoo.modules
                 (from_dict Zoo.modules Zoo.uuid4 3) Serializable_cls
                 (VDict Zoo.tagged_dog_doc) 0%nat)))
  = Ok false.
Proof.
  apply (Serializable_from_dict_pops_tag Zoo.modules Zoo.uuid4 3
           Serializable_cls Zoo.tagged_dog_doc 0%nat).
  - reflexivity.
  - intros tag cls' f Htag Hcls Hf.
    injection Htag as <-. injection Hcls as <-. injection Hf as <-.
    reflexivity.
Defined.

(* ================================================================== *)
(** ** The class of a decoded collection *)

Lemma setattr_class (cls : pyclass) (self self' : pyval)
      (name : option string) (v : pyval) :
  setattr cls self name v = Ok self' -> obj_class self' = obj_class self.
Proof.
  destruct name as [a|]; [|discriminate]. destruct self; try discriminate.
  unfold setattr. destruct (read_only cls a); [discriminate|].
  destruct (class_level a || negb (own_names vars)); [discriminate|].
  now intros [= <-].
Qed.

Section Classes.
Variable modules : string -> option (string -> option pyclass).
Variable uuid4 : nat -> string.

Lemma Container_add_each_class (cls : pyclass) (items : list pyval) :
  forall self self',
    Container_add_each cls self items = Ok self' ->
    obj_class self' = obj_class self.
Proof.
  induction items as [|e r IH]; simpl; intros self self'.
  - now intros [= <-].
  - unfold Container_add at 1.
    destruct (Container_elements cls self); simpl; [|discriminate].
    destruct (setattr cls self (c_ELE_ATTR cls) _) as [s1|] eqn:Hs; simpl;
      [|discriminate].
    intros H. rewrite (IH _ _ H). exact (setattr_class _ _ _ _ _ Hs).
Qed.

Lemma Container_init_class (cls : pyclass) (kw : kwargs) (o : pyval) :
  Container_init modules cls kw = Ok o ->
  obj_class o = Some (get_class_name cls).
Proof.
  unfold Container_init.
  destruct (Container_validate cls); simpl; [|discriminate].
  destruct (c_ELE_ATTR cls) as [attr|] eqn:Ha; [|discriminate].
  destruct (c_ELE_CLS cls) as [ele|]; [|discriminate].
  destruct (unexpected_kwargs kw attr); [discriminate|].
  destruct (check_elements modules ele ContainerError _); simpl;
    [|discriminate].
  unfold Container_clear. rewrite Ha.
  destruct (setattr cls _ (Some attr) (VList [])) as [s0|] eqn:Hs0;
    cbn [bind]; [|discriminate].
  apply setattr_class in Hs0. cbn [obj_class] in Hs0.
  unfold Container_add_iterable.
  destruct (is_list (iter_after (kwargs_get kw attr))).
  - destruct (Container_elements cls _); simpl; [|discriminate].
    intros H. now rewrite (setattr_class _ _ _ _ _ H).
  - intros H. now rewrite (Container_add_each_class _ _ _ _ H).
Qed.

Lemma Set_add_class (cls : pyclass) (self e self' : pyval) (w w' : world) :
  Set_add uuid4 cls self e w = (Ok self', w') ->
  obj_class self' = obj_class self.
Proof.
  unfold Set_add, sbind, lift.
  destruct (Set_get_key cls e) as [k|]; [|discriminate].
  destruct (truthy k) as [t|]; [|discriminate].
  assert (Hgen : forall key w1,
             (d <- Set_elements cls self ;;
              hk <- to_key key ;;
              setattr cls self (c_ELE_ATTR cls) (VDict (od_set hk e d)), w1)
             = (Ok self', w') -> obj_class self' = obj_class self).
  { intros key w1.
    destruct (Set_elements cls self); simpl; [|discriminate].
    destruct (to_key key); simpl; [|discriminate].
    intros [= H _]. exact (setattr_class _ _ _ _ _ H). }
  destruct t; unfold ret, str_uuid4; apply Hgen.
Qed.

Lemma Set_add_each_class (cls : pyclass) (items : list pyval) :
  forall self self' w w',
    Set_add_each uuid4 cls self items w = (Ok self', w') ->
    obj_class self' = obj_class self.
Proof.
  induction items as [|e r IH]; simpl; intros self self' w w'.
  - unfold ret. now intros [= <- _].
  - unfold sbind.
    destruct (Set_add uuid4 cls self e w) as [[s1|] w1] eqn:Hadd;
      [|discriminate].
    intros H. rewrite (IH _ _ _ _ H). exact (Set_add_class _ _ _ _ _ _ Hadd).
Qed.

Lemma Set_init_class (cls : pyclass) (kw : kwargs) (o : pyval)
      (w w' : world) :
  Set_init modules uuid4 cls kw w = (Ok o, w') ->
  obj_class o = Some (get_class_name cls).
Proof.
  unfold Set_init, sbind, lift, throw.
  destruct (Set_validate cls); [|discriminate].
  destruct (c_ELE_ATTR cls) as [attr|] eqn:Ha; [|discriminate].
  destruct (c_ELE_CLS cls) as [ele|]; [|discriminate].
  destruct (unexpected_kwargs kw attr); [discriminate|].
  destruct (check_elements modules ele SetError _); [|discriminate].
  unfold Set_clear. rewrite Ha.
  destruct (setattr cls _ (Some attr) (VDict [])) as [s0|] eqn:Hs0;
    [|discriminate].
  apply setattr_class in Hs0. cbn [obj_class] in Hs0.
  unfold Set_add_iterable. intros H.
  now rewrite (Set_add_each_class _ _ _ _ _ _ H).
Qed.

Lemma construct_class (cls : pyclass) (kw : kwargs) (o : pyval)
      (w w' : world) :
  construct modules uuid4 cls kw w = (Ok o, w') ->
  obj_class o = Some (get_class_name cls).
Proof.
  unfold construct. destruct (kind_of cls).
  - destruct kw; unfold ret, throw; [|discriminate]. now intros [= <- _].
  - unfold lift. intros [= H _]. exact (Container_init_class _ _ _ H).
  - apply Set_init_class.
Qed.

(** C2, amended.  On a dictionary with a ["_CLS"] tag the entry points
    make no comparison between the class the tag names and the class
    they are called on.  [Container.from_dict] and [Set.from_dict],
    called on any two classes whose [_ELE_CLS_FIELD] keys the dictionary
    has, have the same outcome, and an object they return belongs to the
    class the tag names; [Serializable.from_dict] has the same outcome on
    whatever class it is called. *)
Theorem from_dict_ignores_entry_class
        (rec : pyclass -> pyval -> world -> outcome)
        (cls1 cls2 : pyclass) (field1 field2 : string)
        (d : pyval) (w : world) :
  c_ELE_CLS_FIELD cls1 = Some field1 ->
  c_ELE_CLS_FIELD cls2 = Some field2 ->
  py_contains "_CLS" d = Ok true ->
  py_contains field1 d = Ok true ->
  py_contains field2 d = Ok true ->
  Container_from_dict modules uuid4 rec cls1 d w
  = Set_from_dict modules uuid4 rec cls2 d w
  /\ Container_from_dict modules uuid4 rec cls1 d w
     = Container_from_dict modules uuid4 rec cls2 d w
  /\ Set_from_dict modules uuid4 rec cls1 d w
     = Set_from_dict modules uuid4 rec cls2 d w
  /\ Serializable_from_dict modules rec cls1 d w
     = Serializable_from_dict modules rec cls2 d w
  /\ (forall tag cls' obj,
         py_getitem d (KStr "_CLS") = Ok tag ->
         get_class modules tag = Ok cls' ->
         fst (fst (Container_from_dict modules uuid4 rec cls1 d w)) = Ok obj ->
         obj_class obj = Some (get_class_name cls')).
Proof.
  intros Hf1 Hf2 Htag H1 H2.
  assert (Hsame : forall e1 e2,
             collection_from_dict modules uuid4 rec e1 cls1 d w
             = collection_from_dict modules uuid4 rec e2 cls2 d w).
  { intros e1 e2. unfold collection_from_dict, resolve_classes.
    rewrite Hf1, Hf2, Htag, H1, H2. reflexivity. }
  unfold Container_from_dict, Set_from_dict.
  repeat split; try apply Hsame.
  intros tag cls' obj Hget Hcls.
  unfold collection_from_dict, resolve_classes.
  rewrite Hf1, Htag, H1. cbn [bind negb]. rewrite Hget. cbn [bind].
  rewrite Hcls. cbn [bind].
  destruct (class_ELE_CLS_FIELD cls') as [field'|]; cbn [bind];
    [|discriminate].
  destruct (py_getitem d (key_of_name field')) as [ele_tag|]; cbn [bind];
    [|discriminate].
  destruct (get_class modules ele_tag) as [ele_cls|]; cbn [bind];
    [|discriminate].
  destruct (class_ELE_ATTR cls') as [attr|]; [|discriminate].
  destruct (py_getitem d (key_of_name attr)) as [v|]; cbn [bind];
    [|discriminate].
  destruct (py_iter v) as [its|]; cbn [bind]; [|discriminate].
  destruct (decode_elements rec ele_cls its w)
    as [[[elements|e] its'] w2]; [|discriminate].
  destruct attr as [a|]; [|discriminate].
  destruct (construct modules uuid4 cls' [(a, ItList elements)] w2)
    as [r' w3] eqn:Hc.
  cbn [fst]. intros ->. exact (construct_class _ _ _ _ _ Hc).
Qed.

End Classes.

(** C2 as stated fails: the tag of [set_doc] names a class that is not a
    subclass of [Container], yet [Container.from_dict] and
    [DogContainer.from_dict] decode the document and return the set. *)
Lemma Container_from_dict_accepts_Set_document :
  get_class Zoo.modules (VStr "zoo.AnimalSet") = Ok Zoo.AnimalSet
  /\ issubclass Zoo.AnimalSet CONTAINER = false
  /\ issubclass Zoo.AnimalSet (get_class_name Zoo.DogContainer) = false
  /\ from_dict Zoo.modules Zoo.uuid4 2 Container_cls Zoo.set_doc 0%nat
     = (Ok (Zoo.pack [(KStr "rex", Zoo.rex); (KStr "fido", Zoo.fido)]),
        Zoo.set_doc, 0%nat)
  /\ from_dict Zoo.modules Zoo.uuid4 2 Zoo.DogContainer Zoo.set_doc 0%nat
     = (Ok (Zoo.pack [(KStr "rex", Zoo.rex); (KStr "fido", Zoo.fido)]),
        Zoo.set_doc, 0%nat).
Proof. repeat split; reflexivity. Qed.

Lemma from_dict_ignores_entry_class_witness :
  Container_from_dict Zoo.modules Zoo.uuid4
    (from_dict Zoo.modules Zoo.uuid4 1) Zoo.DogContainer Zoo.set_doc 0%nat
  = Set_from_dict Zoo.modules Zoo.uuid4
      (from_dict Zoo.modules Zoo.uuid4 1) Zoo.AnimalSet Zoo.set_doc 0%nat.
Proof.
  apply (from_dict_ignores_entry_class Zoo.modules Zoo.uuid4
           (from_dict Zoo.modules Zoo.uuid4 1)
           Zoo.DogContainer Zoo.AnimalSet "_ELEMENT_CLS" "_ELEMENT_CLS"
           Zoo.set_doc 0%nat); reflexivity.
Defined.

(* ================================================================== *)
(** ** Round trip of a container *)

Section RoundTrip.
Variable modules : string -> option (string -> option pyclass).
Variable uuid4 : nat -> string.

Lemma decode_round_trip (f1 f2 : nat) (ele : pyclass) (es : list pyval) :
  Forall (round_trips modules uuid4 f1 f2 ele) es ->
  exists js,
    map_result (fun vi => _recurse modules f1 vi false) es = Ok js
    /\ forall w0, exists js' w1,
        decode_elements (from_dict modules uuid4 f2) ele js w0
        = (Ok es, js', w1).
Proof.
  induction 1 as [|e r [j [Hj Hdec]] Hr [js [Hjs Hall]]].
  - exists []. split; [reflexivity|]. intros w0. now exists [], w0.
  - exists (j :: js). split.
    + simpl. now rewrite Hj, Hjs.
    + intros w0. destruct (Hdec w0) as [j' [w1 H1]].
      destruct (Hall w1) as [js' [w2 H2]].
      exists (j' :: js'), w2. simpl. now rewrite H1, H2.
Qed.

Lemma str_key_neq (a b : string) : a <> b -> key_eqb (KStr a) (KStr b) = false.
Proof. intros H. apply key_eqb_neq. congruence. Qed.

Lemma Container_serialize_doc (cls ele : pyclass) (attr field : string)
      (es js : list pyval) (reflective : bool) (f1 : nat) :
  concrete_container modules cls ele attr field ->
  map_result (fun vi => _recurse modules f1 vi false) es = Ok js ->
  serialize modules (S f1) (VObj (get_class_name cls) [(attr, VList es)])
    reflective
  = Ok (VDict (container_doc cls ele attr field reflective js)).
Proof.
  intros (Hfd & Hser & Hattrs & Hkind & Hsub & Hele & Hattr & Hfield
          & Hesub & Ha & Hf & Hfa & Hgc & Hge & Hown) Hjs.
  unfold serialize, class_of. rewrite Hgc.
  unfold serialize_method.
  rewrite (own_object_single _ attr _ Hown), Hser, Hkind. cbn [negb].
  unfold Container_serialize, Serializable_serialize, attributes.
  rewrite Hattrs, Hkind, Hattr.
  unfold collection_header, container_doc. rewrite Hele, Hfield.
  cbn [_prepare_serial_dict serialize_attrs key_of_name].
  rewrite (getattr_single _ attr _ Hown).
  cbn [bind _recurse class_of]. rewrite Hjs.
  destruct reflective;
    cbn [bind as_dict od_set od_update fold_left fst snd app].
  - rewrite (str_key_neq "_CLS" field) by congruence. cbn [od_set].
    rewrite (str_key_neq "_CLS" attr) by congruence.
    now rewrite (str_key_neq field attr) by congruence.
  - reflexivity.
Qed.

Lemma container_doc_lookup (cls ele : pyclass) (attr field : string)
      (reflective : bool) (js : list pyval) :
  attr <> "_CLS" -> field <> "_CLS" -> field <> attr ->
  let doc := VDict (container_doc cls ele attr field reflective js) in
  py_contains "_CLS" doc = Ok reflective
  /\ py_getitem doc (KStr attr) = Ok (VList js)
  /\ (reflective = true ->
      py_contains field doc = Ok true
      /\ py_getitem doc (KStr "_CLS") = Ok (VStr (get_class_name cls))
      /\ py_getitem doc (KStr field) = Ok (VStr (get_class_name ele))).
Proof.
  intros Ha Hf Hfa. unfold container_doc, py_contains, py_getitem, od_mem.
  destruct reflective; cbn [app od_get].
  - rewrite (str_key_neq "_CLS" attr) by congruence.
    rewrite (str_key_neq field attr) by congruence.
    rewrite (str_key_neq "_CLS" field) by congruence.
    rewrite !key_eqb_refl. repeat split; reflexivity.
  - rewrite (str_key_neq attr "_CLS") by congruence.
    rewrite key_eqb_refl. repeat split; discriminate.
Qed.

Lemma Container_from_dict_doc (cls ele : pyclass) (attr field : string)
      (es js : list pyval) (reflective : bool) (f2 : nat) (w : world) :
  concrete_container modules cls ele attr field ->
  Forall (fun e => isinstance modules e (get_class_name ele) = true) es ->
  (forall w0, exists js' w1,
      decode_elements (from_dict modules uuid4 f2) ele js w0
      = (Ok es, js', w1)) ->
  exists doc' w',
    from_dict modules uuid4 (S f2) cls
      (VDict (container_doc cls ele attr field reflective js)) w
    = (Ok (VObj (get_class_name cls) [(attr, VList es)]), doc', w').
Proof.
  intros (Hfd & Hser & Hattrs & Hkind & Hsub & Hele & Hattr & Hfield
          & Hesub & Ha & Hf & Hfa & Hgc & Hge & Hown) Hinst Hdec.
  assert (Hv : Container_validate cls = Ok tt).
  { unfold Container_validate. now rewrite Hele, Hattr, Hesub. }
  destruct (container_doc_lookup cls ele attr field reflective js Ha Hf Hfa)
    as (Htag & Hitems & Hrefl).
  assert (Hcf : class_ELE_CLS_FIELD cls = Ok (Some field)).
  { unfold class_ELE_CLS_FIELD. now rewrite Hkind, Hfield. }
  assert (Hca : class_ELE_ATTR cls = Ok (Some attr)).
  { unfold class_ELE_ATTR. now rewrite Hkind, Hattr. }
  assert (Hnew : forall w0, construct modules uuid4 cls [(attr, ItList es)] w0
                            = (Ok (VObj (get_class_name cls)
                                        [(attr, VList es)]), w0)).
  { intros w0. unfold construct, lift. rewrite Hkind.
    now rewrite (Container_init_list modules cls ele attr es
                   Hv Hele Hattr Hown Hinst). }
  assert (Hres : resolve_classes modules uuid4 ContainerError cls field
                   (VDict (container_doc cls ele attr field reflective js)) w
                 = (Ok (cls, ele), w)).
  { unfold resolve_classes. rewrite Htag. destruct reflective.
    - destruct (Hrefl eq_refl) as (H1 & H2 & H3).
      rewrite H1. cbn [bind negb]. rewrite H2. cbn [bind].
      rewrite Hgc. cbn [bind]. rewrite Hcf. cbn [bind key_of_name].
      rewrite H3. cbn [bind]. now rewrite Hge.
    - unfold construct, lift. rewrite Hkind.
      rewrite (Container_init_no_args modules cls attr Hv Hattr Hown).
      now rewrite Hele. }
  cbn [from_dict]. rewrite Hfd, Hsub, Hkind. cbn [negb].
  unfold Container_from_dict, collection_from_dict.
  rewrite Hfield, Hres, Hca. cbn [key_of_name]. rewrite Hitems.
  cbn [bind py_iter].
  destruct (Hdec w) as [js' [w1 H1]]. rewrite H1, Hnew.
  eexists. eexists. reflexivity.
Qed.

(** C1.  A concrete container built from the list [es], serialized in
    either mode and decoded again with [from_dict] of its class, is the
    container with the elements [es], in that order and with their
    repetitions.  The elements are instances of the element class whose
    own [from_dict] decodes what they serialize to.  A concrete
    container class is one that can be instantiated: it stores its
    elements under a name of its own. *)
Theorem Container_round_trip_order (cls ele : pyclass) (attr field : string)
        (es : list pyval) (reflective : bool) (f1 f2 : nat) (w : world) :
  concrete_container modules cls ele attr field ->
  Forall (fun e => isinstance modules e (get_class_name ele) = true) es ->
  Forall (round_trips modules uuid4 f1 f2 ele) es ->
  exists c doc doc' c' w',
    Container_init modules cls [(attr, ItList es)] = Ok c
    /\ serialize modules (S f1) c reflective = Ok doc
    /\ from_dict modules uuid4 (S f2) cls doc w = (Ok c', doc', w')
    /\ Container_elements cls c' = Ok es.
Proof.
  intros (Hfd & Hser & Hattrs & Hkind & Hsub & Hele & Hattr & Hfield
          & Hesub & Ha & Hf & Hfa & Hgc & Hge & Hown) Hinst Hrt.
  assert (Hv : Container_validate cls = Ok tt).
  { unfold Container_validate. now rewrite Hele, Hattr, Hesub. }
  pose proof (Container_init_list modules cls ele attr es
                Hv Hele Hattr Hown Hinst) as Hinit.
  destruct (decode_round_trip f1 f2 ele es Hrt) as [js [Hjs Hdec]].
  destruct (Container_from_dict_doc cls ele attr field es js reflective f2 w)
    as [doc' [w' Hfrom]];
    [repeat split; assumption | assumption | assumption |].
  exists (VObj (get_class_name cls) [(attr, VList es)]),
    (VDict (container_doc cls ele attr field reflective js)),
    doc', (VObj (get_class_name cls) [(attr, VList es)]), w'.
  split; [exact Hinit|]. split.
  - apply Container_serialize_doc; [repeat split; assumption | exact Hjs].
  - split; [exact Hfrom|]. now apply Container_elements_single.
Qed.

End RoundTrip.

(** The round trip of a container of three dogs, one of them twice, in
    the mode without class names. *)
Example Container_round_trip_plain :
  serialize Zoo.modules 3 (Zoo.kennel [Zoo.rex; Zoo.fido; Zoo.rex]) false
  = Ok (VDict [(KStr "elements",
                VList [Zoo.dog_doc "rex" 3; Zoo.dog_doc "fido" 1;
                       Zoo.dog_doc "rex" 3])])
  /\ fst (fst (from_dict Zoo.modules Zoo.uuid4 2 Zoo.DogContainer
                 (VDict [(KStr "elements",
                          VList [Zoo.dog_doc "rex" 3; Zoo.dog_doc "fido" 1;
                                 Zoo.dog_doc "rex" 3])]) 0%nat))
     = Ok (Zoo.kennel [Zoo.rex; Zoo.fido; Zoo.rex]).
Proof. split; reflexivity. Qed.

Lemma Container_round_trip_order_witness :
  exists c doc doc' c' w',
    Container_init Zoo.modules Zoo.DogContainer
      [("elements", ItList [Zoo.rex; Zoo.fido; Zoo.rex])] = Ok c
    /\ serialize Zoo.modules 3 c true = Ok doc
    /\ from_dict Zoo.modules Zoo.uuid4 2 Zoo.DogContainer doc 0%nat
       = (Ok c', doc', w')
    /\ Container_elements Zoo.DogContainer c'
       = Ok [Zoo.rex; Zoo.fido; Zoo.rex].
Proof.
  apply (Container_round_trip_order Zoo.modules Zoo.uuid4
           Zoo.DogContainer Zoo.Dog "elements" "_ELEMENT_CLS"
           [Zoo.rex; Zoo.fido; Zoo.rex] true 2 1 0%nat).
  - repeat split; try reflexivity; discriminate.
  - repeat constructor.
  - repeat constructor; eexists; (split; [reflexivity|]);
      intros w0; eexists; eexists; reflexivity.
Defined.

(* ================================================================== *)
(** ** The stable sort *)

Section StableSort.
Context {K A : Type}.
Variable lt : K -> K -> result bool.
(** The keyed elements that are sorted. *)
Variable dom : K * A -> Prop.

Hypothesis lt_total :
  forall a b, dom a -> dom b -> exists c, lt (fst a) (fst b) = Ok c.
Hypothesis lt_asym :
  forall a b, dom a -> dom b ->
              lt (fst a) (fst b) = Ok true -> lt (fst b) (fst a) = Ok false.
Hypothesis le_trans :
  forall a b c, dom a -> dom b -> dom c ->
                keys_ordered lt a b -> keys_ordered lt b c ->
                keys_ordered lt a c.

Lemma insert_keyed_total (x : K * A) (l : list (K * A)) :
  dom x -> Forall dom l -> exists r, insert_keyed lt x l = Ok r.
Proof.
  intros Hx Hl. induction Hl as [|y r Hy Hr [r' IH]]; simpl.
  - now exists [x].
  - destruct (lt_total y x Hy Hx) as [[|] Hc]; rewrite Hc; simpl.
    + rewrite IH. simpl. now eexists.
    + now eexists.
Qed.

Lemma insert_keyed_perm (x : K * A) (l r : list (K * A)) :
  insert_keyed lt x l = Ok r -> Permutation (x :: l) r.
Proof.
  revert r. induction l as [|y l IH]; simpl; intros r.
  - intros [= <-]. apply Permutation_refl.
  - destruct (lt (fst y) (fst x)) as [[|]|]; simpl; try discriminate.
    + destruct (insert_keyed lt x l) as [r'|]; simpl; [|discriminate].
      intros [= <-]. rewrite perm_swap. now apply perm_skip, IH.
    + intros [= <-]. apply Permutation_refl.
Qed.

Lemma insert_keyed_sorted (x : K * A) (l r : list (K * A)) :
  dom x -> Forall dom l ->
  StronglySorted (keys_ordered lt) l ->
  insert_keyed lt x l = Ok r ->
  StronglySorted (keys_ordered lt) r.
Proof.
  intros Hx Hl Hs. revert r.
  induction Hs as [|y l Hs IH Hy]; simpl; intros r.
  - intros [= <-]. repeat constructor.
  - inversion Hl as [|? ? Hdy Hdl]; subst.
    destruct (lt (fst y) (fst x)) as [[|]|] eqn:Hc; simpl; try discriminate.
    + destruct (insert_keyed lt x l) as [r'|] eqn:Hr'; simpl; [|discriminate].
      intros [= <-]. constructor; [now apply IH|].
      apply (Permutation_Forall (insert_keyed_perm _ _ _ Hr')).
      constructor; [|exact Hy].
      unfold keys_ordered. now apply lt_asym.
    + intros [= <-]. constructor; [now constructor|].
      constructor; [exact Hc|].
      rewrite Forall_forall in *. intros z Hz.
      apply (le_trans x y z); auto.
Qed.

(** Elements of a class no member of which is smaller than another keep
    their order. *)
Lemma insert_keyed_stable (p : K * A -> bool) (x : K * A)
      (l r : list (K * A)) :
  (forall a b, dom a -> dom b -> p a = true -> p b = true ->
               lt (fst a) (fst b) <> Ok true) ->
  dom x -> Forall dom l ->
  insert_keyed lt x l = Ok r ->
  filter p r = filter p (x :: l).
Proof.
  intros Hp Hx Hl. revert r.
  induction Hl as [|y l Hy Hl IH]; simpl; intros r.
  - now intros [= <-].
  - destruct (lt (fst y) (fst x)) as [[|]|] eqn:Hc; simpl; try discriminate.
    + destruct (insert_keyed lt x l) as [r'|]; simpl; [|discriminate].
      intros [= <-]. simpl. rewrite (IH r' eq_refl). simpl.
      destruct (p y) eqn:Hpy, (p x) eqn:Hpx; try reflexivity.
      exfalso. exact (Hp y x Hy Hx Hpy Hpx Hc).
    + now intros [= <-].
Qed.

Lemma stable_sort_correct (l : list (K * A)) :
  Forall dom l ->
  exists r,
    stable_sort lt l = Ok r
    /\ Permutation l r
    /\ StronglySorted (keys_ordered lt) r
    /\ (forall p,
           (forall a b, dom a -> dom b -> p a = true -> p b = true ->
                        lt (fst a) (fst b) <> Ok true) ->
           filter p r = filter p l).
Proof.
  induction 1 as [|x l Hx Hl (s & Hs & Hperm & Hsorted & Hstable)]; simpl.
  - exists []. repeat split; auto. constructor.
  - rewrite Hs. simpl.
    assert (Hds : Forall dom s) by (now apply (Permutation_Forall Hperm)).
    destruct (insert_keyed_total x s Hx Hds) as [r Hr].
    exists r. split; [exact Hr|]. split; [|split].
    + rewrite <- (insert_keyed_perm _ _ _ Hr). now apply perm_skip.
    + now apply (insert_keyed_sorted x s).
    + intros p Hp. rewrite (insert_keyed_stable p x s r Hp Hx Hds Hr). simpl.
      now rewrite (Hstable p Hp).
Qed.

End StableSort.

Lemma StronglySorted_app {A : Type} (R : A -> A -> Prop) (l1 l2 : list A) :
  StronglySorted R l1 -> StronglySorted R l2 ->
  (forall a b, In a l1 -> In b l2 -> R a b) ->
  StronglySorted R (l1 ++ l2).
Proof.
  induction 1 as [|x l Hs IH Hx]; simpl; intros H2 Hcross; [exact H2|].
  constructor.
  - apply IH; [exact H2|]. intros a b Ha Hb. apply Hcross; [now right|exact Hb].
  - apply Forall_app. split; [exact Hx|].
    apply Forall_forall. intros b Hb. apply Hcross; [now left|exact Hb].
Qed.

Lemma StronglySorted_rev {A : Type} (R : A -> A -> Prop) (l : list A) :
  StronglySorted R l -> StronglySorted (fun x y => R y x) (rev l).
Proof.
  induction 1 as [|x l Hs IH Hx]; simpl; [constructor|].
  apply StronglySorted_app; [exact IH|repeat constructor|].
  intros a b Ha [<-|[]]. apply in_rev in Ha.
  rewrite Forall_forall in Hx. now apply Hx.
Qed.

Lemma StronglySorted_filter {A : Type} (R : A -> A -> Prop) (p : A -> bool)
      (l : list A) :
  StronglySorted R l -> StronglySorted R (filter p l).
Proof.
  induction 1 as [|x l Hs IH Hx]; simpl; [constructor|].
  destruct (p x); [|exact IH]. constructor; [exact IH|].
  apply Forall_forall. intros y Hy. apply filter_In in Hy as [Hy _].
  rewrite Forall_forall in Hx. now apply Hx.
Qed.

Lemma filter_none {A : Type} (q : A -> bool) (l : list A) :
  (forall y, In y l -> q y = false) -> filter q l = [].
Proof.
  induction l as [|x l IH]; simpl; intros H; [reflexivity|].
  rewrite (H x) by now left. apply IH. intros y Hy. apply H. now right.
Qed.

(** In a sorted list in which no member of a class may stand before a
    non-member, the members come last. *)
Lemma StronglySorted_split {A : Type} (R : A -> A -> Prop) (p : A -> bool)
      (l : list A) :
  StronglySorted R l ->
  (forall a b, In a l -> In b l -> p a = true -> p b = false -> ~ R a b) ->
  l = filter (fun x => negb (p x)) l ++ filter p l.
Proof.
  induction 1 as [|x l Hs IH Hx]; simpl; intros Hp; [reflexivity|].
  assert (IH' : l = filter (fun x => negb (p x)) l ++ filter p l).
  { apply IH. intros a b Ha Hb. apply Hp; now right. }
  destruct (p x) eqn:Hpx; simpl.
  - assert (Hall : filter (fun y => negb (p y)) l = []).
    { apply filter_none. intros y Hy.
      destruct (p y) eqn:Hpy; [reflexivity|]. exfalso.
      apply (Hp x y); simpl; auto.
      rewrite Forall_forall in Hx. now apply Hx. }
    rewrite Hall in *. simpl in *. now rewrite <- IH'.
  - now rewrite <- IH'.
Qed.

Lemma filter_map_snd {K A : Type} (p : A -> bool) (l : list (K * A)) :
  filter p (map snd l) = map snd (filter (fun kx => p (snd kx)) l).
Proof.
  induction l as [|kx l IH]; simpl; [reflexivity|].
  destruct (p (snd kx)); simpl; now rewrite IH.
Qed.

(* ================================================================== *)
(** ** The order of values *)

Lemma string_compare_refl (s : string) : String.compare s s = Eq.
Proof.
  pose proof (String.compare_antisym s s) as H.
  destruct (String.compare s s); simpl in H; congruence.
Qed.

Lemma ascii_compare_lt_trans (a b c : ascii) :
  Ascii.compare a b = Lt -> Ascii.compare b c = Lt -> Ascii.compare a c = Lt.
Proof.
  unfold Ascii.compare. rewrite !N.compare_lt_iff. apply N.lt_trans.
Qed.

Lemma string_compare_lt_trans (a : string) :
  forall b c, String.compare a b = Lt -> String.compare b c = Lt ->
              String.compare a c = Lt.
Proof.
  induction a as [|x a IH]; intros [|y b] [|z c]; simpl;
    try discriminate; try reflexivity.
  destruct (Ascii.compare x y) eqn:Hxy; try discriminate;
    destruct (Ascii.compare y z) eqn:Hyz; try discriminate; intros H1 H2.
  - apply Ascii.compare_eq_iff in Hxy, Hyz. subst.
    assert (Hzz : Ascii.compare z z = Eq).
    { unfold Ascii.compare. apply N.compare_refl. }
    rewrite Hzz. now apply (IH b c).
  - apply Ascii.compare_eq_iff in Hxy. subst. now rewrite Hyz.
  - apply Ascii.compare_eq_iff in Hyz. subst. now rewrite Hxy.
  - now rewrite (ascii_compare_lt_trans x y z).
Qed.

Lemma string_ltb_asym (a b : string) :
  String.ltb a b = true -> String.ltb b a = false.
Proof.
  unfold String.ltb. rewrite (String.compare_antisym b a).
  destruct (String.compare a b); simpl; congruence.
Qed.

Lemma string_le_trans (a b c : string) :
  String.ltb b a = false -> String.ltb c b = false -> String.ltb c a = false.
Proof.
  unfold String.ltb. intros Hba Hcb.
  destruct (String.compare c a) eqn:Hca; try reflexivity. exfalso.
  destruct (String.compare c b) eqn:E1; try discriminate.
  - apply String.compare_eq_iff in E1. subst. now rewrite Hca in Hba.
  - destruct (String.compare b a) eqn:E2; try discriminate.
    + apply String.compare_eq_iff in E2. subst. congruence.
    + rewrite (String.compare_antisym c b) in E1.
      rewrite (String.compare_antisym b a) in E2.
      destruct (String.compare b c) eqn:E3; try discriminate.
      destruct (String.compare a b) eqn:E4; try discriminate.
      pose proof (string_compare_lt_trans a b c E4 E3) as H.
      rewrite (String.compare_antisym c a), H in Hca. discriminate.
Qed.

Lemma family_not_none (numeric : bool) (v : pyval) :
  in_family numeric v -> is_none v = false.
Proof.
  destruct numeric; intros [x H]; destruct v; try discriminate; reflexivity.
Qed.

(** Numbers and strings are totally ordered. *)
Lemma family_lt (numeric : bool) (u v : pyval) :
  in_family numeric u -> in_family numeric v ->
  exists e, py_eq u v = Ok e /\ py_lt u v = Ok (val_ltb u v)
            /\ (e = true -> val_ltb u v = false).
Proof.
  unfold val_ltb. destruct numeric; intros [x Hx] [y Hy].
  - unfold py_eq, py_lt. rewrite Hx, Hy. eexists. repeat split.
    intros H. apply Z.eqb_eq in H. subst. apply Z.ltb_irrefl.
  - subst. simpl. eexists. repeat split.
    intros H. apply String.eqb_eq in H. subst.
    unfold String.ltb. now rewrite string_compare_refl.
Qed.

Lemma val_ltb_asym (numeric : bool) (u v : pyval) :
  in_family numeric u -> in_family numeric v ->
  val_ltb u v = true -> val_ltb v u = false.
Proof.
  unfold val_ltb. destruct numeric; intros [x Hx] [y Hy].
  - unfold py_lt. rewrite Hx, Hy. rewrite Z.ltb_lt, Z.ltb_ge. lia.
  - subst. simpl. apply string_ltb_asym.
Qed.

Lemma val_le_trans (numeric : bool) (u v t : pyval) :
  in_family numeric u -> in_family numeric v -> in_family numeric t ->
  val_ltb v u = false -> val_ltb t v = false -> val_ltb t u = false.
Proof.
  unfold val_ltb. destruct numeric; intros [x Hx] [y Hy] [z Hz].
  - unfold py_lt. rewrite Hx, Hy, Hz. rewrite !Z.ltb_ge. lia.
  - subst. simpl. apply string_le_trans.
Qed.

(** [tuple_lt] on the keys of two values that are [None] or of one
    family. *)
Lemma tuple_lt_sort_key (numeric reverse : bool) (u v : pyval) :
  u = VNone \/ in_family numeric u ->
  v = VNone \/ in_family numeric v ->
  tuple_lt (sort_key reverse u) (sort_key reverse v)
  = Ok (key_ltb reverse u v).
Proof.
  unfold tuple_lt, sort_key, key_ltb. cbn [fst snd].
  intros [->|Hu] [->|Hv].
  - destruct reverse; reflexivity.
  - rewrite (family_not_none _ _ Hv). destruct reverse; reflexivity.
  - rewrite (family_not_none _ _ Hu). destruct reverse; reflexivity.
  - rewrite (family_not_none _ _ Hu), (family_not_none _ _ Hv).
    destruct (family_lt numeric u v Hu Hv) as (e & He & Hl & Hel).
    rewrite Bool.eqb_reflx, He. cbn [bind].
    destruct e; [now rewrite Hel|exact Hl].
Qed.

Lemma key_ltb_asym (numeric reverse : bool) (u v : pyval) :
  u = VNone \/ in_family numeric u ->
  v = VNone \/ in_family numeric v ->
  key_ltb reverse u v = true -> key_ltb reverse v u = false.
Proof.
  unfold key_ltb. intros [->|Hu] [->|Hv];
    try rewrite (family_not_none _ _ Hu);
    try rewrite (family_not_none _ _ Hv); cbn [is_none];
    try (destruct reverse; simpl; congruence).
  now apply (val_ltb_asym numeric).
Qed.

Lemma key_le_trans (numeric reverse : bool) (u v t : pyval) :
  u = VNone \/ in_family numeric u ->
  v = VNone \/ in_family numeric v ->
  t = VNone \/ in_family numeric t ->
  key_ltb reverse v u = false -> key_ltb reverse t v = false ->
  key_ltb reverse t u = false.
Proof.
  unfold key_ltb. intros [->|Hu] [->|Hv] [->|Ht];
    try rewrite (family_not_none _ _ Hu);
    try rewrite (family_not_none _ _ Hv);
    try rewrite (family_not_none _ _ Ht); cbn [is_none];
    try (destruct reverse; simpl; congruence).
  now apply (val_le_trans numeric).
Qed.

(* ================================================================== *)
(** ** [sorted] with the key of [sort_by] *)

Lemma StronglySorted_map_in {A B : Type} (R : A -> A -> Prop)
      (R' : B -> B -> Prop) (f : A -> B) (l : list A) :
  StronglySorted R l ->
  (forall a b, In a l -> In b l -> R a b -> R' (f a) (f b)) ->
  StronglySorted R' (map f l).
Proof.
  induction 1 as [|x l Hs IH Hx]; simpl; intros Himp; [constructor|].
  constructor.
  - apply IH. intros a b Ha Hb. apply Himp; now right.
  - apply Forall_forall. intros y Hy. apply in_map_iff in Hy as [z [<- Hz]].
    apply Himp; [now left|now right|].
    rewrite Forall_forall in Hx. now apply Hx.
Qed.

(** The values [py_eq] finds equal. *)
Lemma py_eq_true (v u : pyval) :
  py_eq v u = Ok true ->
  (v = VNone /\ u = VNone)
  \/ (exists z, as_number v = Some z /\ as_number u = Some z)
  \/ (exists s, v = VStr s /\ u = VStr s).
Proof.
  unfold py_eq. destruct v, u; simpl; try discriminate; intros H;
    first
      [ left; now split
      | injection H as H; apply Z.eqb_eq in H; right; left; eexists;
        split; [reflexivity | now rewrite H]
      | injection H as H; apply String.eqb_eq in H; subst; right; right;
        eexists; split; reflexivity ].
Qed.

Section SortBy.
Context {X : Type}.
Variable val : X -> result pyval.
Variables numeric reverse : bool.

Lemma keyed_spec (l : list X) (vals : list pyval) :
  attribute_values val l vals ->
  Forall (fun v => v = VNone \/ in_family numeric v) vals ->
  map_result
    (fun x => k <- (v <- val x ;; Ok (xorb (is_none v) reverse, v)) ;;
              Ok (k, x)) l
  = Ok (keyed reverse l vals)
  /\ map snd (keyed reverse l vals) = l
  /\ Forall (keyed_element val numeric reverse) (keyed reverse l vals).
Proof.
  unfold keyed.
  induction 1 as [|x v l vals Hx Hl IH]; intros Hfam; simpl.
  - repeat split. constructor.
  - inversion Hfam as [|? ? Hv Hvals]; subst.
    destruct (IH Hvals) as (H1 & H2 & H3).
    rewrite Hx. cbn [bind]. rewrite H1. cbn [bind]. rewrite H2.
    repeat split; try reflexivity.
    constructor; [|exact H3]. repeat split; assumption.
Qed.

Lemma keyed_lt (a b : (bool * pyval) * X) :
  keyed_element val numeric reverse a ->
  keyed_element val numeric reverse b ->
  tuple_lt (fst a) (fst b)
  = Ok (key_ltb reverse (snd (fst a)) (snd (fst b))).
Proof.
  intros (_ & Ha & Hfa) (_ & Hb & Hfb). rewrite Ha, Hb. cbn [snd sort_key].
  now apply (tuple_lt_sort_key numeric).
Qed.

Lemma keyed_sorted (kl : list ((bool * pyval) * X)) :
  Forall (keyed_element val numeric reverse) kl ->
  exists r,
    stable_sort tuple_lt kl = Ok r
    /\ Permutation kl r
    /\ StronglySorted (keys_ordered tuple_lt) r
    /\ (forall p,
           (forall a b, keyed_element val numeric reverse a ->
                        keyed_element val numeric reverse b ->
                        p a = true -> p b = true ->
                        tuple_lt (fst a) (fst b) <> Ok true) ->
           filter p r = filter p kl).
Proof.
  apply stable_sort_correct.
  - intros a b Ha Hb. rewrite (keyed_lt a b Ha Hb). now eexists.
  - intros a b Ha Hb. rewrite (keyed_lt a b Ha Hb), (keyed_lt b a Hb Ha).
    intros [= H]. f_equal.
    destruct Ha as (_ & _ & Hfa), Hb as (_ & _ & Hfb).
    now apply (key_ltb_asym numeric).
  - intros a b c Ha Hb Hc. unfold keys_ordered.
    rewrite (keyed_lt b a Hb Ha), (keyed_lt c b Hc Hb), (keyed_lt c a Hc Ha).
    intros [= H1] [= H2]. f_equal.
    destruct Ha as (_ & _ & Hfa), Hb as (_ & _ & Hfb), Hc as (_ & _ & Hfc).
    now apply (key_le_trans numeric reverse _ (snd (fst b))).
Qed.

End SortBy.

Section NoneLast.
Context {X : Type}.
Variable val : X -> result pyval.

Lemma keyed_none (numeric reverse : bool) (a : (bool * pyval) * X) :
  keyed_element val numeric reverse a ->
  val_is_none val (snd a) = is_none (snd (fst a)).
Proof.
  intros (Hv & _ & _). unfold val_is_none. rewrite Hv.
  now destruct (snd (fst a)).
Qed.

(** Two keyed elements whose attributes equal [v] have keys neither of
    which is smaller. *)
Lemma keyed_equal_class (numeric reverse : bool) (v : pyval)
      (a b : (bool * pyval) * X) :
  keyed_element val numeric reverse a ->
  keyed_element val numeric reverse b ->
  has_val val v (snd a) = true -> has_val val v (snd b) = true ->
  tuple_lt (fst a) (fst b) <> Ok true.
Proof.
  intros Ha Hb. rewrite (keyed_lt val numeric reverse a b Ha Hb).
  destruct Ha as (Hva & _ & _), Hb as (Hvb & _ & _).
  unfold has_val. rewrite Hva, Hvb.
  destruct (py_eq v (snd (fst a))) as [[|]|] eqn:Ea; try discriminate.
  destruct (py_eq v (snd (fst b))) as [[|]|] eqn:Eb; try discriminate.
  intros _ _.
  destruct (py_eq_true _ _ Ea) as [[Hn Ua]|[[z [Hz Ua]]|[s [Hs Ua]]]];
    destruct (py_eq_true _ _ Eb) as [[Hn' Ub]|[[z' [Hz' Ub]]|[s' [Hs' Ub]]]];
    try subst v; try (simpl in *; congruence); unfold key_ltb.
  - rewrite Ua, Ub. simpl. discriminate.
  - rewrite Hz in Hz'. injection Hz' as <-.
    assert (Hna : is_none (snd (fst a)) = false)
      by (destruct (snd (fst a)); try discriminate; reflexivity).
    assert (Hnb : is_none (snd (fst b)) = false)
      by (destruct (snd (fst b)); try discriminate; reflexivity).
    rewrite Hna, Hnb. unfold val_ltb, py_lt. rewrite Ua, Ub.
    rewrite Z.ltb_irrefl. discriminate.
  - injection Hs' as <-. rewrite Ua, Ub. simpl.
    unfold val_ltb. simpl. unfold String.ltb.
    rewrite string_compare_refl. discriminate.
Qed.

Lemma py_sorted_none_last (numeric reverse : bool) (l : list X)
      (vals : list pyval) :
  attribute_values val l vals ->
  Forall (fun v => v = VNone \/ in_family numeric v) vals ->
  exists r,
    py_sorted tuple_lt
      (fun x => v <- val x ;; Ok (xorb (is_none v) reverse, v)) reverse l
    = Ok r
    /\ sorted_none_last val reverse l r.
Proof.
  intros Hvals Hfam.
  destruct (keyed_spec val numeric reverse l vals Hvals Hfam)
    as (Hk & Hsnd & Hdom).
  set (dom := keyed_element val numeric reverse) in *.
  set (kl := keyed reverse l vals) in *.
  assert (Hdin : Forall dom (if reverse then rev kl else kl)).
  { destruct reverse; [apply Forall_rev|]; exact Hdom. }
  destruct (keyed_sorted val numeric reverse _ Hdin)
    as (s & Hs & Hperm & Hsorted & Hstable).
  set (t := if reverse then rev s else s).
  assert (Hpt : Permutation kl t).
  { subst t. destruct reverse; [|exact Hperm].
    rewrite <- Permutation_rev. rewrite <- Hperm. apply Permutation_rev. }
  assert (Hdt : Forall dom t) by (now apply (Permutation_Forall Hpt)).
  assert (Hst : forall p,
             (forall a b, dom a -> dom b -> p a = true -> p b = true ->
                          tuple_lt (fst a) (fst b) <> Ok true) ->
             filter p t = filter p kl).
  { intros p Hp. subst t. destruct reverse; [|now apply Hstable].
    rewrite filter_rev, (Hstable p Hp), filter_rev. apply rev_involutive. }
  assert (Hsort_t : StronglySorted
                      (fun a b => if reverse then keys_ordered tuple_lt b a
                                  else keys_ordered tuple_lt a b) t).
  { subst t. destruct reverse; [|exact Hsorted].
    now apply StronglySorted_rev. }
  exists (map snd t). split.
  - unfold py_sorted. rewrite Hk. cbn [bind]. fold kl. subst t.
    destruct reverse; rewrite Hs; reflexivity.
  - assert (Hin_t : forall a, In a t -> dom a)
      by (now apply Forall_forall).
    assert (Hin_kl : forall a, In a kl -> dom a)
      by (now apply Forall_forall).
    set (pn := fun a : (bool * pyval) * X => is_none (snd (fst a))).
    assert (Hsplit : t = filter (fun a => negb (pn a)) t ++ filter pn t).
    { apply (StronglySorted_split _ pn t Hsort_t).
      intros a b Ha Hb Hpa Hpb HR. unfold pn in Hpa, Hpb.
      destruct reverse; unfold keys_ordered in HR;
        rewrite (keyed_lt val numeric _ _ _ (Hin_t _ Ha) (Hin_t _ Hb)) in HR
        || rewrite (keyed_lt val numeric _ _ _ (Hin_t _ Hb) (Hin_t _ Ha)) in HR;
        unfold key_ltb in HR; rewrite Hpa, Hpb in HR; discriminate. }
    split; [|split].
    + rewrite <- Hsnd. now apply Permutation_map.
    + exists (map snd (filter (fun a => negb (pn a)) t)). split; [|split].
      * rewrite Hsplit at 1. rewrite map_app. f_equal.
        rewrite (Hst pn).
        -- rewrite <- Hsnd, filter_map_snd. f_equal.
           apply filter_ext_in. intros a Ha. symmetry.
           exact (keyed_none numeric reverse a (Hin_kl a Ha)).
        -- intros a b Ha Hb Hpa Hpb. unfold pn in Hpa, Hpb.
           rewrite (keyed_lt val numeric reverse a b Ha Hb).
           unfold key_ltb. rewrite Hpa, Hpb. discriminate.
      * apply Forall_forall. intros x Hx.
        apply in_map_iff in Hx as [a [<- Ha]].
        apply filter_In in Ha as [Ha Hpa].
        rewrite (keyed_none numeric reverse a (Hin_t a Ha)).
        unfold pn in Hpa. now destruct (is_none (snd (fst a))).
      * apply (StronglySorted_map_in
                 (fun a b => if reverse then keys_ordered tuple_lt b a
                             else keys_ordered tuple_lt a b)).
        -- now apply StronglySorted_filter.
        -- intros a b Ha Hb HR.
           apply filter_In in Ha as [Ha Hpa], Hb as [Hb Hpb].
           unfold pn in Hpa, Hpb.
           apply Bool.negb_true_iff in Hpa, Hpb.
           pose proof (Hin_t a Ha) as Hda. pose proof (Hin_t b Hb) as Hdb.
           assert (Hfam_of : forall c, dom c -> is_none (snd (fst c)) = false ->
                                       in_family numeric (snd (fst c))).
           { intros c (_ & _ & [Hc|Hc]) Hn; [|exact Hc].
             rewrite Hc in Hn. discriminate. }
           pose proof (Hfam_of a Hda Hpa) as Hfa.
           pose proof (Hfam_of b Hdb Hpb) as Hfb.
           destruct Hda as (Hva & _ & _), Hdb as (Hvb & _ & _).
           destruct reverse; unfold keys_ordered in HR.
           ++ rewrite (keyed_lt val numeric true a b (Hin_t a Ha) (Hin_t b Hb))
                in HR.
              unfold key_ltb in HR. rewrite Hpa, Hpb in HR.
              injection HR as HR.
              exists (snd (fst b)), (snd (fst a)). repeat split; auto.
              destruct (family_lt numeric _ _ Hfa Hfb) as (e & _ & Hl & _).
              now rewrite Hl, HR.
           ++ rewrite (keyed_lt val numeric false b a (Hin_t b Hb) (Hin_t a Ha))
                in HR.
              unfold key_ltb in HR. rewrite Hpa, Hpb in HR.
              injection HR as HR.
              exists (snd (fst a)), (snd (fst b)). repeat split; auto.
              destruct (family_lt numeric _ _ Hfb Hfa) as (e & _ & Hl & _).
              now rewrite Hl, HR.
    + intros v. rewrite <- Hsnd, !filter_map_snd. f_equal.
      apply (Hst (fun kx => has_val val v (snd kx))).
      intros a b Ha Hb. now apply (keyed_equal_class numeric reverse v).
Qed.

End NoneLast.

(* ================================================================== *)
(** ** [sort_by] *)

(** C6.  [sort_by] of a [Container] and of a [Set], on an attribute all
    elements have and whose values, apart from [None], are all numbers
    or all strings: the outcome is a permutation of the elements in
    which those whose attribute is not [None] come first, in ascending
    order, or in descending order with [reverse], and those whose
    attribute is [None] come last, in both directions; elements with
    equal attributes keep their order.  In a set the keys stay with
    their elements. *)
Theorem sort_by_none_last (ccls scls : pyclass) (c s : pyval)
        (es : list pyval) (d : odict pyval) (attr : string) (reverse : bool)
        (cvals svals : list pyval) :
  Container_elements ccls c = Ok es ->
  attribute_values (fun e => getattr e (Some attr)) es cvals ->
  sortable cvals ->
  Set_elements scls s = Ok d ->
  NoDup (od_keys d) ->
  attribute_values (fun kv => getattr (snd kv) (Some attr)) d svals ->
  sortable svals ->
  (exists c' es',
      Container_sort_by ccls c attr reverse = Ok c'
      /\ Container_elements ccls c' = Ok es'
      /\ sorted_none_last (fun e => getattr e (Some attr)) reverse es es')
  /\ (exists s' d',
         Set_sort_by scls s attr reverse = Ok s'
         /\ Set_elements scls s' = Ok d'
         /\ sorted_none_last (fun kv => getattr (snd kv) (Some attr))
              reverse d d').
Proof.
  intros Hc Hcv [cnum Hcs] Hs Hnd Hsv [snum Hss]. split.
  - destruct (py_sorted_none_last (fun e => getattr e (Some attr))
                cnum reverse es cvals Hcv Hcs) as (r & Hr & Hsorted).
    destruct (Container_rebind ccls c es r Hc) as (c' & Hset & Hget).
    exists c', r. repeat split; try assumption; try apply Hsorted.
    unfold Container_sort_by. rewrite Hc. cbn [bind].
    unfold field_none_last. rewrite Hr. exact Hset.
  - destruct (py_sorted_none_last (fun kv : pykey * pyval =>
                                     getattr (snd kv) (Some attr))
                snum reverse d svals Hsv Hss) as (r & Hr & Hsorted).
    destruct (Set_rebind scls s d r Hs) as (s' & Hset & Hget).
    exists s', r. repeat split; try assumption; try apply Hsorted.
    unfold Set_sort_by. rewrite Hs. cbn [bind].
    unfold field_none_last. rewrite Hr. cbn [bind].
    rewrite od_of_list_nodup; [exact Hset|].
    destruct Hsorted as (Hperm & _).
    unfold od_keys. apply (Permutation_NoDup (Permutation_map fst Hperm)).
    exact Hnd.
Qed.

Lemma sort_by_none_last_witness :
  (exists c' es',
      Container_sort_by Zoo.DogContainer
        (Zoo.kennel [Zoo.rex; Zoo.ghost; Zoo.fido]) "age" false = Ok c'
      /\ Container_elements Zoo.DogContainer c' = Ok es'
      /\ sorted_none_last (fun e => getattr e (Some "age")) false
           [Zoo.rex; Zoo.ghost; Zoo.fido] es')
  /\ (exists s' d',
         Set_sort_by Zoo.AnimalSet
           (Zoo.pack [(KStr "rex", Zoo.rex); (KStr "ghost", Zoo.ghost);
                      (KStr "fido", Zoo.fido)]) "age" false = Ok s'
         /\ Set_elements Zoo.AnimalSet s' = Ok d'
         /\ sorted_none_last (fun kv => getattr (snd kv) (Some "age")) false
              [(KStr "rex", Zoo.rex); (KStr "ghost", Zoo.ghost);
               (KStr "fido", Zoo.fido)] d').
Proof.
  apply (sort_by_none_last Zoo.DogContainer Zoo.AnimalSet
           (Zoo.kennel [Zoo.rex; Zoo.ghost; Zoo.fido])
           (Zoo.pack [(KStr "rex", Zoo.rex); (KStr "ghost", Zoo.ghost);
                      (KStr "fido", Zoo.fido)])
           [Zoo.rex; Zoo.ghost; Zoo.fido]
           [(KStr "rex", Zoo.rex); (KStr "ghost", Zoo.ghost);
            (KStr "fido", Zoo.fido)]
           "age" false [VInt 3; VNone; VInt 1] [VInt 3; VNone; VInt 1]).
  - reflexivity.
  - repeat constructor.
  - exists true. repeat apply Forall_cons; try apply Forall_nil;
      [right; now exists 3%Z | now left | right; now exists 1%Z].
  - reflexivity.
  - repeat constructor; simpl; intuition discriminate.
  - repeat constructor.
  - exists true. repeat apply Forall_cons; try apply Forall_nil;
      [right; now exists 3%Z | now left | right; now exists 1%Z].
Defined.

(** The example of the specification: the ages 3, [None], 1. *)
Example sort_by_example :
  Container_sort_by Zoo.DogContainer
    (Zoo.kennel [Zoo.rex; Zoo.ghost; Zoo.fido]) "age" false
  = Ok (Zoo.kennel [Zoo.fido; Zoo.rex; Zoo.ghost])
  /\ Container_sort_by Zoo.DogContainer
       (Zoo.kennel [Zoo.rex; Zoo.ghost; Zoo.fido]) "age" true
     = Ok (Zoo.kennel [Zoo.rex; Zoo.fido; Zoo.ghost])
  /\ Set_sort_by Zoo.AnimalSet
       (Zoo.pack [(KStr "rex", Zoo.rex); (KStr "ghost", Zoo.ghost);
                  (KStr "fido", Zoo.fido)]) "age" false
     = Ok (Zoo.pack [(KStr "fido", Zoo.fido); (KStr "rex", Zoo.rex);
                     (KStr "ghost", Zoo.ghost)])
  /\ Set_sort_by Zoo.AnimalSet
       (Zoo.pack [(KStr "rex", Zoo.rex); (KStr "ghost", Zoo.ghost);
                  (KStr "fido", Zoo.fido)]) "age" true
     = Ok (Zoo.pack [(KStr "rex", Zoo.rex); (KStr "fido", Zoo.fido);
                     (KStr "ghost", Zoo.ghost)]).
Proof. repeat split; reflexivity. Qed.

(** A descending sort keeps elements with equal attributes in their
    order: the two dogs of age 3 stay as they were. *)
Example sort_by_descending_is_stable :
  Container_sort_by Zoo.DogContainer
    (Zoo.kennel [Zoo.fido; Zoo.rex; Zoo.dog (VStr "max") (VInt 3)])
    "age" true
  = Ok (Zoo.kennel [Zoo.rex; Zoo.dog (VStr "max") (VInt 3); Zoo.fido]).
Proof. reflexivity. Qed.

(* ================================================================== *)
(** * Further properties *)

(** ** Type checks of the constructors and of [add] *)

Lemma assoc_set_twice {A : Type} (k : string) (u v : A)
      (l : list (string * A)) :
  assoc_set k v (assoc_set k u l) = assoc_set k v l.
Proof.
  induction l as [|[k' v'] r IH]; simpl.
  - now rewrite String.eqb_refl.
  - destruct (String.eqb k' k) eqn:E; simpl; rewrite E; [reflexivity|].
    now rewrite IH.
Qed.

Lemma assoc_set_id {A : Type} (k : string) (v : A) (l : list (string * A)) :
  assoc k l = Some v -> assoc_set k v l = l.
Proof.
  induction l as [|[k' v'] r IH]; simpl; [discriminate|].
  destruct (String.eqb k' k); [now intros [= ->]|].
  intros H. now rewrite IH.
Qed.

Section TypeChecks.
Variable modules : string -> option (string -> option pyclass).
Variable uuid4 : nat -> string.

Lemma check_elements_fail (ele : pyclass) (err : exn) (items : list pyval)
      (e : pyval) :
  In e items -> isinstance modules e (get_class_name ele) = false ->
  check_elements modules ele err items = Raise err.
Proof.
  induction items as [|x r IH]; simpl; [contradiction|].
  intros [->|Hin] He.
  - now rewrite He.
  - destruct (isinstance modules x (get_class_name ele)); auto.
Qed.

(** X1.  The constructors accept all the elements or none: one element that
    is not an instance of the element class makes [Container] raise
    [ContainerError] and [Set] raise [SetError], whatever kind of
    iterable holds the elements and wherever the element stands. *)
Theorem constructors_reject_foreign_element (ccls scls cele sele : pyclass)
        (cattr sattr : string) (it : iterable) (e : pyval) (w : world) :
  Container_validate ccls = Ok tt ->
  c_ELE_CLS ccls = Some cele -> c_ELE_ATTR ccls = Some cattr ->
  Set_validate scls = Ok tt ->
  c_ELE_CLS scls = Some sele -> c_ELE_ATTR scls = Some sattr ->
  In e (iter_items it) ->
  isinstance modules e (get_class_name cele) = false ->
  isinstance modules e (get_class_name sele) = false ->
  Container_init modules ccls [(cattr, it)] = Raise ContainerError
  /\ Set_init modules uuid4 scls [(sattr, it)] w = (Raise SetError, w).
Proof.
  intros Hcv Hce Hca Hsv Hse Hsa Hin Hc Hs. split.
  - unfold Container_init. rewrite Hcv, Hca, Hce. cbn [bind].
    rewrite unexpected_kwargs_own, kwargs_get_own.
    now rewrite (check_elements_fail cele ContainerError _ e Hin Hc).
  - unfold Set_init, sbind, lift. rewrite Hsv, Hsa, Hse.
    rewrite unexpected_kwargs_own, kwargs_get_own.
    now rewrite (check_elements_fail sele SetError _ e Hin Hs).
Qed.

(** X2.  [add] makes no type check: a value that is not an instance of the
    element class is appended like any other, and [filter_elements]
    works on the container that holds it; but [get_matches], which
    builds its result with the constructor, raises [ContainerError] as
    soon as that value is among the matches. *)
Theorem Container_add_is_unchecked (cls ele : pyclass) (attr : string)
        (c x : pyval) (es : list pyval) (filters : list (pyval -> bool))
        (comb : combinator) :
  Container_validate cls = Ok tt ->
  c_ELE_CLS cls = Some ele -> c_ELE_ATTR cls = Some attr ->
  Container_elements cls c = Ok es ->
  isinstance modules x (get_class_name ele) = false ->
  satisfies comb filters x = true ->
  exists c',
    Container_add cls c x = Ok c'
    /\ Container_elements cls c' = Ok (es ++ [x])
    /\ is_ok (Container_filter_elements cls c' filters (combinator_fn comb))
       = true
    /\ Container_get_matches modules cls c' filters (combinator_fn comb)
       = Raise ContainerError.
Proof.
  intros Hv He Ha Hc Hx Hsat.
  destruct (Container_rebind cls c es (es ++ [x]) Hc) as (c' & Hset & Hget).
  exists c'. split; [|split; [exact Hget|split]].
  - unfold Container_add. now rewrite Hc.
  - destruct (Container_rebind cls c' _
                (filter (satisfies comb filters) (es ++ [x])) Hget)
      as (c2 & Hset2 & _).
    unfold Container_filter_elements, Container__filter_elements.
    rewrite Hget. cbn [bind]. now rewrite filter_matches, Hset2.
  - unfold Container_get_matches, Container__filter_elements.
    rewrite Hget. cbn [bind]. rewrite Ha, filter_matches.
    unfold Container_init. rewrite Hv, Ha, He. cbn [bind].
    rewrite unexpected_kwargs_own, kwargs_get_own. cbn [iter_items].
    rewrite (check_elements_fail ele ContainerError _ x); auto.
    apply filter_In. split; [|exact Hsat].
    apply in_or_app. right. now left.
Qed.

End TypeChecks.

Lemma constructors_reject_foreign_element_witness :
  Container_init Farm.modules Zoo.DogContainer
    [("elements", ItList [Zoo.rex; Farm.tom; Zoo.fido])]
  = Raise ContainerError
  /\ Set_init Farm.modules Zoo.uuid4 Zoo.AnimalSet
       [("elements", ItList [Zoo.rex; Farm.tom; Zoo.fido])] 0%nat
     = (Raise SetError, 0%nat).
Proof.
  apply (constructors_reject_foreign_element Farm.modules Zoo.uuid4
           Zoo.DogContainer Zoo.AnimalSet Zoo.Dog Zoo.Dog
           "elements" "elements" (ItList [Zoo.rex; Farm.tom; Zoo.fido])
           Farm.tom 0%nat); try reflexivity.
  simpl. auto.
Defined.

Lemma Container_add_is_unchecked_witness :
  exists c',
    Container_add Zoo.DogContainer (Zoo.kennel [Zoo.rex]) Farm.tom = Ok c'
    /\ Container_elements Zoo.DogContainer c' = Ok [Zoo.rex; Farm.tom]
    /\ is_ok (Container_filter_elements Zoo.DogContainer c'
                [Farm.always] py_any) = true
    /\ Container_get_matches Farm.modules Zoo.DogContainer c'
         [Farm.always] py_any = Raise ContainerError.
Proof.
  apply (Container_add_is_unchecked Farm.modules Zoo.DogContainer Zoo.Dog
           "elements" (Zoo.kennel [Zoo.rex]) Farm.tom [Zoo.rex]
           [Farm.always] MatchAny); reflexivity.
Defined.

(* ================================================================== *)
(** ** Adding elements to a container *)

Lemma Container_elements_obj (cls : pyclass) (c : pyval) (es : list pyval) :
  Container_elements cls c = Ok es ->
  exists cn vars a,
    c = VObj cn vars /\ c_ELE_ATTR cls = Some a
    /\ assoc a vars = Some (VList es)
    /\ class_level a = false /\ own_names vars = true.
Proof.
  intros H. apply Container_elements_inv in H.
  destruct (getattr_ok_inv _ _ _ H)
    as (cn & vars & a & -> & Ha & Hn & Ho & Hv).
  now exists cn, vars, a.
Qed.

(** The elements of an instance after its element attribute has been
    set. *)
Lemma Container_elements_set (cls : pyclass) (cn a : string)
      (vars : list (string * pyval)) (l : list pyval) :
  c_ELE_ATTR cls = Some a ->
  class_level a = false -> own_names vars = true ->
  Container_elements cls (VObj cn (assoc_set a (VList l) vars)) = Ok l.
Proof.
  intros Hattr Hn Ho. unfold Container_elements. rewrite Hattr.
  rewrite getattr_obj; [|exact Hn|now apply own_names_set].
  now rewrite assoc_set_same.
Qed.

Lemma Container_add_each_obj (cls : pyclass) (cn a : string)
      (items : list pyval) :
  c_ELE_ATTR cls = Some a ->
  class_level a = false ->
  forall vars es,
    own_names vars = true ->
    assoc a vars = Some (VList es) ->
    Container_add_each cls (VObj cn vars) items
    = Ok (VObj cn (assoc_set a (VList (es ++ items)) vars)).
Proof.
  intros Hattr Hn. induction items as [|x r IH]; intros vars es Ho Ha;
    cbn [Container_add_each].
  - now rewrite app_nil_r, (assoc_set_id _ _ _ Ha).
  - unfold Container_add, Container_elements. rewrite Hattr.
    rewrite (getattr_obj cn vars a Hn Ho), Ha. cbn [bind as_list].
    rewrite (setattr_obj cls cn vars a _ Hn Ho). cbn [bind].
    rewrite (IH _ (es ++ [x]));
      [|now apply own_names_set|apply assoc_set_same].
    now rewrite assoc_set_twice, <- app_assoc.
Qed.

(** X3.  [add_iterable] gives the same container whether it extends the list
    in one step (a list argument) or adds the elements one by one (any
    other iterable); the new elements follow the old ones in order.
    [add_container] does the same with the elements of another
    container. *)
Theorem Container_add_iterable_is_repeated_add (cls ocls : pyclass)
        (c o : pyval) (es os : list pyval) (it : iterable) :
  Container_elements cls c = Ok es ->
  Container_elements ocls o = Ok os ->
  (exists c',
      Container_add_iterable cls c it = Ok c'
      /\ Container_add_each cls c (iter_items it) = Ok c'
      /\ Container_elements cls c' = Ok (es ++ iter_items it))
  /\ (exists c',
         Container_add_container cls c ocls o = Ok c'
         /\ Container_add_each cls c os = Ok c'
         /\ Container_elements cls c' = Ok (es ++ os)
         /\ Container_size cls c'
            = Ok (List.length es + List.length os)%nat).
Proof.
  intros Hc Ho.
  destruct (Container_elements_obj cls c es Hc)
    as (cn & vars & a & -> & Ha & Hv & Hn & Hown).
  assert (Hext : forall items,
             (l <- Container_elements cls (VObj cn vars) ;;
              setattr cls (VObj cn vars) (c_ELE_ATTR cls)
                (VList (l ++ items)))
             = Ok (VObj cn (assoc_set a (VList (es ++ items)) vars))).
  { intros items. rewrite Hc. cbn [bind]. rewrite Ha.
    now apply setattr_obj. }
  assert (Hel : forall items,
             Container_elements cls
               (VObj cn (assoc_set a (VList (es ++ items)) vars))
             = Ok (es ++ items)).
  { intros items. now apply Container_elements_set. }
  split.
  - exists (VObj cn (assoc_set a (VList (es ++ iter_items it)) vars)).
    split; [|split].
    + unfold Container_add_iterable. destruct (is_list it).
      * apply Hext.
      * now apply Container_add_each_obj.
    + now apply Container_add_each_obj.
    + apply Hel.
  - exists (VObj cn (assoc_set a (VList (es ++ os)) vars)).
    split; [|split; [|split]].
    + unfold Container_add_container. rewrite Hc, Ho. cbn [bind].
      rewrite Ha. now apply setattr_obj.
    + now apply Container_add_each_obj.
    + apply Hel.
    + unfold Container_size. rewrite Hel. cbn [bind].
      now rewrite length_app.
Qed.

Lemma Container_add_iterable_is_repeated_add_witness :
  (exists c',
      Container_add_iterable Zoo.DogContainer (Zoo.kennel [Zoo.rex])
        (ItTuple [Zoo.fido; Zoo.ghost]) = Ok c'
      /\ Container_add_each Zoo.DogContainer (Zoo.kennel [Zoo.rex])
           [Zoo.fido; Zoo.ghost] = Ok c'
      /\ Container_elements Zoo.DogContainer c'
         = Ok [Zoo.rex; Zoo.fido; Zoo.ghost])
  /\ (exists c',
         Container_add_container Zoo.DogContainer (Zoo.kennel [Zoo.rex])
           Zoo.DogContainer (Zoo.kennel [Zoo.fido]) = Ok c'
         /\ Container_add_each Zoo.DogContainer (Zoo.kennel [Zoo.rex])
              [Zoo.fido] = Ok c'
         /\ Container_elements Zoo.DogContainer c' = Ok [Zoo.rex; Zoo.fido]
         /\ Container_size Zoo.DogContainer c' = Ok 2%nat).
Proof.
  apply (Container_add_iterable_is_repeated_add Zoo.DogContainer
           Zoo.DogContainer (Zoo.kennel [Zoo.rex]) (Zoo.kennel [Zoo.fido])
           [Zoo.rex] [Zoo.fido] (ItTuple [Zoo.fido; Zoo.ghost]));
    reflexivity.
Defined.

(* ================================================================== *)
(** ** Deleting and keeping by index *)

Lemma kp_app {A : Type} (p : nat -> bool) (l1 l2 : list A) :
  forall s,
    keep_positions p s (l1 ++ l2)
    = keep_positions p s l1 ++ keep_positions p (s + List.length l1) l2.
Proof.
  induction l1 as [|x r IH]; intros s; simpl.
  - now rewrite Nat.add_0_r.
  - rewrite IH, Nat.add_succ_r. now destruct (p s).
Qed.

Lemma kp_ext {A : Type} (p q : nat -> bool) (l : list A) :
  forall s,
    (forall j, (s <= j < s + List.length l)%nat -> p j = q j) ->
    keep_positions p s l = keep_positions q s l.
Proof.
  induction l as [|x r IH]; intros s H; simpl; [reflexivity|].
  rewrite (H s) by (simpl; lia).
  rewrite (IH (S s)); [reflexivity|]. intros j Hj. apply H. simpl. lia.
Qed.

Lemma kp_all {A : Type} (p : nat -> bool) (l : list A) :
  forall s,
    (forall j, (s <= j < s + List.length l)%nat -> p j = true) ->
    keep_positions p s l = l.
Proof.
  induction l as [|x r IH]; intros s H; simpl; [reflexivity|].
  rewrite (H s) by (simpl; lia).
  rewrite (IH (S s)); [reflexivity|]. intros j Hj. apply H. simpl. lia.
Qed.

(** The elements kept and the elements dropped make up the list. *)
Lemma kp_partition {A : Type} (p : nat -> bool) (l : list A) :
  forall s,
    Permutation l (keep_positions p s l
                   ++ keep_positions (fun j => negb (p j)) s l).
Proof.
  induction l as [|x r IH]; intros s; simpl; [constructor|].
  destruct (p s); simpl.
  - now apply perm_skip.
  - apply Permutation_cons_app. apply IH.
Qed.

Lemma in_inds_cons (i : Z) (rest : list Z) (j : nat) :
  in_inds (i :: rest) j = Z.eqb (Z.of_nat j) i || in_inds rest j.
Proof. reflexivity. Qed.

Lemma in_inds_false (inds : list Z) (j : nat) :
  (forall b, In b inds -> b <> Z.of_nat j) -> in_inds inds j = false.
Proof.
  unfold in_inds. induction inds as [|b r IH]; simpl; intros H; [reflexivity|].
  rewrite IH by (intros c Hc; apply H; now right).
  specialize (H b (or_introl eq_refl)).
  destruct (Z.eqb_spec (Z.of_nat j) b); [congruence|reflexivity].
Qed.

Lemma in_inds_perm (inds inds' : list Z) (j : nat) :
  Permutation inds inds' -> in_inds inds j = in_inds inds' j.
Proof.
  intros H. unfold in_inds.
  destruct (existsb (Z.eqb (Z.of_nat j)) inds) eqn:E.
  - apply existsb_exists in E as [x [Hx Hj]]. symmetry.
    apply existsb_exists. exists x. split; [|exact Hj].
    now apply (Permutation_in _ H).
  - symmetry. apply Bool.not_true_is_false. intros E'.
    apply existsb_exists in E' as [x [Hx Hj]].
    assert (existsb (Z.eqb (Z.of_nat j)) inds = true); [|congruence].
    apply existsb_exists. exists x. split; [|exact Hj].
    apply (Permutation_in _ (Permutation_sym H)). exact Hx.
Qed.

Lemma split_at {A : Type} (n : nat) :
  forall l : list A,
    (n < List.length l)%nat ->
    exists x, l = firstn n l ++ x :: skipn (S n) l.
Proof.
  induction n as [|n IH]; intros [|y l] H; simpl in *; try lia.
  - now exists y.
  - destruct (IH l) as [x Hx]; [lia|]. exists x. now rewrite <- Hx.
Qed.

Lemma kp_delete {A : Type} (F T : list A) (x : A) (p q : nat -> bool) :
  (forall j, (j < List.length F)%nat -> p j = q j) ->
  (forall j, (List.length F <= j)%nat -> p j = true) ->
  q (List.length F) = false ->
  (forall j, (List.length F < j)%nat -> q j = true) ->
  keep_positions p 0 (F ++ T) = keep_positions q 0 (F ++ x :: T).
Proof.
  intros Hpq Hp Hq0 Hq. rewrite !kp_app. simpl. rewrite Hq0.
  rewrite (kp_ext p q F) by (intros j Hj; apply Hpq; lia).
  rewrite (kp_all p T) by (intros j Hj; apply Hp; lia).
  rewrite (kp_all q T) by (intros j Hj; apply Hq; lia).
  reflexivity.
Qed.

(** Deleting at indices given in strictly descending order removes
    the elements that stood at those indices. *)
Lemma del_each_desc (order : list Z) :
  StronglySorted (fun a b => (b < a)%Z) order ->
  forall l,
    Forall (fun i => (0 <= i < Z.of_nat (List.length l))%Z) order ->
    del_each l order
    = Some (keep_positions (fun j => negb (in_inds order j)) 0 l).
Proof.
  induction 1 as [|i rest Hs IH Hlt]; intros l Hr; simpl.
  - now rewrite kp_all.
  - inversion Hr as [|? ? Hi Hrest]; subst.
    unfold py_del.
    destruct (Z.ltb_spec i 0) as [Hneg|_]; [lia|].
    destruct (Z.leb_spec 0 i) as [_|Hneg]; [|lia].
    destruct (Z.ltb_spec i (Z.of_nat (List.length l))) as [_|Hbig]; [|lia].
    cbn [andb].
    assert (Hn : (Z.to_nat i < List.length l)%nat) by lia.
    destruct (split_at (Z.to_nat i) l Hn) as [x Hx].
    assert (HF : List.length (firstn (Z.to_nat i) l) = Z.to_nat i)
      by (apply firstn_length_le; lia).
    rewrite Forall_forall in Hlt.
    rewrite IH.
    + f_equal. rewrite Hx at 3.
      apply kp_delete; rewrite ?HF; intros.
      * rewrite ?in_inds_cons.
        destruct (Z.eqb_spec (Z.of_nat j) i); [lia|reflexivity].
      * rewrite in_inds_false; [reflexivity|].
        intros b Hb. specialize (Hlt b Hb). lia.
      * rewrite ?in_inds_cons.
        destruct (Z.eqb_spec (Z.of_nat (Z.to_nat i)) i); [reflexivity|lia].
      * rewrite ?in_inds_cons.
        destruct (Z.eqb_spec (Z.of_nat j) i); [lia|].
        rewrite in_inds_false; [reflexivity|].
        intros b Hb. specialize (Hlt b Hb). lia.
    + apply Forall_forall. intros b Hb. specialize (Hlt b Hb).
      rewrite Forall_forall in Hrest. specialize (Hrest b Hb).
      rewrite length_app, HF, length_skipn. lia.
Qed.

Lemma map_result_pairs (inds : list Z) :
  map_result (fun x : Z => k <- Ok x ;; Ok (k, x)) inds
  = Ok (map (fun i => (i, i)) inds).
Proof.
  induction inds as [|i r IH]; [reflexivity|].
  cbn [map_result map]. now rewrite IH.
Qed.

(** [sorted(inds, reverse=True)] is the indices in descending order. *)
Lemma sorted_ints_desc (inds : list Z) :
  exists order,
    sorted_ints true inds = Ok order
    /\ Permutation inds order
    /\ StronglySorted (fun a b => (b <= a)%Z) order.
Proof.
  unfold sorted_ints, py_sorted. rewrite map_result_pairs. cbn [bind].
  set (keyed := map (fun i : Z => (i, i)) inds).
  destruct (stable_sort_correct (fun a b => Ok (Z.ltb a b))
              (fun p : Z * Z => fst p = snd p)) with (l := rev keyed)
    as (s & Hs & Hperm & Hsorted & _).
  - intros a b _ _. now eexists.
  - intros a b _ _ [= H]. f_equal. apply Z.ltb_lt in H. apply Z.ltb_ge. lia.
  - intros a b c _ _ _. unfold keys_ordered. intros [= H1] [= H2]. f_equal.
    apply Z.ltb_ge in H1, H2. apply Z.ltb_ge. lia.
  - apply Forall_rev. subst keyed. apply Forall_forall. intros p Hp.
    apply in_map_iff in Hp as [i [<- _]]. reflexivity.
  - rewrite Hs. cbn [bind]. eexists. split; [reflexivity|]. split.
    + assert (Hk : map snd keyed = inds).
      { subst keyed. rewrite map_map. simpl. apply map_id. }
      rewrite <- Hk at 1. apply Permutation_map.
      rewrite <- Permutation_rev. rewrite <- Hperm. apply Permutation_rev.
    + assert (Hpairs : Forall (fun p : Z * Z => fst p = snd p) (rev s)).
      { apply Forall_rev. apply (Permutation_Forall Hperm).
        apply Forall_rev. subst keyed. apply Forall_forall. intros p Hp.
        apply in_map_iff in Hp as [i [<- _]]. reflexivity. }
      rewrite Forall_forall in Hpairs.
      apply (StronglySorted_map_in
               (fun x y => keys_ordered (fun a b => Ok (Z.ltb a b)) y x)).
      * now apply StronglySorted_rev.
      * intros a b Ha Hb. unfold keys_ordered. intros [= H].
        apply Z.ltb_ge in H.
        rewrite <- (Hpairs a Ha), <- (Hpairs b Hb). exact H.
Qed.

Lemma desc_strict (order : list Z) :
  StronglySorted (fun a b => (b <= a)%Z) order -> NoDup order ->
  StronglySorted (fun a b => (b < a)%Z) order.
Proof.
  induction 1 as [|i rest Hs IH Hle]; intros Hnd; [constructor|].
  inversion Hnd as [|? ? Hni Hrest]; subst. constructor; [now apply IH|].
  rewrite Forall_forall in *. intros b Hb. specialize (Hle b Hb).
  assert (b <> i) by (intros ->; contradiction). lia.
Qed.

(** X4.  [delete_inds] with distinct indices, each from 0 to the size less
    one and given in any order, removes the elements at those positions
    and leaves the others in their order: what it leaves and what
    [keep_inds] keeps for the same indices make up the container. *)
Theorem Container_delete_inds_removes_positions (cls : pyclass) (c : pyval)
        (es : list pyval) (inds : list Z) :
  Container_elements cls c = Ok es ->
  NoDup inds ->
  Forall (fun i => (0 <= i < Z.of_nat (List.length es))%Z) inds ->
  exists c' k,
    Container_delete_inds cls c inds = Done c'
    /\ Container_elements cls c'
       = Ok (keep_positions (fun j => negb (in_inds inds j)) 0 es)
    /\ Container_keep_inds cls c inds = Ok k
    /\ Container_elements cls k = Ok (keep_positions (in_inds inds) 0 es)
    /\ Permutation es (keep_positions (in_inds inds) 0 es
                       ++ keep_positions (fun j => negb (in_inds inds j)) 0 es).
Proof.
  intros Hc Hnd Hr.
  destruct (sorted_ints_desc inds) as (order & Ho & Hperm & Hsorted).
  assert (Hstrict : StronglySorted (fun a b => (b < a)%Z) order).
  { apply desc_strict; [exact Hsorted|].
    exact (Permutation_NoDup Hperm Hnd). }
  assert (Hro : Forall (fun i => (0 <= i < Z.of_nat (List.length es))%Z) order)
    by exact (Permutation_Forall Hperm Hr).
  destruct (Container_rebind cls c es
              (keep_positions (fun j => negb (in_inds inds j)) 0 es) Hc)
    as (c' & Hset & Hget).
  destruct (Container_rebind cls c es
              (keep_positions (in_inds inds) 0 es) Hc) as (k & Hsetk & Hgetk).
  exists c', k. split; [|split; [exact Hget|split; [|split]]].
  - unfold Container_delete_inds. rewrite Ho. cbn [with_result].
    rewrite Hc. cbn [with_result].
    rewrite (del_each_desc order Hstrict es Hro).
    rewrite (kp_ext _ (fun j => negb (in_inds inds j)))
      by (intros j _; f_equal; symmetry; now apply in_inds_perm).
    now rewrite Hset.
  - unfold Container_keep_inds. now rewrite Hc.
  - exact Hgetk.
  - apply kp_partition.
Qed.

(** X5.  An index equal to the size or larger makes [delete_inds] raise
    [IndexError], wherever it stands among the indices. *)
Theorem Container_delete_inds_index_error (cls : pyclass) (c : pyval)
        (es : list pyval) (inds : list Z) (i : Z) :
  Container_elements cls c = Ok es ->
  In i inds ->
  (Z.of_nat (List.length es) <= i)%Z ->
  Container_delete_inds cls c inds = IndexError.
Proof.
  intros Hc Hin Hbig.
  destruct (sorted_ints_desc inds) as (order & Ho & Hperm & Hsorted).
  unfold Container_delete_inds. rewrite Ho. cbn [with_result].
  rewrite Hc. cbn [with_result].
  assert (Hio : In i order) by exact (Permutation_in _ Hperm Hin).
  destruct order as [|m rest]; [contradiction|].
  assert (Hm : (i <= m)%Z).
  { inversion Hsorted as [|? ? _ Hle]; subst.
    destruct Hio as [->|Hio]; [lia|].
    rewrite Forall_forall in Hle. now apply Hle. }
  simpl. unfold py_del.
  destruct (Z.ltb_spec m 0) as [Hneg|_]; [lia|].
  destruct (Z.ltb_spec m (Z.of_nat (List.length es))) as [Hlt|_]; [lia|].
  now rewrite Bool.andb_false_r.
Qed.

(** X6.  [keep_inds] never raises on a container, and what it keeps depends
    only on which positions below the size occur among the indices:
    their order, repetitions, negative indices and indices beyond the
    end change nothing.  [extract_inds] returns the same container and
    leaves the original as it is. *)
Theorem Container_keep_inds_tolerant (cls : pyclass) (c : pyval)
        (es : list pyval) (inds inds' : list Z) :
  Container_elements cls c = Ok es ->
  (forall j, (j < List.length es)%nat -> in_inds inds j = in_inds inds' j) ->
  exists k,
    Container_keep_inds cls c inds = Ok k
    /\ Container_keep_inds cls c inds' = Ok k
    /\ Container_extract_inds cls c inds = Ok k
    /\ Container_elements cls k = Ok (keep_positions (in_inds inds) 0 es)
    /\ Container_elements cls c = Ok es.
Proof.
  intros Hc Hsame.
  destruct (Container_rebind cls c es
              (keep_positions (in_inds inds) 0 es) Hc) as (k & Hset & Hget).
  exists k.
  assert (Hk : Container_keep_inds cls c inds = Ok k).
  { unfold Container_keep_inds. now rewrite Hc. }
  repeat split; try assumption.
  unfold Container_keep_inds. rewrite Hc. cbn [bind].
  rewrite <- (kp_ext (in_inds inds) (in_inds inds'))
    by (intros j Hj; apply Hsame; lia).
  exact Hset.
Qed.

Lemma Container_delete_inds_removes_positions_witness :
  exists c' k,
    Container_delete_inds Zoo.DogContainer
      (Zoo.kennel [Zoo.rex; Zoo.fido; Zoo.ghost]) [0%Z; 2%Z] = Done c'
    /\ Container_elements Zoo.DogContainer c' = Ok [Zoo.fido]
    /\ Container_keep_inds Zoo.DogContainer
         (Zoo.kennel [Zoo.rex; Zoo.fido; Zoo.ghost]) [0%Z; 2%Z] = Ok k
    /\ Container_elements Zoo.DogContainer k = Ok [Zoo.rex; Zoo.ghost]
    /\ Permutation [Zoo.rex; Zoo.fido; Zoo.ghost]
         ([Zoo.rex; Zoo.ghost] ++ [Zoo.fido]).
Proof.
  apply (Container_delete_inds_removes_positions Zoo.DogContainer
           (Zoo.kennel [Zoo.rex; Zoo.fido; Zoo.ghost])
           [Zoo.rex; Zoo.fido; Zoo.ghost] [0%Z; 2%Z]).
  - reflexivity.
  - repeat constructor; simpl; intuition discriminate.
  - repeat constructor; simpl; lia.
Defined.

Lemma Container_delete_inds_index_error_witness :
  Container_delete_inds Zoo.DogContainer
    (Zoo.kennel [Zoo.rex; Zoo.fido]) [0%Z; 2%Z; 1%Z] = IndexError.
Proof.
  apply (Container_delete_inds_index_error Zoo.DogContainer
           (Zoo.kennel [Zoo.rex; Zoo.fido]) [Zoo.rex; Zoo.fido]
           [0%Z; 2%Z; 1%Z] 2%Z).
  - reflexivity.
  - simpl. auto.
  - simpl. lia.
Defined.

Lemma Container_keep_inds_tolerant_witness :
  exists k,
    Container_keep_inds Zoo.DogContainer
      (Zoo.kennel [Zoo.rex; Zoo.fido; Zoo.ghost]) [2%Z; 0%Z] = Ok k
    /\ Container_keep_inds Zoo.DogContainer
         (Zoo.kennel [Zoo.rex; Zoo.fido; Zoo.ghost])
         [0%Z; 7%Z; (-1)%Z; 2%Z; 0%Z] = Ok k
    /\ Container_extract_inds Zoo.DogContainer
         (Zoo.kennel [Zoo.rex; Zoo.fido; Zoo.ghost]) [2%Z; 0%Z] = Ok k
    /\ Container_elements Zoo.DogContainer k = Ok [Zoo.rex; Zoo.ghost]
    /\ Container_elements Zoo.DogContainer
         (Zoo.kennel [Zoo.rex; Zoo.fido; Zoo.ghost])
       = Ok [Zoo.rex; Zoo.fido; Zoo.ghost].
Proof.
  apply (Container_keep_inds_tolerant Zoo.DogContainer
           (Zoo.kennel [Zoo.rex; Zoo.fido; Zoo.ghost])
           [Zoo.rex; Zoo.fido; Zoo.ghost]
           [2%Z; 0%Z] [0%Z; 7%Z; (-1)%Z; 2%Z; 0%Z]).
  - reflexivity.
  - intros [|[|[|j]]] Hj; simpl in Hj; try lia; reflexivity.
Defined.

(** A repeated index makes [delete_inds] delete the next element too:
    the second deletion at index 0 removes what stood at index 1. *)
Example Container_delete_inds_repeated_index :
  Container_delete_inds Zoo.DogContainer
    (Zoo.kennel [Zoo.rex; Zoo.fido; Zoo.ghost]) [0%Z; 0%Z]
  = Done (Zoo.kennel [Zoo.ghost]).
Proof. reflexivity. Qed.

(* ================================================================== *)
(** ** Filtering: no filters, and filters in sequence *)

Lemma filter_filter {A : Type} (p q : A -> bool) (l : list A) :
  filter q (filter p l) = filter (fun x => p x && q x) l.
Proof.
  induction l as [|x r IH]; simpl; [reflexivity|].
  destruct (p x); simpl; [|exact IH].
  destruct (q x); now rewrite IH.
Qed.

Lemma filter_true {A : Type} (l : list A) : filter (fun _ => true) l = l.
Proof. induction l as [|x r IH]; simpl; congruence. Qed.

(** X7.  With an empty list of filters, [filter_elements] under [any]
    removes every element and under [all] keeps every element, in a
    container and in a set. *)
Theorem filter_elements_without_filters (ccls scls : pyclass) (c s : pyval)
        (es : list pyval) (d : odict pyval) :
  Container_elements ccls c = Ok es ->
  Set_elements scls s = Ok d ->
  NoDup (od_keys d) ->
  (exists c', Container_filter_elements ccls c [] py_any = Ok c'
              /\ Container_elements ccls c' = Ok [])
  /\ (exists c', Container_filter_elements ccls c [] py_all = Ok c'
                 /\ Container_elements ccls c' = Ok es)
  /\ (exists s', Set_filter_elements scls s [] py_any = Ok s'
                 /\ Set_elements scls s' = Ok [])
  /\ (exists s', Set_filter_elements scls s [] py_all = Ok s'
                 /\ Set_elements scls s' = Ok d).
Proof.
  intros Hc Hs Hnd.
  unfold Container_filter_elements, Container__filter_elements,
    Set_filter_elements, Set__filter_elements.
  rewrite Hc, Hs. cbn [bind].
  unfold matches, py_any, py_all. cbn [map existsb forallb].
  rewrite (filter_none (fun _ : pyval => false)) by reflexivity.
  rewrite (filter_none (fun _ : pykey * pyval => false)) by reflexivity.
  rewrite !filter_true. rewrite (od_of_list_nodup d Hnd).
  change (od_of_list (@nil (pykey * pyval))) with (@nil (pykey * pyval)).
  destruct (Container_rebind ccls c es [] Hc) as (c1 & H1 & G1).
  destruct (Container_rebind ccls c es es Hc) as (c2 & H2 & G2).
  destruct (Set_rebind scls s d [] Hs) as (s1 & H3 & G3).
  destruct (Set_rebind scls s d d Hs) as (s2 & H4 & G4).
  repeat split; eauto.
Qed.

(** X8.  Two [filter_elements] calls under [all], one after the other, leave
    the container that one call with both lists of filters leaves. *)
Theorem Container_filter_elements_all_compose (cls : pyclass) (c : pyval)
        (es : list pyval) (fs1 fs2 : list (pyval -> bool)) :
  Container_elements cls c = Ok es ->
  exists c1 c2,
    Container_filter_elements cls c fs1 py_all = Ok c1
    /\ Container_filter_elements cls c1 fs2 py_all = Ok c2
    /\ Container_filter_elements cls c (fs1 ++ fs2) py_all = Ok c2
    /\ Container_elements cls c2
       = Ok (filter (fun e => forallb (fun f => f e) (fs1 ++ fs2)) es).
Proof.
  intros Hc.
  destruct (Container_elements_obj cls c es Hc)
    as (cn & vars & a & -> & Ha & Hv & Hn & Hown).
  assert (Hstep : forall vars' l fs,
             own_names vars' = true ->
             assoc a vars' = Some (VList l) ->
             Container_filter_elements cls (VObj cn vars') fs py_all
             = Ok (VObj cn (assoc_set a
                              (VList (filter (satisfies MatchAll fs) l))
                              vars'))).
  { intros vars' l fs Ho Hl.
    unfold Container_filter_elements, Container__filter_elements,
      Container_elements.
    rewrite Ha, (getattr_obj cn vars' a Hn Ho), Hl. cbn [bind as_list].
    rewrite (filter_matches MatchAll). now apply setattr_obj. }
  eexists. eexists. split; [apply (Hstep vars es fs1 Hown Hv)|].
  split; [apply Hstep; [now apply own_names_set|apply assoc_set_same]|].
  assert (Heq : filter (satisfies MatchAll fs2)
                  (filter (satisfies MatchAll fs1) es)
                = filter (satisfies MatchAll (fs1 ++ fs2)) es).
  { rewrite filter_filter. apply filter_ext. intros e. simpl.
    now rewrite forallb_app. }
  split.
  - rewrite (Hstep vars es (fs1 ++ fs2) Hown Hv).
    now rewrite assoc_set_twice, Heq.
  - rewrite assoc_set_twice, Heq. now apply Container_elements_set.
Qed.

Lemma filter_elements_without_filters_witness :
  (exists c', Container_filter_elements Zoo.DogContainer
                (Zoo.kennel [Zoo.rex; Zoo.fido]) [] py_any = Ok c'
              /\ Container_elements Zoo.DogContainer c' = Ok [])
  /\ (exists c', Container_filter_elements Zoo.DogContainer
                   (Zoo.kennel [Zoo.rex; Zoo.fido]) [] py_all = Ok c'
                 /\ Container_elements Zoo.DogContainer c'
                    = Ok [Zoo.rex; Zoo.fido])
  /\ (exists s', Set_filter_elements Zoo.AnimalSet
                   (Zoo.pack [(KStr "rex", Zoo.rex)]) [] py_any = Ok s'
                 /\ Set_elements Zoo.AnimalSet s' = Ok [])
  /\ (exists s', Set_filter_elements Zoo.AnimalSet
                   (Zoo.pack [(KStr "rex", Zoo.rex)]) [] py_all = Ok s'
                 /\ Set_elements Zoo.AnimalSet s'
                    = Ok [(KStr "rex", Zoo.rex)]).
Proof.
  apply (filter_elements_without_filters Zoo.DogContainer Zoo.AnimalSet
           (Zoo.kennel [Zoo.rex; Zoo.fido])
           (Zoo.pack [(KStr "rex", Zoo.rex)])
           [Zoo.rex; Zoo.fido] [(KStr "rex", Zoo.rex)]);
    try reflexivity.
  repeat constructor. simpl. tauto.
Defined.

Lemma Container_filter_elements_all_compose_witness :
  exists c1 c2,
    Container_filter_elements Zoo.DogContainer
      (Zoo.kennel [Zoo.rex; Zoo.fido; Zoo.dog (VStr "rex") (VInt 1)])
      [Zoo.is_rex] py_all = Ok c1
    /\ Container_filter_elements Zoo.DogContainer c1 [Zoo.is_pup] py_all
       = Ok c2
    /\ Container_filter_elements Zoo.DogContainer
         (Zoo.kennel [Zoo.rex; Zoo.fido; Zoo.dog (VStr "rex") (VInt 1)])
         [Zoo.is_rex; Zoo.is_pup] py_all = Ok c2
    /\ Container_elements Zoo.DogContainer c2
       = Ok [Zoo.dog (VStr "rex") (VInt 1)].
Proof.
  apply (Container_filter_elements_all_compose Zoo.DogContainer
           (Zoo.kennel [Zoo.rex; Zoo.fido; Zoo.dog (VStr "rex") (VInt 1)])
           [Zoo.rex; Zoo.fido; Zoo.dog (VStr "rex") (VInt 1)]
           [Zoo.is_rex] [Zoo.is_pup]).
  reflexivity.
Defined.

(* ================================================================== *)
(** ** Looking elements up in a set *)

Lemma od_get_set_same {V : Type} (k : pykey) (v : V) (d : odict V) :
  od_get k (od_set k v d) = Some v.
Proof.
  induction d as [|[k0 v0] r IH]; simpl.
  - now rewrite key_eqb_refl.
  - destruct (key_eqb k0 k) eqn:E; simpl; rewrite E; [reflexivity|exact IH].
Qed.

Lemma od_get_set_other {V : Type} (k k' : pykey) (v : V) (d : odict V) :
  k' <> k -> od_get k (od_set k' v d) = od_get k d.
Proof.
  intros Hne. induction d as [|[k0 v0] r IH]; simpl.
  - now rewrite key_eqb_neq.
  - destruct (key_eqb_spec k0 k') as [->|Hk0]; simpl.
    + now rewrite (key_eqb_neq k' k Hne).
    + destruct (key_eqb k0 k); [reflexivity|exact IH].
Qed.

Lemma od_mem_in {V : Type} (k : pykey) (d : odict V) :
  od_mem k d = true <-> In k (od_keys d).
Proof.
  unfold od_mem. split.
  - intros H. destruct (in_dec (fun a b => reflect_dec _ _ (key_eqb_spec a b))
                          k (od_keys d)) as [Hin|Hn]; [exact Hin|].
    now rewrite (od_get_not_in k d Hn) in H.
  - intros Hin. destruct (od_get_in k d Hin) as [v ->]. reflexivity.
Qed.

Lemma od_mem_false {V : Type} (k : pykey) (d : odict V) :
  od_mem k d = false <-> ~ In k (od_keys d).
Proof.
  rewrite <- od_mem_in. destruct (od_mem k d); split; congruence.
Qed.

Lemma od_set_length {V : Type} (k : pykey) (v : V) (d : odict V) :
  List.length (od_set k v d)
  = (List.length d + if od_mem k d then 0 else 1)%nat.
Proof.
  unfold od_mem. induction d as [|[k0 v0] r IH]; simpl; [reflexivity|].
  destruct (key_eqb k0 k); simpl; [lia|]. rewrite IH. reflexivity.
Qed.

Lemma od_keys_set {V : Type} (k : pykey) (v : V) (d : odict V) :
  od_keys (od_set k v d)
  = if od_mem k d then od_keys d else od_keys d ++ [k].
Proof.
  unfold od_mem, od_keys. induction d as [|[k0 v0] r IH]; simpl; [reflexivity|].
  destruct (key_eqb k0 k); simpl; [reflexivity|]. rewrite IH.
  now destruct (od_get k r).
Qed.

Lemma od_mem_set {V : Type} (q k : pykey) (v : V) (d : odict V) :
  od_mem q (od_set k v d) = key_eqb k q || od_mem q d.
Proof.
  destruct (key_eqb_spec k q) as [->|Hne]; simpl.
  - unfold od_mem. now rewrite od_get_set_same.
  - now apply od_mem_set_other.
Qed.

(** Filtering on the key leaves the other lookups as they were. *)
Lemma od_get_filter {V : Type} (f : pykey -> bool) (k : pykey) (d : odict V) :
  od_get k (filter (fun kv => f (fst kv)) d)
  = if f k then od_get k d else None.
Proof.
  induction d as [|[k0 v0] r IH]; simpl; [now destruct (f k)|].
  destruct (key_eqb_spec k0 k) as [->|Hne].
  - destruct (f k) eqn:E; simpl; [now rewrite key_eqb_refl|].
    rewrite IH; try rewrite E; reflexivity.
  - destruct (f k0); simpl; [rewrite (key_eqb_neq _ _ Hne)|]; exact IH.
Qed.

(** [d.update(other)]: the entries of [other] win, the rest is looked
    up in [d]. *)
Lemma od_get_update {V : Type} (k : pykey) (other : odict V) :
  NoDup (od_keys other) ->
  forall d : odict V,
    od_get k (od_update d other)
    = match od_get k other with
      | Some v => Some v
      | None => od_get k d
      end.
Proof.
  unfold od_update.
  induction other as [|[k0 v0] r IH]; intros Hnd d; [reflexivity|].
  inversion Hnd as [|? ? Hn Hr]; subst. simpl.
  rewrite (IH Hr). destruct (key_eqb_spec k0 k) as [->|Hne].
  - rewrite (od_get_not_in k r Hn). apply od_get_set_same.
  - now rewrite (od_get_set_other k k0 v0 d Hne).
Qed.

(** The keys of [d] keep their positions under [d.update(other)]; the
    new keys of [other] follow in the order of [other]. *)
Lemma od_keys_update {V : Type} (other : odict V) :
  NoDup (od_keys other) ->
  forall d : odict V,
    od_keys (od_update d other)
    = od_keys d ++ filter (fun k => negb (od_mem k d)) (od_keys other).
Proof.
  unfold od_update.
  induction other as [|[k0 v0] r IH]; intros Hnd d; simpl.
  - now rewrite app_nil_r.
  - inversion Hnd as [|? ? Hn Hr]; subst.
    rewrite (IH Hr), od_keys_set.
    assert (Hf : filter (fun k => negb (od_mem k (od_set k0 v0 d))) (od_keys r)
                 = filter (fun k => negb (od_mem k d)) (od_keys r)).
    { apply filter_ext_in. intros q Hq. rewrite od_mem_set.
      rewrite key_eqb_neq; [reflexivity|]. intros ->. now apply Hn. }
    rewrite Hf. destruct (od_mem k0 d); simpl; [reflexivity|].
    now rewrite <- app_assoc.
Qed.

Section SetLookup.
Variable uuid4 : nat -> string.

Lemma Set_getitem_eq (cls : pyclass) (self key : pyval) (hk : pykey)
      (d : odict pyval) :
  Set_elements cls self = Ok d -> to_key key = Ok hk ->
  Set_getitem cls self key
  = match od_get hk d with Some e => Ok e | None => Raise KeyError end.
Proof. intros Hd Hk. unfold Set_getitem. now rewrite Hd, Hk. Qed.

Lemma Set_contains_eq (cls : pyclass) (self key : pyval) (hk : pykey)
      (d : odict pyval) :
  Set_elements cls self = Ok d -> to_key key = Ok hk ->
  Set_contains cls self key = Ok (od_mem hk d).
Proof. intros Hd Hk. unfold Set_contains. now rewrite Hd, Hk. Qed.

(** X9.  After [add(e)] of an element whose key [k] is true in a boolean
    context and hashable, [s[k]] is [e] and [k in s] holds, the lookup
    of every other key is what it was, and the size has grown by one
    if [k] was not in the set and is unchanged if it was. *)
Theorem Set_add_then_lookup (cls : pyclass) (self e k : pyval) (hk : pykey)
        (d : odict pyval) (w : world) :
  Set_elements cls self = Ok d ->
  Set_get_key cls e = Ok k -> truthy k = Ok true -> to_key k = Ok hk ->
  exists self',
    Set_add uuid4 cls self e w = (Ok self', w)
    /\ Set_getitem cls self' k = Ok e
    /\ Set_contains cls self' k = Ok true
    /\ (forall k2 hk2, to_key k2 = Ok hk2 -> hk2 <> hk ->
        Set_getitem cls self' k2 = Set_getitem cls self k2
        /\ Set_contains cls self' k2 = Set_contains cls self k2)
    /\ Set_size cls self'
       = Ok (List.length d + if od_mem hk d then 0 else 1)%nat.
Proof.
  intros Hd Hk Ht Hh.
  destruct (Set_add_keyed uuid4 cls self e k hk d w Hd Hk Ht Hh)
    as [self' [Ha Hd']].
  exists self'. split; [exact Ha|].
  rewrite (Set_getitem_eq cls self' k hk _ Hd' Hh).
  rewrite (Set_contains_eq cls self' k hk _ Hd' Hh).
  unfold od_mem at 1. rewrite od_get_set_same.
  repeat split.
  - rewrite (Set_getitem_eq cls self' k2 hk2 _ Hd' H).
    rewrite (Set_getitem_eq cls self k2 hk2 _ Hd H).
    rewrite od_get_set_other; [reflexivity|congruence].
  - rewrite (Set_contains_eq cls self' k2 hk2 _ Hd' H).
    rewrite (Set_contains_eq cls self k2 hk2 _ Hd H).
    rewrite od_mem_set_other; [reflexivity|congruence].
  - unfold Set_size. rewrite Hd'. cbn [bind]. now rewrite od_set_length.
Qed.

Lemma Set_delitem_present (cls : pyclass) (self key : pyval) (hk : pykey)
      (d : odict pyval) :
  Set_elements cls self = Ok d -> to_key key = Ok hk ->
  od_mem hk d = true ->
  exists self', Set_delitem cls self key = Ok self'
                /\ Set_elements cls self' = Ok (od_del hk d).
Proof.
  intros Hd Hk Hm.
  destruct (Set_rebind cls self d (od_del hk d) Hd) as [self' [Hs Hg]].
  exists self'. split; [|exact Hg].
  unfold Set_delitem. rewrite Hd, Hk. cbn [bind]. now rewrite Hm.
Qed.

Lemma od_keys_del {V : Type} (k q : pykey) (d : odict V) :
  In q (od_keys (od_del k d)) <-> In q (od_keys d) /\ q <> k.
Proof.
  unfold od_keys, od_del. rewrite !in_map_iff. split.
  - intros [[k0 v0] [<- Hin]]. apply filter_In in Hin as [Hin Hp].
    simpl in *. split; [exists (k0, v0); now split|].
    intros ->. now rewrite key_eqb_refl in Hp.
  - intros [[[k0 v0] [<- Hin]] Hne]. exists (k0, v0). split; [reflexivity|].
    apply filter_In. split; [exact Hin|]. simpl in *.
    now rewrite key_eqb_neq.
Qed.

(** X10.  [delete_keys] with hashable keys that are distinct and all in the
    set removes the elements under these keys and leaves the others in
    their order. *)
Theorem Set_delete_keys_removes (cls : pyclass) (keys : list pyval) :
  forall (self : pyval) (d : odict pyval) (hks : list pykey),
    Set_elements cls self = Ok d ->
    map_result to_key keys = Ok hks ->
    NoDup hks ->
    incl hks (od_keys d) ->
    exists self',
      Set_delete_keys cls self keys = Ok self'
      /\ Set_elements cls self'
         = Ok (filter (fun kv => negb (existsb (key_eqb (fst kv)) hks)) d).
Proof.
  induction keys as [|key rest IH]; intros self d hks Hd Hks Hnd Hincl.
  - injection Hks as <-. exists self. split; [reflexivity|].
    rewrite Hd. f_equal. symmetry. apply filter_true.
  - cbn [map_result] in Hks.
    destruct (to_key key) as [hk|] eqn:Hk; [|discriminate].
    destruct (map_result to_key rest) as [hks'|] eqn:Hr; [|discriminate].
    cbn [bind] in Hks. injection Hks as <-.
    inversion Hnd as [|? ? Hn Hnd']; subst.
    assert (Hm : od_mem hk d = true).
    { apply od_mem_in. apply Hincl. now left. }
    destruct (Set_delitem_present cls self key hk d Hd Hk Hm)
      as [s1 [H1 E1]].
    destruct (IH s1 _ hks' E1 eq_refl Hnd') as [s2 [H2 E2]].
    { intros q Hq. apply od_keys_del. split; [apply Hincl; now right|].
      intros ->. now apply Hn. }
    exists s2. cbn [Set_delete_keys]. rewrite H1. cbn [bind].
    split; [exact H2|]. rewrite E2. f_equal. unfold od_del.
    rewrite filter_filter. apply filter_ext. intros [k0 v0]. simpl.
    now rewrite negb_orb.
Qed.

(** X11.  [delete_keys] with hashable keys of which one is not in the set, or
    is given twice, raises [KeyError]. *)
Theorem Set_delete_keys_key_error (cls : pyclass) (keys : list pyval) :
  forall (self : pyval) (d : odict pyval) (hks : list pykey),
    Set_elements cls self = Ok d ->
    map_result to_key keys = Ok hks ->
    ~ (NoDup hks /\ incl hks (od_keys d)) ->
    Set_delete_keys cls self keys = Raise KeyError.
Proof.
  induction keys as [|key rest IH]; intros self d hks Hd Hks Hbad.
  - injection Hks as <-. exfalso. apply Hbad. split; [constructor|].
    intros q [].
  - cbn [map_result] in Hks.
    destruct (to_key key) as [hk|] eqn:Hk; [|discriminate].
    destruct (map_result to_key rest) as [hks'|] eqn:Hr; [|discriminate].
    cbn [bind] in Hks. injection Hks as <-.
    cbn [Set_delete_keys].
    destruct (od_mem hk d) eqn:Hm.
    + destruct (Set_delitem_present cls self key hk d Hd Hk Hm)
        as [s1 [H1 E1]].
      rewrite H1. cbn [bind]. apply (IH s1 _ hks' E1 eq_refl).
      intros [Hnd Hincl]. apply Hbad. split.
      * constructor; [|exact Hnd]. intros Hin.
        apply Hincl in Hin. apply od_keys_del in Hin. now destruct Hin.
      * intros q [<-|Hq]; [now apply od_mem_in|].
        apply Hincl in Hq. apply od_keys_del in Hq. now destruct Hq.
    + unfold Set_delitem. rewrite Hd, Hk. cbn [bind]. now rewrite Hm.
Qed.

(** X12.  [keep_keys] keeps the elements whose key is among the hashable keys
    given, in the order of the set; a key that is not in the set is
    ignored.  A lookup in the result finds what it found before under a
    key that was given, and nothing under another. *)
Theorem Set_keep_keys_tolerant (cls : pyclass) (self : pyval)
        (keys : list pyval) (d : odict pyval) (hks : list pykey) :
  Set_elements cls self = Ok d ->
  NoDup (od_keys d) ->
  map_result to_key keys = Ok hks ->
  exists self',
    Set_keep_keys cls self keys = Ok self'
    /\ Set_extract_keys cls self keys = Ok self'
    /\ Set_elements cls self'
       = Ok (filter (fun kv => existsb (key_eqb (fst kv)) hks) d)
    /\ forall k hk, to_key k = Ok hk ->
         Set_getitem cls self' k
         = if existsb (fun q => key_eqb q hk) hks
           then Set_getitem cls self k else Raise KeyError.
Proof.
  intros Hd Hnd Hks.
  set (d' := filter (fun kv => existsb (key_eqb (fst kv)) hks) d).
  destruct (Set_rebind cls self d d' Hd) as [self' [Hs Hg]].
  assert (Hkeep : Set_keep_keys cls self keys = Ok self').
  { unfold Set_keep_keys. rewrite Hks, Hd. cbn [bind].
    rewrite od_of_list_nodup; [exact Hs|].
    now apply od_keys_filter_nodup. }
  exists self'. repeat split; try assumption.
  intros k hk Hk.
  rewrite (Set_getitem_eq cls self' k hk _ Hg Hk).
  rewrite (Set_getitem_eq cls self k hk _ Hd Hk).
  unfold d'.
  rewrite (od_get_filter (fun q => existsb (key_eqb q) hks) hk d).
  assert (He : existsb (key_eqb hk) hks
               = existsb (fun q => key_eqb q hk) hks).
  { clear. induction hks as [|q r IH]; simpl; [reflexivity|].
    rewrite IH. f_equal.
    destruct (key_eqb_spec hk q) as [->|Hne];
      [now rewrite key_eqb_refl | now rewrite key_eqb_neq by congruence]. }
  rewrite He. now destruct (existsb (fun q => key_eqb q hk) hks).
Qed.

(** X13.  [add_set]: afterwards a key of the other set finds the element of
    the other set, any other key what it found before; the keys of
    this set keep their positions and the new keys follow in the order
    of the other set. *)
Theorem Set_add_set_lookup (cls scls : pyclass) (self other : pyval)
        (d o : odict pyval) :
  Set_elements cls self = Ok d ->
  Set_elements scls other = Ok o ->
  NoDup (od_keys o) ->
  exists self' d',
    Set_add_set cls self scls other = Ok self'
    /\ Set_elements cls self' = Ok d'
    /\ od_keys d'
       = od_keys d ++ filter (fun k => negb (od_mem k d)) (od_keys o)
    /\ forall k hk, to_key k = Ok hk ->
         Set_getitem cls self' k
         = if od_mem hk o then Set_getitem scls other k
           else Set_getitem cls self k.
Proof.
  intros Hd Ho Hnd.
  destruct (Set_rebind cls self d (od_update d o) Hd) as [self' [Hs Hg]].
  exists self', (od_update d o).
  split; [unfold Set_add_set; now rewrite Hd, Ho|].
  split; [exact Hg|]. split; [now apply od_keys_update|].
  intros k hk Hk.
  rewrite (Set_getitem_eq cls self' k hk _ Hg Hk).
  rewrite (Set_getitem_eq cls self k hk _ Hd Hk).
  rewrite (Set_getitem_eq scls other k hk _ Ho Hk).
  rewrite (od_get_update hk o Hnd d). unfold od_mem.
  now destruct (od_get hk o).
Qed.

End SetLookup.

Lemma Set_add_then_lookup_witness :
  exists self',
    Set_add Zoo.uuid4 Zoo.AnimalSet
      (Zoo.pack [(KStr "fido", Zoo.fido)]) Zoo.rex 0%nat = (Ok self', 0%nat)
    /\ Set_getitem Zoo.AnimalSet self' (VStr "rex") = Ok Zoo.rex
    /\ Set_contains Zoo.AnimalSet self' (VStr "rex") = Ok true
    /\ (forall k2 hk2, to_key k2 = Ok hk2 -> hk2 <> KStr "rex" ->
        Set_getitem Zoo.AnimalSet self' k2
        = Set_getitem Zoo.AnimalSet (Zoo.pack [(KStr "fido", Zoo.fido)]) k2
        /\ Set_contains Zoo.AnimalSet self' k2
           = Set_contains Zoo.AnimalSet
               (Zoo.pack [(KStr "fido", Zoo.fido)]) k2)
    /\ Set_size Zoo.AnimalSet self' = Ok 2%nat.
Proof.
  apply (Set_add_then_lookup Zoo.uuid4 Zoo.AnimalSet
           (Zoo.pack [(KStr "fido", Zoo.fido)]) Zoo.rex (VStr "rex")
           (KStr "rex") [(KStr "fido", Zoo.fido)] 0%nat); reflexivity.
Defined.

Lemma Set_delete_keys_removes_witness :
  exists self',
    Set_delete_keys Zoo.AnimalSet
      (Zoo.pack [(KStr "rex", Zoo.rex); (KStr "fido", Zoo.fido);
                 (KStr "u", Zoo.nameless 1)])
      [VStr "u"; VStr "rex"] = Ok self'
    /\ Set_elements Zoo.AnimalSet self' = Ok [(KStr "fido", Zoo.fido)].
Proof.
  apply (Set_delete_keys_removes Zoo.AnimalSet [VStr "u"; VStr "rex"]
           (Zoo.pack [(KStr "rex", Zoo.rex); (KStr "fido", Zoo.fido);
                      (KStr "u", Zoo.nameless 1)])
           [(KStr "rex", Zoo.rex); (KStr "fido", Zoo.fido);
            (KStr "u", Zoo.nameless 1)]
           [KStr "u"; KStr "rex"]).
  - reflexivity.
  - reflexivity.
  - repeat constructor; simpl; intuition discriminate.
  - intros q [<-|[<-|[]]]; simpl; tauto.
Defined.

Lemma Set_delete_keys_key_error_witness :
  Set_delete_keys Zoo.AnimalSet
    (Zoo.pack [(KStr "rex", Zoo.rex); (KStr "fido", Zoo.fido)])
    [VStr "rex"; VStr "rex"] = Raise KeyError.
Proof.
  apply (Set_delete_keys_key_error Zoo.AnimalSet [VStr "rex"; VStr "rex"]
           (Zoo.pack [(KStr "rex", Zoo.rex); (KStr "fido", Zoo.fido)])
           [(KStr "rex", Zoo.rex); (KStr "fido", Zoo.fido)]
           [KStr "rex"; KStr "rex"]).
  - reflexivity.
  - reflexivity.
  - intros [Hnd _]. inversion Hnd as [|? ? Hn ?]; subst.
    apply Hn. now left.
Defined.

Lemma Set_keep_keys_tolerant_witness :
  exists self',
    Set_keep_keys Zoo.AnimalSet
      (Zoo.pack [(KStr "rex", Zoo.rex); (KStr "fido", Zoo.fido)])
      [VStr "zed"; VStr "fido"; VStr "fido"] = Ok self'
    /\ Set_extract_keys Zoo.AnimalSet
         (Zoo.pack [(KStr "rex", Zoo.rex); (KStr "fido", Zoo.fido)])
         [VStr "zed"; VStr "fido"; VStr "fido"] = Ok self'
    /\ Set_elements Zoo.AnimalSet self' = Ok [(KStr "fido", Zoo.fido)]
    /\ forall k hk, to_key k = Ok hk ->
         Set_getitem Zoo.AnimalSet self' k
         = if existsb (fun q => key_eqb q hk)
                [KStr "zed"; KStr "fido"; KStr "fido"]
           then Set_getitem Zoo.AnimalSet
                  (Zoo.pack [(KStr "rex", Zoo.rex); (KStr "fido", Zoo.fido)])
                  k
           else Raise KeyError.
Proof.
  apply (Set_keep_keys_tolerant Zoo.AnimalSet
           (Zoo.pack [(KStr "rex", Zoo.rex); (KStr "fido", Zoo.fido)])
           [VStr "zed"; VStr "fido"; VStr "fido"]
           [(KStr "rex", Zoo.rex); (KStr "fido", Zoo.fido)]
           [KStr "zed"; KStr "fido"; KStr "fido"]).
  - reflexivity.
  - repeat constructor; simpl; intuition discriminate.
  - reflexivity.
Defined.

Lemma Set_add_set_lookup_witness :
  exists self' d',
    Set_add_set Zoo.AnimalSet
      (Zoo.pack [(KStr "rex", Zoo.rex); (KStr "fido", Zoo.fido)])
      Zoo.AnimalSet
      (Zoo.pack [(KStr "u", Zoo.nameless 1); (KStr "rex", Zoo.old_rex)])
    = Ok self'
    /\ Set_elements Zoo.AnimalSet self' = Ok d'
    /\ od_keys d' = [KStr "rex"; KStr "fido"; KStr "u"]
    /\ forall k hk, to_key k = Ok hk ->
         Set_getitem Zoo.AnimalSet self' k
         = if od_mem hk [(KStr "u", Zoo.nameless 1);
                         (KStr "rex", Zoo.old_rex)]
           then Set_getitem Zoo.AnimalSet
                  (Zoo.pack [(KStr "u", Zoo.nameless 1);
                             (KStr "rex", Zoo.old_rex)]) k
           else Set_getitem Zoo.AnimalSet
                  (Zoo.pack [(KStr "rex", Zoo.rex);
                             (KStr "fido", Zoo.fido)]) k.
Proof.
  apply (Set_add_set_lookup Zoo.AnimalSet Zoo.AnimalSet
           (Zoo.pack [(KStr "rex", Zoo.rex); (KStr "fido", Zoo.fido)])
           (Zoo.pack [(KStr "u", Zoo.nameless 1); (KStr "rex", Zoo.old_rex)])
           [(KStr "rex", Zoo.rex); (KStr "fido", Zoo.fido)]
           [(KStr "u", Zoo.nameless 1); (KStr "rex", Zoo.old_rex)]).
  - reflexivity.
  - reflexivity.
  - repeat constructor; simpl; intuition discriminate.
Defined.

(* ================================================================== *)
(** ** The random source only advances *)

Section Draws.
Variable modules : string -> option (string -> option pyclass).
Variable uuid4 : nat -> string.

Lemma Set_add_draws (cls : pyclass) (self e : pyval) (w w' : world)
      (r : result pyval) :
  Set_add uuid4 cls self e w = (r, w') -> (w <= w')%nat.
Proof.
  unfold Set_add, sbind, lift, ret, str_uuid4.
  destruct (Set_get_key cls e) as [k|]; [|intros [= _ <-]; lia].
  destruct (truthy k) as [[|]|]; intros [= _ <-]; lia.
Qed.

Lemma Set_add_each_draws (cls : pyclass) (items : list pyval) :
  forall (self : pyval) (w w' : world) (r : result pyval),
    Set_add_each uuid4 cls self items w = (r, w') -> (w <= w')%nat.
Proof.
  induction items as [|e rest IH]; intros self w w' r; cbn [Set_add_each].
  - unfold ret. intros [= _ <-]. lia.
  - unfold sbind.
    destruct (Set_add uuid4 cls self e w) as [[s1|x] w1] eqn:Hadd.
    + intros H. apply Set_add_draws in Hadd. apply IH in H. lia.
    + intros [= _ <-]. now apply Set_add_draws in Hadd.
Qed.

Lemma Set_init_draws (cls : pyclass) (kw : kwargs) (w w' : world)
      (r : result pyval) :
  Set_init modules uuid4 cls kw w = (r, w') -> (w <= w')%nat.
Proof.
  unfold Set_init, sbind, lift, throw.
  destruct (Set_validate cls); [|intros [= _ <-]; lia].
  destruct (c_ELE_ATTR cls) as [attr|]; [|intros [= _ <-]; lia].
  destruct (c_ELE_CLS cls) as [ele|]; [|intros [= _ <-]; lia].
  destruct (unexpected_kwargs kw attr); [intros [= _ <-]; lia|].
  destruct (check_elements modules ele SetError _); [|intros [= _ <-]; lia].
  destruct (Set_clear cls _) as [s0|]; [|intros [= _ <-]; lia].
  unfold Set_add_iterable. apply Set_add_each_draws.
Qed.

Lemma construct_draws (cls : pyclass) (kw : kwargs) (w w' : world)
      (r : result pyval) :
  construct modules uuid4 cls kw w = (r, w') -> (w <= w')%nat.
Proof.
  unfold construct, lift, ret, throw. destruct (kind_of cls).
  - destruct kw; intros [= _ <-]; lia.
  - intros [= _ <-]. lia.
  - apply Set_init_draws.
Qed.

Section Step.
Variable rec : pyclass -> pyval -> world -> outcome.
Hypothesis rec_draws :
  forall cls d w r d' w', rec cls d w = (r, d', w') -> (w <= w')%nat.

Lemma decode_elements_draws (ele : pyclass) (items : list pyval) :
  forall (w w' : world) (r : result (list pyval)) (items' : list pyval),
    decode_elements rec ele items w = (r, items', w') -> (w <= w')%nat.
Proof.
  induction items as [|dd rest IH]; intros w w' r items';
    cbn [decode_elements].
  - intros [= _ _ <-]. lia.
  - destruct (rec ele dd w) as [[[o|x] dd'] w1] eqn:H1;
      apply rec_draws in H1.
    + destruct (decode_elements rec ele rest w1) as [[[os|y] rest'] w2]
        eqn:H2; apply IH in H2; intros [= _ _ <-]; lia.
    + intros [= _ _ <-]. lia.
Qed.

Lemma resolve_classes_draws (err : exn) (cls : pyclass) (field : string)
      (d : pyval) (w w' : world) (r : result (pyclass * pyclass)) :
  resolve_classes modules uuid4 err cls field d w = (r, w') ->
  (w <= w')%nat.
Proof.
  unfold resolve_classes.
  destruct (py_contains "_CLS" d) as [[|]|]; try (intros [= _ <-]; lia).
  destruct (construct modules uuid4 cls [] w) as [[o|x] w1] eqn:H1;
    apply construct_draws in H1.
  - destruct (c_ELE_CLS cls); intros [= _ <-]; lia.
  - intros [= _ <-]. lia.
Qed.

Lemma collection_from_dict_draws (err : exn) (cls : pyclass) (d : pyval)
      (w w' : world) (r : result pyval) (d' : pyval) :
  collection_from_dict modules uuid4 rec err cls d w = (r, d', w') ->
  (w <= w')%nat.
Proof.
  unfold collection_from_dict.
  destruct (c_ELE_CLS_FIELD cls) as [field|]; [|intros [= _ _ <-]; lia].
  destruct (resolve_classes modules uuid4 err cls field d w)
    as [[[cls' ele]|x] w1] eqn:H1; apply resolve_classes_draws in H1;
    [|intros [= _ _ <-]; lia].
  destruct (class_ELE_ATTR cls') as [attr|]; [|intros [= _ _ <-]; lia].
  destruct (v <- py_getitem d (key_of_name attr) ;;
            items <- py_iter v ;; Ok (v, items)) as [[v items]|];
    [|intros [= _ _ <-]; lia].
  destruct (decode_elements rec ele items w1) as [[[os|y] items'] w2]
    eqn:H2; apply decode_elements_draws in H2.
  - destruct attr as [a|]; [|intros [= _ _ <-]; lia].
    destruct (construct modules uuid4 cls' [(a, ItList os)] w2)
      as [r3 w3] eqn:H3; apply construct_draws in H3.
    intros [= _ _ <-]. lia.
  - intros [= _ _ <-]. lia.
Qed.

Lemma Serializable_from_dict_draws (cls : pyclass) (d : pyval)
      (w w' : world) (r : result pyval) (d' : pyval) :
  Serializable_from_dict modules rec cls d w = (r, d', w') ->
  (w <= w')%nat.
Proof.
  unfold Serializable_from_dict.
  destruct (py_contains "_CLS" d) as [[|]|]; try (intros [= _ _ <-]; lia).
  destruct (py_pop "_CLS" d) as [[tag d1]|]; [|intros [= _ _ <-]; lia].
  destruct (get_class modules tag) as [cls'|]; [|intros [= _ _ <-]; lia].
  apply rec_draws.
Qed.

End Step.

(** Decoding never takes the random source back: the identifiers
    drawn while a document is decoded are drawn after those drawn
    before. *)
Lemma from_dict_draws (fuel : nat) :
  forall (cls : pyclass) (d : pyval) (w : world) (r : result pyval)
         (d' : pyval) (w' : world),
    from_dict modules uuid4 fuel cls d w = (r, d', w') -> (w <= w')%nat.
Proof.
  induction fuel as [|n IH]; intros cls d w r d' w'; cbn [from_dict].
  - intros [= _ _ <-]. lia.
  - destruct (c_from_dict cls) as [f|].
    + destruct (f d). intros [= _ _ <-]. lia.
    + destruct (negb (issubclass cls SERIALIZABLE));
        [intros [= _ _ <-]; lia|].
      destruct (kind_of cls).
      * now apply Serializable_from_dict_draws.
      * now apply collection_from_dict_draws.
      * now apply collection_from_dict_draws.
Qed.

End Draws.

(* ================================================================== *)
(** ** The round trip of a set *)

Section SetRoundTrip.
Variable modules : string -> option (string -> option pyclass).
Variable uuid4 : nat -> string.

Lemma Set_add_each_keyed (cls : pyclass) (cn attr : string)
      (pairs : odict pyval) :
  c_ELE_ATTR cls = Some attr ->
  class_level attr = false ->
  forall (d0 : odict pyval) (w : world),
    own_keys cls pairs ->
    NoDup (od_keys (d0 ++ pairs)) ->
    Set_add_each uuid4 cls (VObj cn [(attr, VDict d0)]) (od_values pairs) w
    = (Ok (VObj cn [(attr, VDict (d0 ++ pairs))]), w).
Proof.
  intros Ha Hn. induction pairs as [|[hk e] r IH]; intros d0 w Hown Hnd.
  - now rewrite app_nil_r.
  - inversion Hown as [|? ? (k & Hk & Ht & Hh) Hr]; subst.
    cbn [fst snd] in Hk, Hh.
    assert (Hfresh : od_get hk d0 = None).
    { apply od_get_not_in. intros Hin. unfold od_keys in *.
      rewrite map_app in Hnd. simpl in Hnd.
      apply NoDup_remove_2 in Hnd. apply Hnd. apply in_or_app. now left. }
    cbn [od_values map snd Set_add_each]. unfold sbind at 1.
    assert (Hadd : Set_add uuid4 cls (VObj cn [(attr, VDict d0)]) e w
                   = (Ok (VObj cn [(attr, VDict (d0 ++ [(hk, e)]))]), w)).
    { unfold Set_add, sbind, lift, ret. rewrite Hk, Ht.
      rewrite (Set_elements_single cls cn attr d0 Ha Hn). cbn [bind].
      rewrite Hh. cbn [bind]. rewrite Ha.
      rewrite (setattr_single cls cn attr _ _ Hn).
      now rewrite (od_set_fresh _ _ _ Hfresh). }
    rewrite Hadd. fold (od_values r).
    rewrite (IH (d0 ++ [(hk, e)]) w Hr).
    + now rewrite <- app_assoc.
    + now rewrite <- app_assoc.
Qed.

(** A set built from elements whose keys are true in a boolean context,
    hashable and distinct stores each under its own key, in the order
    given, and draws no identifier. *)
Lemma Set_init_keyed (cls ele : pyclass) (attr : string) (d : odict pyval)
      (w : world) :
  Set_validate cls = Ok tt ->
  c_ELE_CLS cls = Some ele -> c_ELE_ATTR cls = Some attr ->
  class_level attr = false ->
  Forall (fun e => isinstance modules e (get_class_name ele) = true)
         (od_values d) ->
  own_keys cls d -> NoDup (od_keys d) ->
  Set_init modules uuid4 cls [(attr, ItList (od_values d))] w
  = (Ok (VObj (get_class_name cls) [(attr, VDict d)]), w).
Proof.
  intros Hv He Ha Hn Hinst Hown Hnd.
  unfold Set_init, sbind, lift. rewrite Hv, Ha, He.
  rewrite unexpected_kwargs_own, kwargs_get_own. cbn [iter_items iter_after].
  rewrite (check_elements_ok modules ele SetError _ Hinst).
  unfold Set_clear, Set_add_iterable. rewrite Ha.
  rewrite (setattr_fresh cls _ attr _ Hn). cbn [iter_items].
  now rewrite (Set_add_each_keyed cls _ attr d Ha Hn [] w Hown Hnd).
Qed.

Lemma decode_round_trip_in (reflective : bool) (f1 f2 : nat) (ele : pyclass)
      (es : list pyval) :
  Forall (round_trips_in modules uuid4 reflective f1 f2 ele) es ->
  exists js,
    map_result (fun vi => _recurse modules f1 vi reflective) es = Ok js
    /\ forall w0, exists js' w1,
        decode_elements (from_dict modules uuid4 f2) ele js w0
        = (Ok es, js', w1).
Proof.
  induction 1 as [|e r [j [Hj Hdec]] Hr [js [Hjs Hall]]].
  - exists []. split; [reflexivity|]. intros w0. now exists [], w0.
  - exists (j :: js). split.
    + simpl. now rewrite Hj, Hjs.
    + intros w0. destruct (Hdec w0) as [j' [w1 H1]].
      destruct (Hall w1) as [js' [w2 H2]].
      exists (j' :: js'), w2. simpl. now rewrite H1, H2.
Qed.

Lemma Set_serialize_doc (cls ele : pyclass) (attr field : string)
      (d : odict pyval) (js : list pyval) (reflective : bool) (f1 : nat) :
  concrete_set modules cls ele attr field ->
  map_result (fun vi => _recurse modules f1 vi reflective) (od_values d)
  = Ok js ->
  serialize modules (S f1) (VObj (get_class_name cls) [(attr, VDict d)])
    reflective
  = Ok (VDict (set_doc_of cls ele attr field reflective js)).
Proof.
  intros (Hfd & Hser & Hkind & Hsub & Hv & Hele & Hattr & Hfield
          & Ha & Hf & Hfa & Hgc & Hge & Hown) Hjs.
  unfold serialize, class_of. rewrite Hgc.
  unfold serialize_method.
  rewrite (own_object_single _ attr _ Hown), Hser, Hkind. cbn [negb].
  unfold Set_serialize, collection_header, set_doc_of.
  rewrite (Set_elements_single cls _ attr d Hattr Hown).
  rewrite Hele, Hfield, Hattr.
  cbn [key_of_name bind _recurse class_of]. rewrite Hjs. cbn [bind].
  destruct reflective; cbn [bind od_set app]; [|reflexivity].
  rewrite (str_key_neq "_CLS" field) by congruence. cbn [od_set].
  rewrite (str_key_neq "_CLS" attr) by congruence.
  now rewrite (str_key_neq field attr) by congruence.
Qed.

(** [from_dict] on the document of a set decodes the elements and
    hands them to the constructor of the class. *)
Lemma Set_from_dict_construct (cls ele : pyclass) (attr field : string)
      (es js : list pyval) (reflective : bool) (f2 : nat) (w : world) :
  concrete_set modules cls ele attr field ->
  (forall w0, exists js' w1,
      decode_elements (from_dict modules uuid4 f2) ele js w0
      = (Ok es, js', w1)) ->
  exists doc' w1,
    from_dict modules uuid4 (S f2) cls
      (VDict (set_doc_of cls ele attr field reflective js)) w
    = (fst (Set_init modules uuid4 cls [(attr, ItList es)] w1), doc',
       snd (Set_init modules uuid4 cls [(attr, ItList es)] w1))
    /\ (w <= w1)%nat.
Proof.
  intros (Hfd & Hser & Hkind & Hsub & Hv & Hele & Hattr & Hfield
          & Ha & Hf & Hfa & Hgc & Hge & Hown) Hdec.
  destruct (container_doc_lookup cls ele attr field reflective js Ha Hf Hfa)
    as (Htag & Hitems & Hrefl).
  change (container_doc cls ele attr field reflective js)
    with (set_doc_of cls ele attr field reflective js) in *.
  assert (Hcf : class_ELE_CLS_FIELD cls = Ok (Some field)).
  { unfold class_ELE_CLS_FIELD. now rewrite Hkind, Hfield. }
  assert (Hca : class_ELE_ATTR cls = Ok (Some attr)).
  { unfold class_ELE_ATTR. now rewrite Hkind, Hattr. }
  assert (Hres : resolve_classes modules uuid4 SetError cls field
                   (VDict (set_doc_of cls ele attr field reflective js)) w
                 = (Ok (cls, ele), w)).
  { unfold resolve_classes. rewrite Htag. destruct reflective.
    - destruct (Hrefl eq_refl) as (H1 & H2 & H3).
      rewrite H1. cbn [bind negb]. rewrite H2. cbn [bind].
      rewrite Hgc. cbn [bind]. rewrite Hcf. cbn [bind key_of_name].
      rewrite H3. cbn [bind]. now rewrite Hge.
    - unfold construct. rewrite Hkind.
      assert (Hattr' : own_ELE_ATTR cls = true).
      { unfold own_ELE_ATTR. now rewrite Hattr, Hown. }
      destruct (Set_init_empty modules uuid4 cls w Hv Hattr')
        as [s0 [H0 _]].
      now rewrite H0, Hele. }
  cbn [from_dict]. rewrite Hfd, Hsub, Hkind. cbn [negb].
  unfold Set_from_dict, collection_from_dict.
  rewrite Hfield, Hres, Hca. cbn [key_of_name]. rewrite Hitems.
  cbn [bind py_iter].
  destruct (Hdec w) as [js' [w1 H1]]. rewrite H1.
  unfold construct. rewrite Hkind.
  eexists. exists w1. split.
  - destruct (Set_init modules uuid4 cls [(attr, ItList es)] w1) as [r w2].
    reflexivity.
  - apply (decode_elements_draws (from_dict modules uuid4 f2)
             (from_dict_draws modules uuid4 f2) ele js w w1 _ _ H1).
Qed.

(** X14.  A concrete set built from elements whose keys are true in a
    boolean context, hashable and distinct stores each under its own
    key and draws no identifier; serialized in either mode, the
    document lists the elements without their keys, and [from_dict] of
    the class rebuilds the same set, each element under its key again
    and in the same order.  The elements are instances of the element
    class whose own [from_dict] decodes what they serialize to, and
    the class is one that can be instantiated: it stores its elements
    under a name of its own. *)
Theorem Set_round_trip_own_keys (cls ele : pyclass) (attr field : string)
        (d : odict pyval) (reflective : bool) (f1 f2 : nat) (w : world) :
  concrete_set modules cls ele attr field ->
  Forall (fun e => isinstance modules e (get_class_name ele) = true)
         (od_values d) ->
  Forall (round_trips_in modules uuid4 reflective f1 f2 ele) (od_values d) ->
  own_keys cls d -> NoDup (od_keys d) ->
  exists s js doc' w',
    Set_init modules uuid4 cls [(attr, ItList (od_values d))] w = (Ok s, w)
    /\ Set_elements cls s = Ok d
    /\ serialize modules (S f1) s reflective
       = Ok (VDict (set_doc_of cls ele attr field reflective js))
    /\ from_dict modules uuid4 (S f2) cls
         (VDict (set_doc_of cls ele attr field reflective js)) w
       = (Ok s, doc', w').
Proof.
  intros Hc Hinst Hrt Hown Hnd.
  pose proof Hc as (Hfd & Hser & Hkind & Hsub & Hv & Hele & Hattr & Hfield
                    & Ha & Hf & Hfa & Hgc & Hge & Hname).
  destruct (decode_round_trip_in reflective f1 f2 ele _ Hrt)
    as [js [Hjs Hdec]].
  destruct (Set_from_dict_construct cls ele attr field (od_values d) js
              reflective f2 w Hc Hdec) as [doc' [w1 [Hfrom _]]].
  rewrite (Set_init_keyed cls ele attr d w1 Hv Hele Hattr Hname
             Hinst Hown Hnd) in Hfrom.
  exists (VObj (get_class_name cls) [(attr, VDict d)]), js, doc', w1.
  split; [now apply (Set_init_keyed cls ele attr d w)|].
  split; [now apply Set_elements_single|].
  split; [now apply Set_serialize_doc | exact Hfrom].
Qed.

(** X15.  The keys of a set are not part of its document.  A concrete
    set that holds elements whose key is false in a boolean context,
    under identifiers drawn before decoding starts, is rebuilt by
    [from_dict] of its document with the same elements in the same
    order, each under an identifier that is drawn while the document
    is decoded; when the random source never repeats itself, none of
    the new keys is one of the old keys.  The elements are instances
    of the element class whose own [from_dict] decodes what they
    serialize to. *)
Theorem Set_round_trip_redraws_keys (cls ele : pyclass) (attr field : string)
        (es : list pyval) (reflective : bool) (f1 f2 : nat) (w0 w : world) :
  concrete_set modules cls ele attr field ->
  Forall (fun e => isinstance modules e (get_class_name ele) = true) es ->
  Forall (round_trips_in modules uuid4 reflective f1 f2 ele) es ->
  Forall (fun e => exists k, Set_get_key cls e = Ok k
                             /\ truthy k = Ok false) es ->
  (forall a b, uuid4 a = uuid4 b -> a = b) ->
  (w0 + List.length es <= w)%nat ->
  exists js doc' w1 s',
    serialize modules (S f1)
      (VObj (get_class_name cls)
            [(attr, VDict (combine (drawn_keys uuid4 w0 (List.length es))
                                   es))])
      reflective
    = Ok (VDict (set_doc_of cls ele attr field reflective js))
    /\ from_dict modules uuid4 (S f2) cls
         (VDict (set_doc_of cls ele attr field reflective js)) w
       = (Ok s', doc', (w1 + List.length es)%nat)
    /\ (w <= w1)%nat
    /\ Set_elements cls s'
       = Ok (combine (drawn_keys uuid4 w1 (List.length es)) es)
    /\ (forall k, In k (drawn_keys uuid4 w1 (List.length es)) ->
                  ~ In k (drawn_keys uuid4 w0 (List.length es))).
Proof.
  intros Hc Hinst Hrt Hfalse Hinj Hold.
  pose proof Hc as (Hfd & Hser & Hkind & Hsub & Hv & Hele & Hattr & Hfield
                    & Ha & Hf & Hfa & Hgc & Hge & Hname).
  destruct (decode_round_trip_in reflective f1 f2 ele _ Hrt)
    as [js [Hjs Hdec]].
  destruct (Set_from_dict_construct cls ele attr field es js
              reflective f2 w Hc Hdec) as [doc' [w1 [Hfrom Hle]]].
  assert (Hlen : forall v, List.length (drawn_keys uuid4 v (List.length es))
                           = List.length es).
  { intros v. unfold drawn_keys. now rewrite length_map, length_seq. }
  assert (Hkeys : forall v, NoDup (drawn_keys uuid4 v (List.length es))).
  { intros v. unfold drawn_keys.
    apply Finite.Injective_map_NoDup; [|apply seq_NoDup].
    intros a b Hab. injection Hab as Hab. now apply Hinj. }
  assert (Hinit : exists s',
             Set_init modules uuid4 cls [(attr, ItList es)] w1
             = (Ok s', (w1 + List.length es)%nat)
             /\ Set_elements cls s'
                = Ok (combine (drawn_keys uuid4 w1 (List.length es)) es)).
  { unfold Set_init, sbind, lift. rewrite Hv, Hattr, Hele.
    rewrite unexpected_kwargs_own, kwargs_get_own.
    cbn [iter_items iter_after].
    rewrite (check_elements_ok modules ele SetError _ Hinst).
    unfold Set_clear, Set_add_iterable. rewrite Hattr.
    rewrite (setattr_fresh cls _ attr _ Hname). cbn [iter_items].
    apply (Set_add_each_surrogate uuid4 cls es _ [] w1);
      [|exact Hfalse|apply Hkeys].
    now apply Set_elements_single. }
  destruct Hinit as [s' [Hinit Hs']]. rewrite Hinit in Hfrom.
  exists js, doc', w1, s'.
  split; [|split; [exact Hfrom|split; [exact Hle|split; [exact Hs'|]]]].
  - apply Set_serialize_doc; [exact Hc|].
    destruct (combine_keys _ es (Hlen w0)) as [_ Hvals].
    now rewrite Hvals.
  - intros k Hnew Hwas. unfold drawn_keys in Hnew, Hwas.
    apply in_map_iff in Hnew as (i & <- & Hi).
    apply in_map_iff in Hwas as (j & Hij & Hj).
    injection Hij as Hij. apply Hinj in Hij. subst j.
    apply in_seq in Hi. apply in_seq in Hj. lia.
Qed.

End SetRoundTrip.

Lemma Zoo_uuid4_injective (a b : nat) : Zoo.uuid4 a = Zoo.uuid4 b -> a = b.
Proof.
  unfold Zoo.uuid4. intros [= H]. revert b H.
  induction a as [|a IH]; intros [|b]; simpl; try discriminate;
    [reflexivity|].
  intros [= H]. f_equal. now apply IH.
Qed.

Lemma Set_round_trip_own_keys_witness :
  exists s js doc' w',
    Set_init Zoo.modules Zoo.uuid4 Zoo.AnimalSet
      [("elements", ItList [Zoo.rex; Zoo.fido])] 0%nat = (Ok s, 0%nat)
    /\ Set_elements Zoo.AnimalSet s
       = Ok [(KStr "rex", Zoo.rex); (KStr "fido", Zoo.fido)]
    /\ serialize Zoo.modules 3 s true
       = Ok (VDict (set_doc_of Zoo.AnimalSet Zoo.Dog "elements"
                      "_ELEMENT_CLS" true js))
    /\ from_dict Zoo.modules Zoo.uuid4 2 Zoo.AnimalSet
         (VDict (set_doc_of Zoo.AnimalSet Zoo.Dog "elements"
                   "_ELEMENT_CLS" true js)) 0%nat
       = (Ok s, doc', w').
Proof.
  apply (Set_round_trip_own_keys Zoo.modules Zoo.uuid4
           Zoo.AnimalSet Zoo.Dog "elements" "_ELEMENT_CLS"
           [(KStr "rex", Zoo.rex); (KStr "fido", Zoo.fido)] true 2 1 0%nat).
  - repeat split; try reflexivity; discriminate.
  - repeat constructor.
  - repeat constructor; eexists; (split; [reflexivity|]);
      intros w0; eexists; eexists; reflexivity.
  - repeat constructor; eexists; repeat split; reflexivity.
  - repeat constructor; simpl; intuition discriminate.
Defined.

Lemma Set_round_trip_redraws_keys_witness :
  exists js doc' w1 s',
    serialize Zoo.modules 3
      (Zoo.pack [(KStr "u", Zoo.nameless 1); (KStr "ui", Zoo.nameless 2)])
      false
    = Ok (VDict (set_doc_of Zoo.AnimalSet Zoo.Dog "elements"
                   "_ELEMENT_CLS" false js))
    /\ from_dict Zoo.modules Zoo.uuid4 2 Zoo.AnimalSet
         (VDict (set_doc_of Zoo.AnimalSet Zoo.Dog "elements"
                   "_ELEMENT_CLS" false js)) 5%nat
       = (Ok s', doc', (w1 + 2)%nat)
    /\ (5 <= w1)%nat
    /\ Set_elements Zoo.AnimalSet s'
       = Ok (combine (drawn_keys Zoo.uuid4 w1 2)
                     [Zoo.nameless 1; Zoo.nameless 2])
    /\ (forall k, In k (drawn_keys Zoo.uuid4 w1 2) ->
                  ~ In k (drawn_keys Zoo.uuid4 0 2)).
Proof.
  apply (Set_round_trip_redraws_keys Zoo.modules Zoo.uuid4
           Zoo.AnimalSet Zoo.Dog "elements" "_ELEMENT_CLS"
           [Zoo.nameless 1; Zoo.nameless 2] false 2 1 0%nat 5%nat).
  - repeat split; try reflexivity; discriminate.
  - repeat constructor.
  - repeat constructor; eexists; (split; [reflexivity|]);
      intros w0; eexists; eexists; reflexivity.
  - repeat constructor; exists VNone; split; reflexivity.
  - exact Zoo_uuid4_injective.
  - simpl. lia.
Defined.

(** Two nameless dogs, stored under the first two identifiers, come
    back under the sixth and the seventh when the document is decoded
    after five draws. *)
Example Set_round_trip_new_keys :
  fst (fst (from_dict Zoo.modules Zoo.uuid4 2 Zoo.AnimalSet
              (VDict [(KStr "elements",
                       VList [VDict [(KStr "name", VNone);
                                     (KStr "age", VInt 1)];
                              VDict [(KStr "name", VNone);
                                     (KStr "age", VInt 2)]])]) 5%nat))
  = Ok (Zoo.pack [(KStr "uiiiii", Zoo.nameless 1);
                  (KStr "uiiiiii", Zoo.nameless 2)]).
Proof. reflexivity. Qed.

(* ================================================================== *)
(** ** Counting matches *)

Section Counting.
Variable modules : string -> option (string -> option pyclass).

(** X16.  [count_matches] is the number of elements that satisfy the filters
    under the combinator, in a container that holds instances of its
    element class and in a set. *)
Theorem count_matches_counts (ccls scls cele : pyclass) (cattr : string)
        (c s : pyval) (es : list pyval) (d : odict pyval)
        (filters : list (pyval -> bool)) (comb : combinator) :
  Container_validate ccls = Ok tt ->
  c_ELE_CLS ccls = Some cele -> c_ELE_ATTR ccls = Some cattr ->
  Container_elements ccls c = Ok es ->
  Forall (fun e => isinstance modules e (get_class_name cele) = true) es ->
  Set_elements scls s = Ok d ->
  NoDup (od_keys d) ->
  Container_count_matches modules ccls c filters (combinator_fn comb)
  = Ok (List.length (filter (satisfies comb filters) es))
  /\ Set_count_matches scls s filters (combinator_fn comb)
     = Ok (List.length (filter (satisfies comb filters) (od_values d))).
Proof.
  intros Hv He Ha Hc Hinst Hs Hnd. split.
  - unfold Container_count_matches, Container_get_matches,
      Container__filter_elements.
    rewrite Hc, Ha. cbn [bind]. rewrite (filter_matches comb).
    pose proof (Container_elements_name ccls c es cattr Hc Ha) as Hn.
    rewrite (Container_init_list modules ccls cele cattr _ Hv He Ha Hn).
    + cbn [bind]. unfold Container_size.
      now rewrite (Container_elements_single ccls _ cattr _ Ha Hn).
    + apply Forall_forall. intros e Hin. apply filter_In in Hin as [Hin _].
      now apply (proj1 (Forall_forall _ _) Hinst).
  - unfold Set_count_matches, Set_get_matches, Set_copy,
      Set_filter_elements, Set__filter_elements.
    rewrite Hs. cbn [bind].
    rewrite od_of_list_nodup by now apply od_keys_filter_nodup.
    destruct (Set_rebind scls s d
                (filter (fun kv => matches filters (combinator_fn comb)
                                     (snd kv)) d) Hs) as [s' [H1 H2]].
    rewrite H1. cbn [bind]. unfold Set_size. rewrite H2. cbn [bind].
    f_equal. unfold od_values. rewrite filter_map_snd, length_map.
    f_equal. apply filter_ext. intros kv. apply matches_satisfies.
Qed.

End Counting.

Lemma count_matches_counts_witness :
  Container_count_matches Zoo.modules Zoo.DogContainer
    (Zoo.kennel [Zoo.rex; Zoo.fido; Zoo.old_rex]) [Zoo.is_rex; Zoo.is_pup]
    py_any = Ok 3%nat
  /\ Set_count_matches Zoo.AnimalSet
       (Zoo.pack [(KStr "rex", Zoo.rex); (KStr "fido", Zoo.fido)])
       [Zoo.is_rex; Zoo.is_pup] py_any = Ok 2%nat.
Proof.
  apply (count_matches_counts Zoo.modules Zoo.DogContainer Zoo.AnimalSet
           Zoo.Dog "elements"
           (Zoo.kennel [Zoo.rex; Zoo.fido; Zoo.old_rex])
           (Zoo.pack [(KStr "rex", Zoo.rex); (KStr "fido", Zoo.fido)])
           [Zoo.rex; Zoo.fido; Zoo.old_rex]
           [(KStr "rex", Zoo.rex); (KStr "fido", Zoo.fido)]
           [Zoo.is_rex; Zoo.is_pup] MatchAny); try reflexivity.
  - repeat constructor.
  - repeat constructor; simpl; intuition discriminate.
Defined.

(* ================================================================== *)
(** ** Sorting by an attribute that an element lacks *)




(* ================================================================== *)
(** ** Class names *)

Lemma rsplit1_none (sep : ascii) (s : string) :
  count_char sep s = 0%nat -> rsplit1 sep s = None.
Proof.
  induction s as [|c r IH]; simpl; [reflexivity|].
  destruct (Ascii.eqb c sep); simpl; [discriminate|].
  intros H. now rewrite (IH H).
Qed.

Lemma rsplit1_app (sep : ascii) (a b : string) :
  rsplit1 sep b = None ->
  rsplit1 sep (a ++ String sep b) = Some (a, b).
Proof.
  intros Hb. induction a as [|c a IH]; simpl.
  - now rewrite Hb, Ascii.eqb_refl.
  - now rewrite IH.
Qed.

Section ClassNames.
Variable modules : string -> option (string -> option pyclass).

(** X18.  [get_class] undoes [get_class_name]: the qualified name of
    a class whose own name has no dot is split at its last dot into the
    module and the name of the class, also when the module name has
    dots; an empty module name is a [ValueError], an unknown module an
    [ImportError], a module without that name an [AttributeError].  A
    name without a dot is an [ImportError]. *)
Theorem get_class_resolves_qualified_name (cls : pyclass) (s : string) :
  count_char "." (c_name cls) = 0%nat ->
  count_char "." s = 0%nat ->
  get_class modules (VStr (get_class_name cls))
  = (if String.eqb (c_module cls) "" then Raise ValueError
     else
       match modules (c_module cls) with
       | None => Raise ImportError
       | Some namespace =>
           match namespace (c_name cls) with
           | Some c => Ok c
           | None => Raise AttributeError
           end
       end)
  /\ get_class modules (VStr s) = Raise ImportError.
Proof.
  intros Hn Hs. unfold get_class, get_class_name. split.
  - change ("." ++ c_name cls)%string with (String "." (c_name cls)).
    now rewrite (rsplit1_app "." _ _ (rsplit1_none "." _ Hn)).
  - now rewrite (rsplit1_none "." s Hs).
Qed.

End ClassNames.

(** A name that starts with its last dot has an empty module part. *)
Example get_class_empty_module :
  get_class Zoo.modules (VStr ".Dog") = Raise ValueError
  /\ get_class Zoo.modules (VStr "zoo.") = Raise AttributeError
  /\ get_class Zoo.modules (VStr "pets.Dog") = Raise ImportError.
Proof. repeat split; reflexivity. Qed.

Lemma get_class_resolves_qualified_name_witness :
  get_class Zoo.modules (VStr (get_class_name Set_cls)) = Ok Set_cls
  /\ get_class Zoo.modules (VStr "Dog") = Raise ImportError.
Proof.
  apply (get_class_resolves_qualified_name Zoo.modules Set_cls "Dog");
    reflexivity.
Defined.

(* ================================================================== *)
(** ** What the inherited [serialize] writes *)

Lemma map_result_id {A : Type} (f : A -> result A) (l : list A) :
  (forall x, In x l -> f x = Ok x) -> map_result f l = Ok l.
Proof.
  induction l as [|x r IH]; intros H; simpl; [reflexivity|].
  rewrite (H x) by now left. simpl.
  rewrite IH; [reflexivity|]. intros y Hy. apply H. now right.
Qed.

Lemma distinct_keys_nodup (ks : list pykey) :
  distinct_keys ks = true -> NoDup ks.
Proof.
  induction ks as [|k r IH]; simpl; intros H; [constructor|].
  apply andb_prop in H as [Hk Hr]. constructor; [|now apply IH].
  intros Hin. apply negb_true_iff in Hk.
  assert (Ht : existsb (key_eqb k) r = true).
  { apply existsb_exists. exists k. split; [exact Hin|apply key_eqb_refl]. }
  congruence.
Qed.

Lemma fold_max_le {A : Type} (f : A -> nat) (x : A) (l : list A) :
  In x l -> (f x <= fold_right (fun y m => Nat.max (f y) m) O l)%nat.
Proof.
  induction l as [|y r IH]; simpl; [contradiction|].
  intros [->|Hin]; [lia|]. specialize (IH Hin). lia.
Qed.

Section DefaultSerialize.
Variable modules : string -> option (string -> option pyclass).

(** [_recurse] leaves a value made of scalars, lists and dictionaries
    as it is. *)
Lemma _recurse_plain (reflective : bool) (fuel : nat) :
  forall v, plain v = true -> (depth v <= fuel)%nat ->
            _recurse modules fuel v reflective = Ok v.
Proof.
  induction fuel as [|n IH]; intros v Hp Hd.
  - destruct v; simpl in Hd; lia.
  - destruct v; try reflexivity.
    + cbn [_recurse class_of]. cbn [plain] in Hp. cbn [depth] in Hd.
      rewrite (map_result_id _ l); [reflexivity|].
      intros x Hx. apply IH.
      * now apply (proj1 (forallb_forall _ _) Hp).
      * pose proof (fold_max_le depth x l Hx). lia.
    + cbn [_recurse class_of]. cbn [plain] in Hp. cbn [depth] in Hd.
      apply andb_prop in Hp as [Hk Hp].
      rewrite (map_result_id _ d).
      * cbn [bind]. rewrite od_of_list_nodup; [reflexivity|].
        now apply distinct_keys_nodup.
      * intros [k x] Hx. cbn [fst snd]. rewrite IH; [reflexivity| |].
        -- exact (proj1 (forallb_forall _ _) Hp (k, x) Hx).
        -- pose proof (fold_max_le (fun kv : pykey * pyval => depth (snd kv))
                         (k, x) d Hx) as Hle.
           cbn [snd] in Hle. lia.
    + discriminate.
Qed.

Lemma assoc_in_nodup {A : Type} (vars : list (string * A)) (a : string)
      (v : A) :
  NoDup (map fst vars) -> In (a, v) vars -> assoc a vars = Some v.
Proof.
  induction vars as [|[a0 v0] r IH]; simpl; intros Hnd Hin; [contradiction|].
  inversion Hnd as [|? ? Hn Hr]; subst.
  destruct Hin as [[= -> ->]|Hin]; [now rewrite String.eqb_refl|].
  destruct (String.eqb_spec a0 a) as [->|Hne]; [|now apply IH].
  exfalso. apply Hn. apply in_map_iff. now exists (a, v).
Qed.

Lemma serialize_attrs_items (recurse : pyval -> bool -> result pyval)
      (self : pyval) (reflective : bool) (items : list (string * pyval)) :
  forall d0 : odict pyval,
    (forall av, In av items ->
                getattr self (Some (fst av)) = Ok (snd av)
                /\ recurse (snd av) reflective = Ok (snd av)) ->
    NoDup (od_keys d0 ++ map (fun av => KStr (fst av)) items) ->
    serialize_attrs recurse self reflective
      (map (fun av => Some (fst av)) items) d0
    = Ok (d0 ++ map (fun av => (KStr (fst av), snd av)) items).
Proof.
  induction items as [|[a v] r IH]; intros d0 Hit Hnd; simpl.
  - now rewrite app_nil_r.
  - destruct (Hit (a, v) (or_introl eq_refl)) as [Hg Hr].
    cbn [fst snd] in Hg, Hr. simpl in Hg. rewrite Hg. cbn [bind].
    rewrite Hr. cbn [bind].
    assert (Hfresh : od_get (KStr a) d0 = None).
    { apply od_get_not_in. intros Hin. simpl in Hnd.
      apply NoDup_remove_2 in Hnd. apply Hnd. apply in_or_app. now left. }
    rewrite (od_set_fresh _ _ _ Hfresh), IH.
    + now rewrite <- app_assoc.
    + intros av Hav. apply Hit. now right.
    + unfold od_keys. rewrite map_app, <- app_assoc. exact Hnd.
Qed.

(** X19.  The [serialize] that a class inherits from [Serializable] writes
    the instance attributes whose name does not start with an
    underscore, in the order of the instance dictionary, each under its
    name and with its value when that is made of scalars, lists and
    dictionaries, after the ["_CLS"] entry in reflective mode; an
    attribute whose name starts with an underscore is not written.
    The instance dictionary hides none of the names the class defines:
    an instance attribute called [serialize] or [attributes] would
    stand in the way of the method itself. *)
Theorem Serializable_serialize_public_attributes (cls : pyclass)
        (vars : list (string * pyval)) (reflective : bool) (fuel : nat) :
  plain_class modules cls ->
  own_names vars = true ->
  NoDup (map fst vars) ->
  Forall (fun av => is_private (fst av) = false ->
                    plain (snd av) = true /\ (depth (snd av) <= fuel)%nat)
         vars ->
  serialize modules fuel (VObj (get_class_name cls) vars) reflective
  = Ok (VDict ((if reflective
                then [(KStr "_CLS", VStr (get_class_name cls))] else [])
               ++ public_items vars)).
Proof.
  intros (Hser & Hattrs & Hkind & Hsub & Hgc) Hown Hnd Hvals.
  unfold serialize, class_of. rewrite Hgc.
  unfold serialize_method. cbn [own_object]. rewrite Hown, Hser, Hkind.
  cbn [negb].
  unfold Serializable_serialize, attributes. rewrite Hattrs, Hkind.
  unfold Serializable_attributes, public_items.
  set (pub := filter (fun av : string * pyval => negb (is_private (fst av)))
                     vars).
  assert (Hnames : map Some (filter (fun a => negb (is_private a))
                                    (map fst vars))
                   = map (fun av : string * pyval => Some (fst av)) pub).
  { unfold pub. clear. induction vars as [|[a v] r IH]; simpl;
      [reflexivity|].
    destruct (is_private a); simpl; now rewrite IH. }
  rewrite Hnames.
  assert (Hpub : forall av, In av pub -> In av vars
                                         /\ is_private (fst av) = false).
  { intros av Hin. apply filter_In in Hin as [Hin Hp].
    split; [exact Hin|]. now apply negb_true_iff in Hp. }
  rewrite (serialize_attrs_items (_recurse modules fuel) _ reflective pub).
  - reflexivity.
  - intros [a v] Hin. destruct (Hpub _ Hin) as [Hv Hp]. cbn [fst snd] in *.
    split.
    + rewrite (getattr_obj _ vars a (own_names_in vars a v Hown Hv) Hown).
      now rewrite (assoc_in_nodup vars a v Hnd Hv).
    + destruct (proj1 (Forall_forall _ _) Hvals (a, v) Hv Hp) as [H1 H2].
      now apply _recurse_plain.
  - assert (Hk : NoDup (map (fun av : string * pyval => KStr (fst av)) pub)).
    { rewrite <- (map_map fst KStr).
      apply Finite.Injective_map_NoDup; [intros x y [= H]; exact H|].
      unfold pub. clear - Hnd.
      induction vars as [|[a v] r IH]; simpl; [constructor|].
      inversion Hnd as [|? ? Hn Hr]; subst.
      destruct (is_private a); simpl; [now apply IH|].
      constructor; [|now apply IH]. intros Hin. apply Hn.
      apply in_map_iff in Hin as [x [Hx Hin]].
      apply filter_In in Hin as [Hin _]. apply in_map_iff. now exists x. }
    destruct reflective; cbn [_prepare_serial_dict od_set od_keys map app fst];
      [|exact Hk].
    constructor; [|exact Hk]. intros Hin.
    apply in_map_iff in Hin as [[a v] [[= Ha] Hin]].
    destruct (Hpub _ Hin) as [_ Hp]. cbn [fst] in *. subst a.
    discriminate.
Qed.

End DefaultSerialize.

Lemma Serializable_serialize_public_attributes_witness :
  serialize Zoo.modules 3
    (VObj (get_class_name Zoo.Stray)
          [("name", VStr "tramp"); ("_seen", VInt 4);
           ("tags", VList [VStr "shy"; VDict [(KStr "age", VInt 2)]])])
    true
  = Ok (VDict [(KStr "_CLS", VStr "zoo.Stray"); (KStr "name", VStr "tramp");
               (KStr "tags",
                VList [VStr "shy"; VDict [(KStr "age", VInt 2)]])]).
Proof.
  apply (Serializable_serialize_public_attributes Zoo.modules Zoo.Stray
           [("name", VStr "tramp"); ("_seen", VInt 4);
            ("tags", VList [VStr "shy"; VDict [(KStr "age", VInt 2)]])]
           true 3).
  - repeat split; reflexivity.
  - reflexivity.
  - repeat constructor; simpl; intuition discriminate.
  - repeat constructor; simpl; lia.
Defined.

(* ================================================================== *)
(** ** The key=value shorthand of [load_json] *)

Lemma split_on_nonempty (sep : ascii) (s : string) : split_on sep s <> [].
Proof.
  destruct s as [|c r]; simpl; [discriminate|].
  destruct (Ascii.eqb c sep); [discriminate|].
  destruct (split_on sep r); discriminate.
Qed.

Lemma split_on_one (sep : ascii) (s b : string) :
  split_on sep s = [b] -> s = b /\ count_char sep s = 0%nat.
Proof.
  revert b. induction s as [|c r IH]; intros b; simpl.
  - now intros [= <-].
  - destruct (Ascii.eqb c sep).
    + intros [= _ H]. now destruct (split_on_nonempty sep r).
    + destruct (split_on sep r) as [|h t] eqn:E;
        [now destruct (split_on_nonempty sep r)|].
      intros [= <- ->]. destruct (IH h eq_refl) as [-> Hc]. now split.
Qed.

Lemma split_on_two (sep : ascii) (s a b : string) :
  split_on sep s = [a; b] ->
  s = (a ++ String sep b)%string /\ count_char sep s = 1%nat.
Proof.
  revert a. induction s as [|c r IH]; intros a; simpl; [discriminate|].
  destruct (Ascii.eqb_spec c sep) as [->|Hne].
  - intros [= <- H]. destruct (split_on_one sep r b H) as [-> Hc].
    split; [reflexivity|]. now rewrite Hc.
  - destruct (split_on sep r) as [|h t] eqn:E; [discriminate|].
    intros [= <- ->]. destruct (IH h eq_refl) as [-> Hc].
    split; [reflexivity|].
    simpl. destruct (Ascii.eqb_spec c sep); [contradiction|exact Hc].
Qed.

Section Shorthand.
Variable json_loads : string -> option pyval.
Variable fs : string -> file_state.

Lemma load_chunks_ok (chunks : list string) :
  forall d0 d : odict pyval,
    load_chunks json_loads chunks d0 = Ok d ->
    (forall k, od_mem k d0 = true -> od_mem k d = true)
    /\ Forall (fun chunk =>
                 exists key value x,
                   chunk = (key ++ String "=" value)%string
                   /\ count_char "=" chunk = 1%nat
                   /\ json_loads value = Some x
                   /\ od_mem (KStr key) d = true) chunks
    /\ (forall k, od_mem k d = true ->
                  od_mem k d0 = true
                  \/ exists key value,
                       In (key ++ String "=" value)%string chunks
                       /\ k = KStr key).
Proof.
  induction chunks as [|chunk rest IH]; intros d0 d; simpl.
  - intros [= <-]. repeat split; auto.
  - destruct (split_on "=" chunk) as [|key [|value [|x t]]] eqn:Hsp;
      try discriminate.
    unfold _load_json. destruct (json_loads value) as [x|] eqn:Hx;
      [|discriminate].
    cbn [bind]. intros H. destruct (IH _ _ H) as (Hmono & Hall & Hback).
    destruct (split_on_two "=" chunk key value Hsp) as [Hc Hn].
    assert (Hkey : od_mem (KStr key) d = true).
    { apply Hmono. rewrite od_mem_set. now rewrite key_eqb_refl. }
    split; [|split].
    + intros k Hk. apply Hmono. rewrite od_mem_set, Hk. apply orb_true_r.
    + constructor; [|exact Hall]. now exists key, value, x.
    + intros k Hk. destruct (Hback k Hk) as [H0|(key' & value' & Hin & ->)].
      * rewrite od_mem_set in H0. apply orb_prop in H0 as [H0|H0].
        -- right. exists key, value. split; [left; now symmetry|].
           destruct (key_eqb_spec (KStr key) k); congruence.
        -- now left.
      * right. exists key', value'. split; [now right|reflexivity].
Qed.

(** X20.  When the text is no JSON literal and names no file, [load_json]
    returns only if every comma-separated chunk has exactly one ["="],
    with a JSON literal after it; what it returns is a dictionary whose
    keys are the texts before the ["="] of the chunks. *)
Theorem load_json_shorthand_chunks (s : string) (v : pyval) :
  json_loads s = None ->
  isfile fs s = false ->
  load_json json_loads fs s = Ok v ->
  exists d,
    v = VDict d
    /\ Forall (fun chunk =>
                 exists key value x,
                   chunk = (key ++ String "=" value)%string
                   /\ count_char "=" chunk = 1%nat
                   /\ json_loads value = Some x
                   /\ od_mem (KStr key) d = true) (split_on "," s)
    /\ (forall k, od_mem k d = true ->
                  exists key value,
                    In (key ++ String "=" value)%string (split_on "," s)
                    /\ k = KStr key).
Proof.
  intros Hlit Hfile. unfold load_json, _load_json, load_key_values.
  rewrite Hlit, Hfile.
  destruct (load_chunks json_loads (split_on "," s) []) as [d|e] eqn:Hd;
    cbn [bind]; [|destruct e; discriminate].
  intros [= <-]. exists d.
  destruct (load_chunks_ok _ _ _ Hd) as (_ & Hall & Hback).
  repeat split; [exact Hall|].
  intros k Hk. destruct (Hback k Hk) as [H0|H0]; [discriminate|exact H0].
Qed.

End Shorthand.

Lemma load_json_shorthand_chunks_witness :
  exists d,
    VDict [(KStr "a", VInt 2); (KStr "b", VInt 3)] = VDict d
    /\ Forall (fun chunk =>
                 exists key value x,
                   chunk = (key ++ String "=" value)%string
                   /\ count_char "=" chunk = 1%nat
                   /\ Zoo.json_loads value = Some x
                   /\ od_mem (KStr key) d = true) (split_on "," "a=1,b=3,a=2")
    /\ (forall k, od_mem k d = true ->
                  exists key value,
                    In (key ++ String "=" value)%string
                       (split_on "," "a=1,b=3,a=2")
                    /\ k = KStr key).
Proof.
  apply (load_json_shorthand_chunks Zoo.json_loads Zoo.fs "a=1,b=3,a=2"
           (VDict [(KStr "a", VInt 2); (KStr "b", VInt 3)])); reflexivity.
Defined.

(** A value that holds a comma or a second ["="] cannot be written in
    the shorthand. *)
Example load_json_shorthand_rejects :
  load_json Zoo.json_loads Zoo.fs "a=1=2" = Raise ValueError
  /\ load_json Zoo.json_loads Zoo.fs "a=1,b" = Raise ValueError
  /\ load_json Zoo.json_loads Zoo.fs "" = Raise ValueError.
Proof. repeat split; reflexivity. Qed.

(* ================================================================== *)
(** ** Decoding with a class that has no element class *)

Section Abstract.
Variable modules : string -> option (string -> option pyclass).
Variable uuid4 : nat -> string.

(** X21.  [from_dict] of a [Container] or [Set] class that names no element
    class, such as [Container] and [Set] themselves, raises the error
    of its kind on a document without a ["_CLS"] entry: such a document
    can only be decoded with a concrete class.  The document is left as
    it was and no identifier is drawn. *)
Theorem from_dict_abstract_collection (cls : pyclass) (err : exn)
        (d : odict pyval) (fuel : nat) (w : world) :
  c_from_dict cls = None ->
  issubclass cls SERIALIZABLE = true ->
  collection_error cls = Some err ->
  c_ELE_CLS cls = None ->
  od_mem (KStr "_CLS") d = false ->
  from_dict modules uuid4 (S fuel) cls (VDict d) w
  = (Raise err, VDict d, w).
Proof.
  intros Hfd Hsub Hkind Hele Htag.
  cbn [from_dict]. rewrite Hfd, Hsub. cbn [negb].
  unfold collection_error in Hkind.
  destruct (kind_of cls) eqn:Hk; [discriminate| |]; injection Hkind as <-.
  - unfold Container_from_dict, collection_from_dict.
    destruct (c_ELE_CLS_FIELD cls) as [field|]; [|reflexivity].
    unfold resolve_classes, py_contains. rewrite Htag.
    unfold construct, lift. rewrite Hk.
    unfold Container_init, Container_validate. now rewrite Hele.
  - unfold Set_from_dict, collection_from_dict.
    destruct (c_ELE_CLS_FIELD cls) as [field|]; [|reflexivity].
    unfold resolve_classes, py_contains. rewrite Htag.
    unfold construct. rewrite Hk.
    unfold Set_init, sbind, lift, Set_validate. now rewrite Hele.
Qed.

End Abstract.

Lemma from_dict_abstract_collection_witness :
  from_dict Zoo.modules Zoo.uuid4 2 Set_cls
    (VDict [(KStr "elements", VList [Zoo.dog_doc "rex" 3])]) 0%nat
  = (Raise SetError,
     VDict [(KStr "elements", VList [Zoo.dog_doc "rex" 3])], 0%nat).
Proof.
  apply (from_dict_abstract_collection Zoo.modules Zoo.uuid4 Set_cls
           SetError [(KStr "elements", VList [Zoo.dog_doc "rex" 3])]
           1 0%nat); reflexivity.
Defined.
